(** * Bank account object model of trilha-python-dio

    Shallow embedding of the two versions of [desafio_v1.py]:

    - [02 - Programacao Orientada a Objetos/10 - desafio/desafio_v1.py],
      embedded in module [POO];
    - [04 - Data e hora/desafio/desafio_v1.py], embedded in module [DataHora].

    Monetary amounts are Python integers (unbounded), hence [Z], in the
    modules [POO] and [DataHora]; module [Flutuante] is the second file on
    the floats its terminal functions hand to the classes.  A method
    that mutates [self] and prints to the console is a function from the
    object to a return value, the updated object and the lines printed. *)

From Stdlib Require Import Floats ZArith List String Bool Lia.
Import ListNotations.
Open Scope Z_scope.

(** ** Console output *)

(** The lines the account methods hand to [print], one constructor per
    literal of the source. *)
Inductive Mensagem : Type :=
| MsgValorInvalido          (* "Operacao falhou! O valor informado e invalido." *)
| MsgSaldoInsuficiente      (* "Operacao falhou! Voce nao tem saldo suficiente." *)
| MsgExcedeLimite           (* "Operacao falhou! O valor do saque excede o limite." *)
| MsgSaquesExcedido         (* "Operacao falhou! Numero maximo de saques excedido." *)
| MsgSaquesExcedidoDe (limite_saques : Z)
                            (* the same line with "({self._limite_saques})" interpolated *)
| MsgSaqueRealizado         (* "=== Saque realizado com sucesso! ===" *)
| MsgDepositoRealizado.     (* "=== Deposito realizado com sucesso! ===" *)

(** ** Methods: state passing with console output *)

Definition Metodo (S A : Type) : Type := S -> A * S * list Mensagem.

Definition ret {S A : Type} (a : A) : Metodo S A :=
  fun self => (a, self, []).

Definition bind {S A B : Type} (m : Metodo S A) (k : A -> Metodo S B) : Metodo S B :=
  fun self =>
    let '(a, self1, out1) := m self in
    let '(b, self2, out2) := k a self1 in
    (b, self2, out1 ++ out2).

Definition print {S : Type} (m : Mensagem) : Metodo S unit :=
  fun self => (tt, self, [m]).

Definition ler {S : Type} : Metodo S S :=
  fun self => (self, self, []).

Definition gravar {S : Type} (novo : S) : Metodo S unit :=
  fun _ => (tt, novo, []).

Declare Scope metodo_scope.
Delimit Scope metodo_scope with metodo.
Notation "x <- m ;; k" := (bind m (fun x => k))
  (at level 61, m at next level, right associativity) : metodo_scope.
Notation "m ;; k" := (bind m (fun _ => k))
  (at level 61, right associativity) : metodo_scope.
Open Scope metodo_scope.

(** Projections of the outcome of a call. *)
Definition retorno {S A : Type} (r : A * S * list Mensagem) : A := fst (fst r).
Definition depois {S A : Type} (r : A * S * list Mensagem) : S := snd (fst r).
Definition saida {S A : Type} (r : A * S * list Mensagem) : list Mensagem := snd r.

(** ** Data model (the same classes and attributes in both files) *)

(** One dictionary appended by [Historico.adicionar_transacao]:
    [{"tipo": ..., "valor": ..., "data": ...}]. *)
Record Registro : Type := {
  tipo : string;
  valor : Z;
  data : string
}.

(** [class Historico]: the list [self._transacoes]. *)
Record Historico : Type := {
  _transacoes : list Registro
}.

(** Identity of the owning [Cliente] object: an account keeps a reference
    to its customer, never a copy. *)
Definition RefCliente : Type := nat.

(** [class Conta]. *)
Record Conta : Type := {
  _saldo : Z;
  _numero : Z;
  _agencia : string;
  _cliente : RefCliente;
  _historico : Historico
}.

(** [class ContaCorrente(Conta)]: the inherited attributes plus [limite]
    and [limite_saques] (spelled [_limite] and [_limite_saques] in the
    second file). *)
Record ContaCorrente : Type := {
  conta : Conta;
  limite : Z;
  limite_saques : Z
}.

(** [class Transacao(ABC)] with its two concrete subclasses; the argument
    is the attribute [_valor]. *)
Inductive Transacao : Type :=
| Saque (_valor : Z)
| Deposito (_valor : Z).

(** Property [Transacao.valor]. *)
Definition Transacao_valor (t : Transacao) : Z :=
  match t with
  | Saque v => v
  | Deposito v => v
  end.

(** [transacao.__class__.__name__]. *)
Definition class_name (t : Transacao) : string :=
  match t with
  | Saque _ => "Saque"%string
  | Deposito _ => "Deposito"%string
  end.

(** An account object of either runtime class; method calls on it are
    resolved by the class, as Python does. *)
Inductive Objeto : Type :=
| DeConta (c : Conta)
| DeContaCorrente (cc : ContaCorrente).

(** Read-only properties of [Conta], inherited by [ContaCorrente]. *)
Definition saldo (c : Conta) : Z := _saldo c.
Definition numero (c : Conta) : Z := _numero c.
Definition agencia (c : Conta) : string := _agencia c.
Definition cliente (c : Conta) : RefCliente := _cliente c.
Definition historico (c : Conta) : Historico := _historico c.
Definition transacoes (h : Historico) : list Registro := _transacoes h.

(** The [Conta] part of an account object. *)
Definition como_conta (o : Objeto) : Conta :=
  match o with
  | DeConta c => c
  | DeContaCorrente cc => conta cc
  end.

(** Attribute assignments [self._saldo = ...] and the in-place
    [self._transacoes.append(...)]. *)
Definition atribuir_saldo (c : Conta) (s : Z) : Conta :=
  {| _saldo := s; _numero := _numero c; _agencia := _agencia c;
     _cliente := _cliente c; _historico := _historico c |}.

Definition atribuir_historico (c : Conta) (h : Historico) : Conta :=
  {| _saldo := _saldo c; _numero := _numero c; _agencia := _agencia c;
     _cliente := _cliente c; _historico := h |}.

(** [super().metodo(...)] inside [ContaCorrente]: the [Conta] method runs
    on the same object and sees only the inherited attributes. *)
Definition super {A : Type} (m : Metodo Conta A) : Metodo ContaCorrente A :=
  fun self =>
    let '(a, c, out) := m (conta self) in
    (a, {| conta := c; limite := limite self; limite_saques := limite_saques self |}, out).

(** Default arguments of [ContaCorrente.__init__]. *)
Definition limite_padrao : Z := 500.
Definition limite_saques_padrao : Z := 3.

(** The calls a client of the classes can make on an account object that
    change it: the two money-moving methods, [transacao.registrar(conta)],
    and a direct [conta.historico.adicionar_transacao(transacao)]. *)
Inductive Chamada : Type :=
| ChamaDepositar (valor : Z)
| ChamaSacar (valor : Z)
| ChamaRegistrar (transacao : Transacao) (agora : string)
| ChamaAdicionarTransacao (transacao : Transacao) (agora : string).

(** ** Failure reasons of the specification *)

(** The taxonomy of section 7 that concerns withdrawals. *)
Inductive Motivo : Type :=
| InvalidAmount
| InsufficientFunds
| LimitExceeded
| WithdrawalCountExceeded.

(** The reason a printed line reports; the two success lines report none. *)
Definition motivo_de (m : Mensagem) : option Motivo :=
  match m with
  | MsgValorInvalido => Some InvalidAmount
  | MsgSaldoInsuficiente => Some InsufficientFunds
  | MsgExcedeLimite => Some LimitExceeded
  | MsgSaquesExcedido => Some WithdrawalCountExceeded
  | MsgSaquesExcedidoDe _ => Some WithdrawalCountExceeded
  | MsgSaqueRealizado => None
  | MsgDepositoRealizado => None
  end.

(** The reasons reported by one call, in the order printed. *)
Fixpoint motivos (out : list Mensagem) : list Motivo :=
  match out with
  | [] => []
  | m :: out' =>
      match motivo_de m with
      | Some r => r :: motivos out'
      | None => motivos out'
      end
  end.

(** The two checks every account makes, invalid amount first. *)
Definition motivo_da_conta (c : Conta) (valor : Z) : option Motivo :=
  if valor <=? 0 then Some InvalidAmount
  else if valor >? saldo c then Some InsufficientFunds
  else None.

(** The two policy checks of the checking account, the per-withdrawal
    limit first.  [saques] is the number of withdrawals recorded in the
    History. *)
Definition motivo_da_politica (saques : Z) (cc : ContaCorrente) (valor : Z) : option Motivo :=
  if valor >? limite cc then Some LimitExceeded
  else if saques >=? limite_saques cc then Some WithdrawalCountExceeded
  else None.

(** The first of two checks that fails. *)
Definition ou_entao (primeiro segundo : option Motivo) : option Motivo :=
  match primeiro with
  | Some r => Some r
  | None => segundo
  end.

(** The order of checks in the words of the specification (section 4.1):
    invalid amount, then insufficient funds, then the checking-account
    policies.  This definition follows the specification, not the
    source. *)
Definition motivo_na_ordem_da_especificacao
    (saques : Z) (cc : ContaCorrente) (valor : Z) : option Motivo :=
  ou_entao (motivo_da_conta (conta cc) valor) (motivo_da_politica saques cc valor).

(** The order of checks as both files make them on a checking account:
    the policies first, then the checks every account makes. *)
Definition motivo_na_ordem_do_codigo
    (saques : Z) (cc : ContaCorrente) (valor : Z) : option Motivo :=
  ou_entao (motivo_da_politica saques cc valor) (motivo_da_conta (conta cc) valor).

(** The reasons a call reports when the first failing check is [m]. *)
Definition relatado (m : option Motivo) : list Motivo :=
  match m with
  | Some r => [r]
  | None => []
  end.

(** A withdrawal method of the checking account reports its failures in
    the order of the specification. *)
Definition segue_ordem_da_especificacao
    (numero_saques : Historico -> Z) (sacar : Z -> Metodo ContaCorrente bool) : Prop :=
  forall (cc : ContaCorrente) (valor : Z),
    motivos (saida (sacar valor cc)) =
    relatado (motivo_na_ordem_da_especificacao
                (numero_saques (historico (conta cc))) cc valor).

(** ** Construction of transaction objects (the same in both files) *)

(** A Python constructor either
    returns the object or raises; [None] stands for a raise.  Neither
    [Saque.__init__] nor [Deposito.__init__] has a guard or a [raise]: each
    only executes [self._valor = valor]. *)
Definition Saque_init (valor : Z) : option Transacao := Some (Saque valor).
Definition Deposito_init (valor : Z) : option Transacao := Some (Deposito valor).

(** ** First file: 02 - Programacao Orientada a Objetos *)

Module POO.

Definition AGENCIA_PADRAO : string := "0001".

(** [Historico.__init__] *)
Definition Historico_init : Historico := {| _transacoes := [] |}.

(** [Conta.__init__(self, numero, cliente)] *)
Definition Conta_init (numero : Z) (cliente : RefCliente) : Conta :=
  {| _saldo := 0; _numero := numero; _agencia := AGENCIA_PADRAO;
     _cliente := cliente; _historico := Historico_init |}.

(** [Conta.nova_conta(cls, cliente, numero)] with [cls = Conta] *)
Definition Conta_nova_conta (cliente : RefCliente) (numero : Z) : Conta :=
  Conta_init numero cliente.

(** [Conta.sacar(self, valor)] *)
Definition Conta_sacar (valor : Z) : Metodo Conta bool :=
  self <- ler ;;
  if valor <=? 0 then
    print MsgValorInvalido ;; ret false
  else if valor >? _saldo self then
    print MsgSaldoInsuficiente ;; ret false
  else
    gravar (atribuir_saldo self (_saldo self - valor)) ;;
    print MsgSaqueRealizado ;;
    ret true.

(** [Conta.depositar(self, valor)] *)
Definition Conta_depositar (valor : Z) : Metodo Conta bool :=
  self <- ler ;;
  if valor <=? 0 then
    print MsgValorInvalido ;; ret false
  else
    gravar (atribuir_saldo self (_saldo self + valor)) ;;
    print MsgDepositoRealizado ;;
    ret true.

(** [ContaCorrente.__init__(self, numero, cliente, limite=500, limite_saques=3)] *)
Definition ContaCorrente_init (numero : Z) (cliente : RefCliente)
    (limite limite_saques : Z) : ContaCorrente :=
  {| conta := Conta_init numero cliente;
     limite := limite;
     limite_saques := limite_saques |}.

(** [nova_conta] is inherited: with [cls = ContaCorrente] the call
    [cls(numero, cliente)] takes both defaults. *)
Definition ContaCorrente_nova_conta (cliente : RefCliente) (numero : Z) : ContaCorrente :=
  ContaCorrente_init numero cliente limite_padrao limite_saques_padrao.

(** [sum(1 for transacao in self.historico.transacoes
         if transacao["tipo"] == Saque.__name__)] *)
Definition numero_saques (h : Historico) : Z :=
  fold_left Z.add
    (map (fun _ => 1)
         (filter (fun transacao => String.eqb (tipo transacao) (class_name (Saque 0)))
                 (transacoes h)))
    0.

(** [ContaCorrente.sacar(self, valor)] *)
Definition ContaCorrente_sacar (valor : Z) : Metodo ContaCorrente bool :=
  self <- ler ;;
  let numero_saques := numero_saques (historico (conta self)) in
  if valor >? limite self then
    print MsgExcedeLimite ;; ret false
  else if numero_saques >=? limite_saques self then
    print MsgSaquesExcedido ;; ret false
  else
    super (Conta_sacar valor).

(** [Historico.adicionar_transacao(self, transacao)]; [agora] is the
    text of [datetime.now().strftime("%d-%m-%Y %H:%M:%S")]. *)
Definition Historico_adicionar_transacao (transacao : Transacao) (agora : string)
    : Metodo Historico unit :=
  self <- ler ;;
  gravar {| _transacoes :=
              _transacoes self ++
              [ {| tipo := class_name transacao;
                   valor := Transacao_valor transacao;
                   data := agora |} ] |}.

(** [conta.sacar(valor)] on an object of either class. *)
Definition sacar (valor : Z) : Metodo Objeto bool :=
  fun o =>
    match o with
    | DeConta c =>
        let '(r, c', out) := Conta_sacar valor c in (r, DeConta c', out)
    | DeContaCorrente cc =>
        let '(r, cc', out) := ContaCorrente_sacar valor cc in (r, DeContaCorrente cc', out)
    end.

(** [conta.depositar(valor)]: [ContaCorrente] does not override it. *)
Definition depositar (valor : Z) : Metodo Objeto bool :=
  fun o =>
    match o with
    | DeConta c =>
        let '(r, c', out) := Conta_depositar valor c in (r, DeConta c', out)
    | DeContaCorrente cc =>
        let '(r, cc', out) := super (Conta_depositar valor) cc in (r, DeContaCorrente cc', out)
    end.

(** [conta.historico.<metodo>(...)]: a method of the [Historico] object
    the account owns. *)
Definition no_historico {A : Type} (m : Metodo Historico A) : Metodo Objeto A :=
  fun o =>
    let '(a, h, out) := m (historico (como_conta o)) in
    match o with
    | DeConta c => (a, DeConta (atribuir_historico c h), out)
    | DeContaCorrente cc =>
        (a, DeContaCorrente {| conta := atribuir_historico (conta cc) h;
                               limite := limite cc;
                               limite_saques := limite_saques cc |}, out)
    end.

(** [Saque.registrar(self, conta)] *)
Definition Saque_registrar (self : Transacao) (agora : string) : Metodo Objeto unit :=
  sucesso_transacao <- sacar (Transacao_valor self) ;;
  if sucesso_transacao : bool then
    no_historico (Historico_adicionar_transacao self agora)
  else ret tt.

(** [Deposito.registrar(self, conta)] *)
Definition Deposito_registrar (self : Transacao) (agora : string) : Metodo Objeto unit :=
  sucesso_transacao <- depositar (Transacao_valor self) ;;
  if sucesso_transacao : bool then
    no_historico (Historico_adicionar_transacao self agora)
  else ret tt.

(** [transacao.registrar(conta)], resolved by the class of [transacao]. *)
Definition registrar (transacao : Transacao) (agora : string) : Metodo Objeto unit :=
  match transacao with
  | Saque _ => Saque_registrar transacao agora
  | Deposito _ => Deposito_registrar transacao agora
  end.

(** [Cliente.realizar_transacao(self, conta, transacao)]; the customer
    object itself is not touched. *)
Definition Cliente_realizar_transacao (transacao : Transacao) (agora : string)
    : Metodo Objeto unit :=
  registrar transacao agora.

(** One call on an account object, keeping only the object afterwards. *)
Definition chamar (ch : Chamada) (o : Objeto) : Objeto :=
  match ch with
  | ChamaDepositar valor => depois (depositar valor o)
  | ChamaSacar valor => depois (sacar valor o)
  | ChamaRegistrar transacao agora => depois (registrar transacao agora o)
  | ChamaAdicionarTransacao transacao agora =>
      depois (no_historico (Historico_adicionar_transacao transacao agora) o)
  end.

(** A sequence of calls, first call first. *)
Fixpoint executar (chs : list Chamada) (o : Objeto) : Objeto :=
  match chs with
  | [] => o
  | ch :: chs' => executar chs' (chamar ch o)
  end.

End POO.

(** ** Second file: 04 - Data e hora *)

(** The classes on integer amounts.  The terminal functions of this file
    hand them floats; the same classes on floats are module [Flutuante]
    below. *)

Module DataHora.

(** [Historico.__init__] *)
Definition Historico_init : Historico := {| _transacoes := [] |}.

(** [Conta.__init__(self, numero, cliente)] *)
Definition Conta_init (numero : Z) (cliente : RefCliente) : Conta :=
  {| _saldo := 0; _numero := numero; _agencia := "0001";
     _cliente := cliente; _historico := Historico_init |}.

(** [Conta.nova_conta(cls, cliente, numero)] with [cls = Conta] *)
Definition Conta_nova_conta (cliente : RefCliente) (numero : Z) : Conta :=
  Conta_init numero cliente.

(** [Conta.sacar(self, valor)]: the balance is compared first, and read
    through the property [saldo]. *)
Definition Conta_sacar (valor : Z) : Metodo Conta bool :=
  self <- ler ;;
  if valor >? saldo self then
    print MsgSaldoInsuficiente ;; ret false
  else if valor <=? 0 then
    print MsgValorInvalido ;; ret false
  else
    gravar (atribuir_saldo self (_saldo self - valor)) ;;
    print MsgSaqueRealizado ;;
    ret true.

(** [Conta.depositar(self, valor)] *)
Definition Conta_depositar (valor : Z) : Metodo Conta bool :=
  self <- ler ;;
  if valor <=? 0 then
    print MsgValorInvalido ;; ret false
  else
    gravar (atribuir_saldo self (_saldo self + valor)) ;;
    print MsgDepositoRealizado ;;
    ret true.

(** [ContaCorrente.__init__(self, numero, cliente, limite=500, limite_saques=3)] *)
Definition ContaCorrente_init (numero : Z) (cliente : RefCliente)
    (limite limite_saques : Z) : ContaCorrente :=
  {| conta := Conta_init numero cliente;
     limite := limite;
     limite_saques := limite_saques |}.

(** [ContaCorrente.nova_conta(cls, cliente, numero, limite=500, limite_saques=3)],
    overridden in this file. *)
Definition ContaCorrente_nova_conta (cliente : RefCliente) (numero : Z)
    (limite limite_saques : Z) : ContaCorrente :=
  ContaCorrente_init numero cliente limite limite_saques.

(** [len([transacao for transacao in self.historico.transacoes
         if transacao["tipo"] == "Saque"])] *)
Definition numero_saques (h : Historico) : Z :=
  Z.of_nat
    (List.length
       (filter (fun transacao => String.eqb (tipo transacao) "Saque")
               (transacoes h))).

(** [ContaCorrente.sacar(self, valor)] *)
Definition ContaCorrente_sacar (valor : Z) : Metodo ContaCorrente bool :=
  self <- ler ;;
  let numero_saques := numero_saques (historico (conta self)) in
  if valor >? limite self then
    print MsgExcedeLimite ;; ret false
  else if numero_saques >=? limite_saques self then
    print (MsgSaquesExcedidoDe (limite_saques self)) ;; ret false
  else
    super (Conta_sacar valor).

(** [Historico.adicionar_transacao(self, transacao)]; [agora] is the
    text of [datetime.now().strftime("%d-%m-%Y %H:%M:%S")]. *)
Definition Historico_adicionar_transacao (transacao : Transacao) (agora : string)
    : Metodo Historico unit :=
  self <- ler ;;
  gravar {| _transacoes :=
              _transacoes self ++
              [ {| tipo := class_name transacao;
                   valor := Transacao_valor transacao;
                   data := agora |} ] |}.

(** [conta.sacar(valor)] on an object of either class. *)
Definition sacar (valor : Z) : Metodo Objeto bool :=
  fun o =>
    match o with
    | DeConta c =>
        let '(r, c', out) := Conta_sacar valor c in (r, DeConta c', out)
    | DeContaCorrente cc =>
        let '(r, cc', out) := ContaCorrente_sacar valor cc in (r, DeContaCorrente cc', out)
    end.

(** [conta.depositar(valor)]: [ContaCorrente] does not override it. *)
Definition depositar (valor : Z) : Metodo Objeto bool :=
  fun o =>
    match o with
    | DeConta c =>
        let '(r, c', out) := Conta_depositar valor c in (r, DeConta c', out)
    | DeContaCorrente cc =>
        let '(r, cc', out) := super (Conta_depositar valor) cc in (r, DeContaCorrente cc', out)
    end.

(** [conta.historico.<metodo>(...)]: a method of the [Historico] object
    the account owns. *)
Definition no_historico {A : Type} (m : Metodo Historico A) : Metodo Objeto A :=
  fun o =>
    let '(a, h, out) := m (historico (como_conta o)) in
    match o with
    | DeConta c => (a, DeConta (atribuir_historico c h), out)
    | DeContaCorrente cc =>
        (a, DeContaCorrente {| conta := atribuir_historico (conta cc) h;
                               limite := limite cc;
                               limite_saques := limite_saques cc |}, out)
    end.

(** [Saque.registrar(self, conta)] *)
Definition Saque_registrar (self : Transacao) (agora : string) : Metodo Objeto unit :=
  sucesso_transacao <- sacar (Transacao_valor self) ;;
  if sucesso_transacao : bool then
    no_historico (Historico_adicionar_transacao self agora)
  else ret tt.

(** [Deposito.registrar(self, conta)] *)
Definition Deposito_registrar (self : Transacao) (agora : string) : Metodo Objeto unit :=
  sucesso_transacao <- depositar (Transacao_valor self) ;;
  if sucesso_transacao : bool then
    no_historico (Historico_adicionar_transacao self agora)
  else ret tt.

(** [transacao.registrar(conta)], resolved by the class of [transacao]. *)
Definition registrar (transacao : Transacao) (agora : string) : Metodo Objeto unit :=
  match transacao with
  | Saque _ => Saque_registrar transacao agora
  | Deposito _ => Deposito_registrar transacao agora
  end.

(** [Cliente.realizar_transacao(self, conta, transacao)]; the customer
    object itself is not touched. *)
Definition Cliente_realizar_transacao (transacao : Transacao) (agora : string)
    : Metodo Objeto unit :=
  registrar transacao agora.

(** One call on an account object, keeping only the object afterwards. *)
Definition chamar (ch : Chamada) (o : Objeto) : Objeto :=
  match ch with
  | ChamaDepositar valor => depois (depositar valor o)
  | ChamaSacar valor => depois (sacar valor o)
  | ChamaRegistrar transacao agora => depois (registrar transacao agora o)
  | ChamaAdicionarTransacao transacao agora =>
      depois (no_historico (Historico_adicionar_transacao transacao agora) o)
  end.

(** A sequence of calls, first call first. *)
Fixpoint executar (chs : list Chamada) (o : Objeto) : Objeto :=
  match chs with
  | [] => o
  | ch :: chs' => executar chs' (chamar ch o)
  end.

End DataHora.

(** ** Derived notions used in the statements *)

(** The History entries whose ["tipo"] is ["Saque"]: the withdrawals that
    were recorded. *)
Definition saques_registrados (h : Historico) : list Registro :=
  filter (fun r => String.eqb (tipo r) "Saque") (transacoes h).

(** The dictionary [adicionar_transacao] appends for [transacao]. *)
Definition registro_de (transacao : Transacao) (agora : string) : Registro :=
  {| tipo := class_name transacao;
     valor := Transacao_valor transacao;
     data := agora |}.

(** The policy gates of the checking account let a withdrawal of [a]
    through: [a] is within the limit and fewer than [limite_saques]
    withdrawals are recorded.  A plain account has no such gate. *)
Definition politica_permite (numero_saques : Historico -> Z) (o : Objeto) (a : Z) : Prop :=
  match o with
  | DeConta _ => True
  | DeContaCorrente cc =>
      a <= limite cc /\ numero_saques (historico (conta cc)) < limite_saques cc
  end.

(** ** Concrete accounts *)

(** A plain account after one deposit of 100. *)
Definition conta_com_100 : Conta :=
  como_conta (POO.executar [ChamaDepositar 100] (DeConta (POO.Conta_init 1001 0%nat))).

(** A checking account with the default limits after a recorded deposit
    of 1000 and three recorded withdrawals of 300: balance 100, the three
    withdrawals allowed are used up. *)
Definition corrente_esgotada : ContaCorrente :=
  match POO.executar
          [ChamaRegistrar (Deposito 1000) "01-01-2025 10:00:00";
           ChamaRegistrar (Saque 300) "01-01-2025 10:01:00";
           ChamaRegistrar (Saque 300) "01-01-2025 10:02:00";
           ChamaRegistrar (Saque 300) "01-01-2025 10:03:00"]
          (DeContaCorrente (POO.ContaCorrente_nova_conta 0%nat 1001)) with
  | DeContaCorrente cc => cc
  | DeConta c => {| conta := c; limite := limite_padrao; limite_saques := limite_saques_padrao |}
  end.

(** A checking account with the default limits and balance 1000, nothing
    withdrawn yet. *)
Definition corrente_com_1000 : ContaCorrente :=
  match POO.executar [ChamaRegistrar (Deposito 1000) "01-01-2025 10:00:00"]
          (DeContaCorrente (POO.ContaCorrente_nova_conta 0%nat 1001)) with
  | DeContaCorrente cc => cc
  | DeConta c => {| conta := c; limite := limite_padrao; limite_saques := limite_saques_padrao |}
  end.

(** A checking account as [nova_conta] returns it, with the default
    limits (500 per withdrawal, 3 withdrawals). *)
Definition corrente_nova : ContaCorrente := POO.ContaCorrente_nova_conta 0%nat 1001.

(** ** Derived notions for the ledger *)

(** Transactions sent one after the other through
    [Cliente.realizar_transacao], each with the clock reading of its
    recording. *)
Fixpoint POO_realizar_transacoes (ts : list (Transacao * string)) (o : Objeto) : Objeto :=
  match ts with
  | [] => o
  | (t, agora) :: ts' =>
      POO_realizar_transacoes ts' (depois (POO.Cliente_realizar_transacao t agora o))
  end.

Fixpoint DataHora_realizar_transacoes (ts : list (Transacao * string)) (o : Objeto) : Objeto :=
  match ts with
  | [] => o
  | (t, agora) :: ts' =>
      DataHora_realizar_transacoes ts' (depois (DataHora.Cliente_realizar_transacao t agora o))
  end.

(** Sum of the ["valor"] of the entries whose ["tipo"] is [nome]. *)
Fixpoint total_de (nome : string) (l : list Registro) : Z :=
  match l with
  | [] => 0
  | r :: l' => (if String.eqb (tipo r) nome then valor r else 0) + total_de nome l'
  end.

(** The object [o] with its balance set to [s], and with the entry [r]
    appended to its History. *)
Definition com_saldo (o : Objeto) (s : Z) : Objeto :=
  match o with
  | DeConta c => DeConta (atribuir_saldo c s)
  | DeContaCorrente cc =>
      DeContaCorrente {| conta := atribuir_saldo (conta cc) s;
                         limite := limite cc;
                         limite_saques := limite_saques cc |}
  end.

Definition com_registro (o : Objeto) (r : Registro) : Objeto :=
  match o with
  | DeConta c =>
      DeConta (atribuir_historico c {| _transacoes := _transacoes (_historico c) ++ [r] |})
  | DeContaCorrente cc =>
      DeContaCorrente
        {| conta := atribuir_historico (conta cc)
                      {| _transacoes := _transacoes (_historico (conta cc)) ++ [r] |};
           limite := limite cc;
           limite_saques := limite_saques cc |}
  end.

(** What never changes in an account object: its class, number, branch,
    customer and, on a checking account, its two limits. *)
Definition mesma_identidade (o o' : Objeto) : Prop :=
  _numero (como_conta o') = _numero (como_conta o) /\
  _agencia (como_conta o') = _agencia (como_conta o) /\
  _cliente (como_conta o') = _cliente (como_conta o) /\
  match o, o' with
  | DeConta _, DeConta _ => True
  | DeContaCorrente cc, DeContaCorrente cc' =>
      limite cc' = limite cc /\ limite_saques cc' = limite_saques cc
  | _, _ => False
  end.

(** A History entry as [registrar] can produce it: a positive amount
    under one of the two class names. *)
Definition registro_valido (r : Registro) : Prop :=
  0 < valor r /\ (tipo r = "Saque"%string \/ tipo r = "Deposito"%string).

(** On a checking account, a recorded withdrawal within the limit. *)
Definition saque_dentro_do_limite (o : Objeto) (r : Registro) : Prop :=
  match o with
  | DeConta _ => True
  | DeContaCorrente cc => tipo r = "Saque"%string -> valor r <= limite cc
  end.

(** Sending transactions through the customer is a sequence of
    [registrar] calls. *)
Definition como_chamadas (ts : list (Transacao * string)) : list Chamada :=
  map (fun par => ChamaRegistrar (fst par) (snd par)) ts.

(** The net amount the History accounts for: recorded deposits minus
    recorded withdrawals. *)
Definition extrato (c : Conta) : Z :=
  total_de "Deposito" (transacoes (historico c)) -
  total_de "Saque" (transacoes (historico c)).

(** Every entry of the History of [o] is one [registrar] can produce on
    [o]. *)
Definition historico_bem_formado (o : Objeto) : Prop :=
  Forall (fun r => registro_valido r /\ saque_dentro_do_limite o r)
         (transacoes (historico (como_conta o))).

(** On a checking account, no more withdrawals are recorded than
    [limite_saques] allows. *)
Definition dentro_do_maximo (o : Objeto) : Prop :=
  match o with
  | DeConta _ => True
  | DeContaCorrente cc =>
      Z.of_nat (List.length (saques_registrados (historico (conta cc))))
      <= Z.max 0 (limite_saques cc)
  end.


(** ** Second file, the terminal session: customers, accounts, listings *)

(** The functions of [04 - Data e hora/desafio/desafio_v1.py] around the
    classes.  The account objects are shared between the list [contas] of
    [main] and the lists of the customers: an account is referred to by its
    position in the list of [main], where [criar_conta] appends it, and a
    customer by its position in the list [clientes] ([RefCliente]); nothing
    is ever removed from either list. *)

(** [class Cliente]: [contas] refers to the accounts the customer owns. *)
Record Cliente : Type := {
  endereco : string;
  contas : list nat
}.

(** [class PessoaFisica(Cliente)]. *)
Record PessoaFisica : Type := {
  como_cliente : Cliente;
  nome : string;
  data_nascimento : string;
  cpf : string
}.

(** [class ContasIterador]: the list it walks and the cursor. *)
Record ContasIterador : Type := {
  it_contas : list ContaCorrente;
  _index : nat
}.

(** The exceptions the modelled functions can raise. *)
Inductive Excecao : Type :=
| EOFError
| IndexError
| ValueError
| StopIteration.

(** The lines written to the terminal, prompts of [input] included; a
    line that interpolates attributes carries them. *)
Inductive Linha : Type :=
| PerguntaCPFCliente        (* "Informe o CPF do cliente: " *)
| AvisoClienteNaoEncontrado (* "Cliente nao encontrado!" *)
| AvisoCPFInvalido          (* "CPF invalido! O CPF deve conter 11 digitos numericos." *)
| PerguntaCPF               (* "Informe o CPF (somente numeros): " *)
| AvisoClienteJaExiste      (* "Ja existe cliente com esse CPF!" *)
| PerguntaNome              (* "Informe o nome completo: " *)
| PerguntaNascimento        (* "Informe a data de nascimento (dd-mm-aaaa): " *)
| PerguntaEndereco          (* "Informe o endereco (logradouro, nro - bairro - cidade/sigla estado): " *)
| AvisoClienteCriado        (* "=== Cliente criado com sucesso! ===" *)
| AvisoContaCriada          (* "=== Conta criada com sucesso! ===" *)
| AvisoClienteSemConta      (* "Cliente nao possui conta!" *)
| TituloEscolhaConta        (* "Escolha a conta:" *)
| OpcaoConta (i : nat) (conta : nat)
                            (* "{i} - Agencia: {conta.agencia}, Numero: {conta.numero}" *)
| PerguntaNumeroConta       (* "Informe o numero da conta: " *)
| Separador                 (* "=" * 100 *)
| LinhaConta (agencia : string) (numero : Z) (titular : RefCliente) (saldo : Z)
                            (* agencia, numero, conta.cliente.nome and saldo of one account *)
| LinhaLog (agora : string) (funcao : string).
                            (* "{datetime.now()}: {func.__name__.upper()}" *)

(** What [main] holds and the terminal: the lines still to be read, the
    lines written, the customers and the accounts. *)
Record Mundo : Type := {
  entrada : list string;
  impresso : list Linha;
  lista_clientes : list PessoaFisica;
  lista_contas : list ContaCorrente
}.

(** How a call ends. *)
Inductive Fim (A : Type) : Type :=
| Retornou (a : A)
| Levantou (e : Excecao).
Arguments Retornou {A} a.
Arguments Levantou {A} e.

(** A function of the session: it reads and writes the terminal, changes
    the two lists, and returns or raises. *)
Definition Comando (A : Type) : Type := Mundo -> Fim A * Mundo.

Definition cret {A : Type} (a : A) : Comando A :=
  fun m => (Retornou a, m).

Definition cbind {A B : Type} (c : Comando A) (k : A -> Comando B) : Comando B :=
  fun m =>
    match c m with
    | (Retornou a, m1) => k a m1
    | (Levantou e, m1) => (Levantou e, m1)
    end.

Definition levantar {A : Type} (e : Excecao) : Comando A :=
  fun m => (Levantou e, m).

Definition o_mundo : Comando Mundo :=
  fun m => (Retornou m, m).

(** [print(linha)] *)
Definition escrever (linha : Linha) : Comando unit :=
  fun m =>
    (Retornou tt,
     {| entrada := entrada m; impresso := impresso m ++ [linha];
        lista_clientes := lista_clientes m; lista_contas := lista_contas m |}).

(** [input(pergunta)]: the prompt is written, then one line is read; at
    the end of the input [EOFError] is raised. *)
Definition input (pergunta : Linha) : Comando string :=
  fun m =>
    let m1 := {| entrada := entrada m; impresso := impresso m ++ [pergunta];
                 lista_clientes := lista_clientes m; lista_contas := lista_contas m |} in
    match entrada m with
    | [] => (Levantou EOFError, m1)
    | linha :: resto =>
        (Retornou linha,
         {| entrada := resto; impresso := impresso m1;
            lista_clientes := lista_clientes m1; lista_contas := lista_contas m1 |})
    end.

(** [clientes.append(cliente)] and [contas.append(conta)] on the lists of
    [main]. *)
Definition clientes_append (cliente : PessoaFisica) : Comando unit :=
  fun m =>
    (Retornou tt,
     {| entrada := entrada m; impresso := impresso m;
        lista_clientes := lista_clientes m ++ [cliente];
        lista_contas := lista_contas m |}).

Definition contas_append (conta : ContaCorrente) : Comando unit :=
  fun m =>
    (Retornou tt,
     {| entrada := entrada m; impresso := impresso m;
        lista_clientes := lista_clientes m;
        lista_contas := lista_contas m ++ [conta] |}).

(** [cliente.contas.append(conta)] on the customer object [ref]. *)
Definition PessoaFisica_contas_append (conta : nat) (p : PessoaFisica) : PessoaFisica :=
  {| como_cliente := {| endereco := endereco (como_cliente p);
                        contas := contas (como_cliente p) ++ [conta] |};
     nome := nome p; data_nascimento := data_nascimento p; cpf := cpf p |}.

Fixpoint no_objeto {A : Type} (f : A -> A) (ref : nat) (l : list A) : list A :=
  match l, ref with
  | [], _ => []
  | x :: l', O => f x :: l'
  | x :: l', S ref' => x :: no_objeto f ref' l'
  end.

Definition cliente_contas_append (ref : RefCliente) (conta : nat) : Comando unit :=
  fun m =>
    (Retornou tt,
     {| entrada := entrada m; impresso := impresso m;
        lista_clientes := no_objeto (PessoaFisica_contas_append conta) ref (lista_clientes m);
        lista_contas := lista_contas m |}).

(** [enumerate(l)]; also the objects of a list with their references. *)
Definition enumerate {A : Type} (l : list A) : list (nat * A) :=
  combine (seq 0 (List.length l)) l.

(** [l[i]] for a Python integer [i]: a negative index counts from the end;
    [None] stands for [IndexError]. *)
Definition indexar {A : Type} (l : list A) (i : Z) : option A :=
  if 0 <=? i then nth_error l (Z.to_nat i)
  else if - Z.of_nat (List.length l) <=? i then nth_error l (Z.to_nat (Z.of_nat (List.length l) + i))
  else None.

Declare Scope comando_scope.
Delimit Scope comando_scope with comando.
Notation "x <- c ;; k" := (cbind c (fun x => k))
  (at level 61, c at next level, right associativity) : comando_scope.
Notation "c ;; k" := (cbind c (fun _ => k))
  (at level 61, right associativity) : comando_scope.

Module Terminal.

Local Open Scope comando_scope.

(** [Cliente.__init__(self, endereco)] *)
Definition Cliente_init (endereco : string) : Cliente :=
  {| endereco := endereco; contas := [] |}.

(** [PessoaFisica.__init__(self, nome, data_nascimento, cpf, endereco)] *)
Definition PessoaFisica_init (nome data_nascimento cpf endereco : string) : PessoaFisica :=
  {| como_cliente := Cliente_init endereco;
     nome := nome; data_nascimento := data_nascimento; cpf := cpf |}.

(** [ContasIterador.__init__(self, contas)] *)
Definition ContasIterador_init (contas : list ContaCorrente) : ContasIterador :=
  {| it_contas := contas; _index := 0%nat |}.

(** [ContasIterador.__iter__(self)] *)
Definition ContasIterador_iter (self : ContasIterador) : ContasIterador := self.

(** [ContasIterador.__next__(self)]: [self.contas[self._index]] raises
    [IndexError] past the end, turned into [StopIteration] before the
    cursor moves. *)
Definition ContasIterador_next (self : ContasIterador) : Fim Linha * ContasIterador :=
  match nth_error (it_contas self) (_index self) with
  | Some cc =>
      (Retornou (LinhaConta (agencia (conta cc)) (numero (conta cc))
                            (cliente (conta cc)) (saldo (conta cc))),
       {| it_contas := it_contas self; _index := S (_index self) |})
  | None => (Levantou StopIteration, self)
  end.

(** The loop [for conta in iterador: print("=" * 100); print(conta)] of
    [listar_contas], run for at most [passos] calls of [__next__]: the
    lines printed and the iterator left behind, or [None] if the loop has
    not ended by then. *)
Fixpoint para_cada_conta (passos : nat) (iterador : ContasIterador)
    : option (list Linha * ContasIterador) :=
  match passos with
  | O => None
  | S passos' =>
      match ContasIterador_next iterador with
      | (Retornou conta, iterador') =>
          match para_cada_conta passos' iterador' with
          | Some (linhas, final) => Some (Separador :: conta :: linhas, final)
          | None => None
          end
      | (Levantou _, iterador') => Some ([], iterador')
      end
  end.

(** [listar_contas(contas)] *)
Definition listar_contas (passos : nat) (contas : list ContaCorrente) : option (list Linha) :=
  match para_cada_conta passos (ContasIterador_iter (ContasIterador_init contas)) with
  | Some (linhas, _) => Some linhas
  | None => None
  end.

(** [filtrar_cliente(cpf, clientes)]: the first customer object of the
    list with that CPF, given by its reference, or [None]. *)
Definition filtrar_cliente (cpf_procurado : string) (clientes : list PessoaFisica)
    : option RefCliente :=
  let clientes_filtrados :=
    filter (fun cliente => String.eqb (cpf (snd cliente)) cpf_procurado)
           (enumerate clientes) in
  match clientes_filtrados with
  | primeiro :: _ => Some (fst primeiro)
  | [] => None
  end.

(** [buscar_cliente(clientes)] *)
Definition buscar_cliente : Comando (option RefCliente) :=
  cpf <- input PerguntaCPFCliente ;;
  m <- o_mundo ;;
  match filtrar_cliente cpf (lista_clientes m) with
  | None => escrever AvisoClienteNaoEncontrado ;; cret None
  | Some cliente => cret (Some cliente)
  end.

(** The decorator [log_transacao]: the wrapped function runs, then one
    line with the clock reading and the upper-cased name is written; the
    result is passed on. *)
Definition log_transacao {A : Type} (nome_maiusculo : string) (func : Comando A)
    (agora : string) : Comando A :=
  resultado <- func ;;
  escrever (LinhaLog agora nome_maiusculo) ;;
  cret resultado.

(** [criar_conta(numero_conta, clientes, contas)], before decoration. *)
Definition criar_conta_corpo (numero_conta : Z) : Comando unit :=
  cliente <- buscar_cliente ;;
  match cliente with
  | None => cret tt
  | Some cliente =>
      let conta :=
        DataHora.ContaCorrente_nova_conta cliente numero_conta
          limite_padrao limite_saques_padrao in
      m <- o_mundo ;;
      let ref_conta := List.length (lista_contas m) in
      contas_append conta ;;
      cliente_contas_append cliente ref_conta ;;
      escrever AvisoContaCriada
  end.

Definition criar_conta (numero_conta : Z) (agora : string) : Comando unit :=
  log_transacao "CRIAR_CONTA" (criar_conta_corpo numero_conta) agora.

(** The branch ["nc"] of [main]:
    [numero_conta = len(contas) + 1; criar_conta(numero_conta, clientes, contas)]. *)
Definition main_nc (agora : string) : Comando unit :=
  m <- o_mundo ;;
  let numero_conta := Z.of_nat (List.length (lista_contas m)) + 1 in
  criar_conta numero_conta agora.

Section Embutidos.

(** Built-ins of Python on [str] that the functions call: [len] (the
    number of characters), [str.isdigit], [str.lower], and [int] on a line
    of input ([None] stands for [ValueError]). *)
Variable len : string -> nat.
Variable isdigit : string -> bool.
Variable lower : string -> string.
Variable int : string -> option Z.

(** [Historico.gerar_relatorio(self, tipo_transacao=None)]: the entries
    the generator yields, in the order it yields them. *)
Definition Historico_gerar_relatorio (tipo_transacao : option string) (self : Historico)
    : list Registro :=
  filter (fun transacao =>
            match tipo_transacao with
            | None => true
            | Some t => String.eqb (lower (tipo transacao)) (lower t)
            end)
         (_transacoes self).

(** [validar_cpf(cpf)] *)
Definition validar_cpf (cpf : string) : Comando bool :=
  if negb (Nat.eqb (len cpf) 11) || negb (isdigit cpf) then
    escrever AvisoCPFInvalido ;; cret false
  else cret true.

(** [criar_cliente(clientes)], before decoration. *)
Definition criar_cliente_corpo : Comando unit :=
  cpf <- input PerguntaCPF ;;
  valido <- validar_cpf cpf ;;
  if negb valido then cret tt
  else
    m <- o_mundo ;;
    match filtrar_cliente cpf (lista_clientes m) with
    | Some _ => escrever AvisoClienteJaExiste ;; cret tt
    | None =>
        nome <- input PerguntaNome ;;
        data_nascimento <- input PerguntaNascimento ;;
        endereco <- input PerguntaEndereco ;;
        let cliente := PessoaFisica_init nome data_nascimento cpf endereco in
        clientes_append cliente ;;
        escrever AvisoClienteCriado
    end.

Definition criar_cliente (agora : string) : Comando unit :=
  log_transacao "CRIAR_CLIENTE" criar_cliente_corpo agora.

(** The lines [print(f"{i} - ...")] of the loop over
    [enumerate(cliente.contas)]. *)
Fixpoint escrever_opcoes (opcoes : list (nat * nat)) : Comando unit :=
  match opcoes with
  | [] => cret tt
  | (i, conta) :: resto => escrever (OpcaoConta i conta) ;; escrever_opcoes resto
  end.

(** [recuperar_conta_cliente(cliente)]: the account chosen, by its
    reference. *)
Definition recuperar_conta_cliente (cliente : PessoaFisica) : Comando (option nat) :=
  match contas (como_cliente cliente) with
  | [] => escrever AvisoClienteSemConta ;; cret None
  | [unica] => cret (Some unica)
  | _ =>
      escrever TituloEscolhaConta ;;
      escrever_opcoes (enumerate (contas (como_cliente cliente))) ;;
      texto <- input PerguntaNumeroConta ;;
      match int texto with
      | None => levantar ValueError
      | Some escolha =>
          match indexar (contas (como_cliente cliente)) escolha with
          | None => levantar IndexError
          | Some conta => cret (Some conta)
          end
      end
  end.

End Embutidos.

(** A command of the menu that changes the customers or the accounts,
    with the clock reading of its log line. *)
Inductive Opcao : Type :=
| OpcaoNu (agora : string)
| OpcaoNc (agora : string).

(** The session after the commands [ops], one after the other, as the
    loop of [main] runs them; a command that raises ends the program there.
    The line [menu] reads before each command is not part of [entrada],
    which holds the lines the commands themselves read. *)
Fixpoint sessao (len : string -> nat) (isdigit : string -> bool)
    (ops : list Opcao) (m : Mundo) : Mundo :=
  match ops with
  | [] => m
  | op :: ops' =>
      let fim := match op with
                 | OpcaoNu agora => criar_cliente len isdigit agora m
                 | OpcaoNc agora => main_nc agora m
                 end in
      match fim with
      | (Retornou _, m1) => sessao len isdigit ops' m1
      | (Levantou _, m1) => m1
      end
  end.

End Terminal.

(** The session as [main] starts it, with the lines [linhas] waiting on
    the terminal. *)
Definition mundo_inicial (linhas : list string) : Mundo :=
  {| entrada := linhas; impresso := []; lista_clientes := []; lista_contas := [] |}.

(** The registry of a session is consistent: the customers have pairwise
    different CPFs, each accepted by the validity test; the accounts are
    numbered 1, 2, 3, ... in the order of the list; every account names
    as its customer one that lists it; and every account a customer
    lists exists and names that customer. *)
Definition cadastro_consistente (len : string -> nat) (isdigit : string -> bool)
    (m : Mundo) : Prop :=
  NoDup (map cpf (lista_clientes m)) /\
  Forall (fun p => len (cpf p) = 11%nat /\ isdigit (cpf p) = true) (lista_clientes m) /\
  map (fun cc => numero (conta cc)) (lista_contas m)
    = map (fun i => Z.of_nat i + 1) (seq 0 (List.length (lista_contas m))) /\
  (forall (i : nat) (cc : ContaCorrente),
      nth_error (lista_contas m) i = Some cc ->
      exists p, nth_error (lista_clientes m) (cliente (conta cc)) = Some p /\
                In i (contas (como_cliente p))) /\
  (forall (r : nat) (p : PessoaFisica) (i : nat),
      nth_error (lista_clientes m) r = Some p ->
      In i (contas (como_cliente p)) ->
      exists cc, nth_error (lista_contas m) i = Some cc /\ cliente (conta cc) = r).


(** The two lines [listar_contas] prints for one account. *)
Definition linhas_da_conta (cc : ContaCorrente) : list Linha :=
  [Separador;
   LinhaConta (agencia (conta cc)) (numero (conta cc)) (cliente (conta cc)) (saldo (conta cc))].

(** Lower-casing of the letters A to Z, every other character kept: what
    [str.lower] does on a text of ASCII characters. *)
Definition minuscula (c : Ascii.ascii) : Ascii.ascii :=
  let n := Ascii.nat_of_ascii c in
  if (Nat.leb 65 n && Nat.leb n 90)%bool then Ascii.ascii_of_nat (n + 32) else c.

Fixpoint minusculas (s : string) : string :=
  match s with
  | EmptyString => EmptyString
  | String c s' => String (minuscula c) (minusculas s')
  end.


(** A text of ASCII digits only, at least one: what [str.isdigit] answers
    on a text of ASCII characters. *)
Definition digito (c : Ascii.ascii) : bool :=
  let n := Ascii.nat_of_ascii c in (Nat.leb 48 n && Nat.leb n 57)%bool.

Fixpoint todos_digitos (s : string) : bool :=
  match s with
  | EmptyString => true
  | String c s' => (digito c && todos_digitos s')%bool
  end.

Definition so_digitos (s : string) : bool :=
  match s with
  | EmptyString => false
  | _ => todos_digitos s
  end.

(** A session with one customer registered, and four lines waiting. *)
Definition mundo_com_um_cliente : Mundo :=
  {| entrada := ["98765432100"; "Ana Lima"; "02-03-1990"; "Rua B, 45"]%string;
     impresso := [];
     lista_clientes :=
       [Terminal.PessoaFisica_init "Luca Castro" "29-08-1994" "12345678900" "Rua A, 123"];
     lista_contas := [] |}.


(** A customer who owns the accounts 0, 3 and 5, and a session in which
    the answer ["-1"] is waiting. *)
Definition cliente_com_tres_contas : PessoaFisica :=
  {| como_cliente := {| endereco := "Rua A, 123"; contas := [0; 3; 5]%nat |};
     nome := "Luca Castro"; data_nascimento := "29-08-1994"; cpf := "12345678900" |}.

Definition cliente_com_uma_conta : PessoaFisica :=
  {| como_cliente := {| endereco := "Rua A, 123"; contas := [4]%nat |};
     nome := "Luca Castro"; data_nascimento := "29-08-1994"; cpf := "12345678900" |}.

(** A reading of the answers used in the examples: ["-1"], ["1"] and
    ["7"] are numbers, anything else is not. *)
Definition int_de_exemplo (texto : string) : option Z :=
  if String.eqb texto "-1" then Some (-1)
  else if String.eqb texto "1" then Some 1
  else if String.eqb texto "7" then Some 7
  else None.


(** ** Second file on floating-point amounts *)

(** In the second file every amount comes from [float(input(...))] in
    [obter_valor], so [valor] and, from the first deposit on, [_saldo] are
    Python floats: IEEE 754 binary64 numbers, here [float].  The
    comparisons answer [False] when an operand is NaN, and [+] and [-]
    round to the nearest float.  A new account has the integer balance
    [0], which compares and adds as [0.0]; the per-withdrawal limit is a
    number compared by value.  Module [Flutuante] is the classes of the
    second file on such amounts; [DataHora] is the same classes on integer
    amounts. *)

Module Flutuante.

(** The Python comparisons [a <= b] and [a > b] on floats. *)
Definition menor_ou_igual (a b : float) : bool := PrimFloat.leb a b.
Definition maior (a b : float) : bool := PrimFloat.ltb b a.

(** The dictionary appended by [Historico.adicionar_transacao]. *)
Record Registro : Type := {
  tipo : string;
  valor : float;
  data : string
}.

(** [class Historico] *)
Record Historico : Type := {
  _transacoes : list Registro
}.

(** [class Conta] *)
Record Conta : Type := {
  _saldo : float;
  _numero : Z;
  _agencia : string;
  _cliente : RefCliente;
  _historico : Historico
}.

(** [class ContaCorrente(Conta)] *)
Record ContaCorrente : Type := {
  conta : Conta;
  _limite : float;
  _limite_saques : Z
}.

(** [class Transacao(ABC)] with its two subclasses. *)
Inductive Transacao : Type :=
| Saque (_valor : float)
| Deposito (_valor : float).

Definition Transacao_valor (t : Transacao) : float :=
  match t with
  | Saque v => v
  | Deposito v => v
  end.

Definition class_name (t : Transacao) : string :=
  match t with
  | Saque _ => "Saque"%string
  | Deposito _ => "Deposito"%string
  end.

(** An account object of either runtime class. *)
Inductive Objeto : Type :=
| DeConta (c : Conta)
| DeContaCorrente (cc : ContaCorrente).

Definition saldo (c : Conta) : float := _saldo c.
Definition historico (c : Conta) : Historico := _historico c.
Definition transacoes (h : Historico) : list Registro := _transacoes h.

Definition como_conta (o : Objeto) : Conta :=
  match o with
  | DeConta c => c
  | DeContaCorrente cc => conta cc
  end.

Definition atribuir_saldo (c : Conta) (s : float) : Conta :=
  {| _saldo := s; _numero := _numero c; _agencia := _agencia c;
     _cliente := _cliente c; _historico := _historico c |}.

Definition atribuir_historico (c : Conta) (h : Historico) : Conta :=
  {| _saldo := _saldo c; _numero := _numero c; _agencia := _agencia c;
     _cliente := _cliente c; _historico := h |}.

(** [super().metodo(...)] inside [ContaCorrente]. *)
Definition super {A : Type} (m : Metodo Conta A) : Metodo ContaCorrente A :=
  fun self =>
    let '(a, c, out) := m (conta self) in
    (a, {| conta := c; _limite := _limite self; _limite_saques := _limite_saques self |}, out).

(** [Historico.__init__] *)
Definition Historico_init : Historico := {| _transacoes := [] |}.

(** [Conta.__init__(self, numero, cliente)] *)
Definition Conta_init (numero : Z) (cliente : RefCliente) : Conta :=
  {| _saldo := 0%float; _numero := numero; _agencia := "0001";
     _cliente := cliente; _historico := Historico_init |}.

(** [Conta.sacar(self, valor)] *)
Definition Conta_sacar (valor : float) : Metodo Conta bool :=
  self <- ler ;;
  if maior valor (saldo self) then
    print MsgSaldoInsuficiente ;; ret false
  else if menor_ou_igual valor 0%float then
    print MsgValorInvalido ;; ret false
  else
    gravar (atribuir_saldo self (PrimFloat.sub (_saldo self) valor)) ;;
    print MsgSaqueRealizado ;;
    ret true.

(** [Conta.depositar(self, valor)] *)
Definition Conta_depositar (valor : float) : Metodo Conta bool :=
  self <- ler ;;
  if menor_ou_igual valor 0%float then
    print MsgValorInvalido ;; ret false
  else
    gravar (atribuir_saldo self (PrimFloat.add (_saldo self) valor)) ;;
    print MsgDepositoRealizado ;;
    ret true.

(** [ContaCorrente.__init__(self, numero, cliente, limite=500, limite_saques=3)] *)
Definition ContaCorrente_init (numero : Z) (cliente : RefCliente)
    (limite : float) (limite_saques : Z) : ContaCorrente :=
  {| conta := Conta_init numero cliente;
     _limite := limite;
     _limite_saques := limite_saques |}.

(** [ContaCorrente.nova_conta(cls, cliente, numero, limite=500, limite_saques=3)] *)
Definition ContaCorrente_nova_conta (cliente : RefCliente) (numero : Z)
    (limite : float) (limite_saques : Z) : ContaCorrente :=
  ContaCorrente_init numero cliente limite limite_saques.

(** [len([transacao for transacao in self.historico.transacoes
         if transacao["tipo"] == "Saque"])] *)
Definition numero_saques (h : Historico) : Z :=
  Z.of_nat
    (List.length
       (filter (fun transacao => String.eqb (tipo transacao) "Saque")
               (transacoes h))).

(** [ContaCorrente.sacar(self, valor)] *)
Definition ContaCorrente_sacar (valor : float) : Metodo ContaCorrente bool :=
  self <- ler ;;
  let numero_saques := numero_saques (historico (conta self)) in
  if maior valor (_limite self) then
    print MsgExcedeLimite ;; ret false
  else if numero_saques >=? _limite_saques self then
    print (MsgSaquesExcedidoDe (_limite_saques self)) ;; ret false
  else
    super (Conta_sacar valor).

(** [Historico.adicionar_transacao(self, transacao)] *)
Definition Historico_adicionar_transacao (transacao : Transacao) (agora : string)
    : Metodo Historico unit :=
  self <- ler ;;
  gravar {| _transacoes :=
              _transacoes self ++
              [ {| tipo := class_name transacao;
                   valor := Transacao_valor transacao;
                   data := agora |} ] |}.

(** [conta.sacar(valor)] on an object of either class. *)
Definition sacar (valor : float) : Metodo Objeto bool :=
  fun o =>
    match o with
    | DeConta c =>
        let '(r, c', out) := Conta_sacar valor c in (r, DeConta c', out)
    | DeContaCorrente cc =>
        let '(r, cc', out) := ContaCorrente_sacar valor cc in (r, DeContaCorrente cc', out)
    end.

(** [conta.depositar(valor)]: [ContaCorrente] does not override it. *)
Definition depositar (valor : float) : Metodo Objeto bool :=
  fun o =>
    match o with
    | DeConta c =>
        let '(r, c', out) := Conta_depositar valor c in (r, DeConta c', out)
    | DeContaCorrente cc =>
        let '(r, cc', out) := super (Conta_depositar valor) cc in (r, DeContaCorrente cc', out)
    end.

(** [conta.historico.<metodo>(...)] *)
Definition no_historico {A : Type} (m : Metodo Historico A) : Metodo Objeto A :=
  fun o =>
    let '(a, h, out) := m (historico (como_conta o)) in
    match o with
    | DeConta c => (a, DeConta (atribuir_historico c h), out)
    | DeContaCorrente cc =>
        (a, DeContaCorrente {| conta := atribuir_historico (conta cc) h;
                               _limite := _limite cc;
                               _limite_saques := _limite_saques cc |}, out)
    end.

(** [Saque.registrar(self, conta)] *)
Definition Saque_registrar (self : Transacao) (agora : string) : Metodo Objeto unit :=
  sucesso_transacao <- sacar (Transacao_valor self) ;;
  if sucesso_transacao : bool then
    no_historico (Historico_adicionar_transacao self agora)
  else ret tt.

(** [Deposito.registrar(self, conta)] *)
Definition Deposito_registrar (self : Transacao) (agora : string) : Metodo Objeto unit :=
  sucesso_transacao <- depositar (Transacao_valor self) ;;
  if sucesso_transacao : bool then
    no_historico (Historico_adicionar_transacao self agora)
  else ret tt.

(** [transacao.registrar(conta)], resolved by the class of [transacao]. *)
Definition registrar (transacao : Transacao) (agora : string) : Metodo Objeto unit :=
  match transacao with
  | Saque _ => Saque_registrar transacao agora
  | Deposito _ => Deposito_registrar transacao agora
  end.

(** [Cliente.realizar_transacao(self, conta, transacao)] *)
Definition Cliente_realizar_transacao (transacao : Transacao) (agora : string)
    : Metodo Objeto unit :=
  registrar transacao agora.

(** The gates of the checking account let a withdrawal of [a] through. *)
Definition politica_permite (o : Objeto) (a : float) : Prop :=
  match o with
  | DeConta _ => True
  | DeContaCorrente cc =>
      maior a (_limite cc) = false /\
      numero_saques (historico (conta cc)) < _limite_saques cc
  end.

End Flutuante.

(** A plain account and a checking account of the second file (limits 500
    and 3) holding 1e16 after one deposit, and a new checking account. *)
Definition flutuante_conta_1e16 : Flutuante.Conta :=
  depois (Flutuante.Conta_depositar 1e16%float (Flutuante.Conta_init 1 0%nat)).

Definition flutuante_corrente_nova : Flutuante.ContaCorrente :=
  Flutuante.ContaCorrente_nova_conta 0%nat 1 500%float 3.


#[local] Set Warnings "-inexact-float".

(** A checking account of the second file (limits 500 and 3) holding 0.1
    after one deposit, and a new plain account. *)
Definition flutuante_corrente_com_01 : Flutuante.Objeto :=
  depois (Flutuante.depositar 0.1%float (Flutuante.DeContaCorrente flutuante_corrente_nova)).

Definition flutuante_conta_nova : Flutuante.Conta := Flutuante.Conta_init 1 0%nat.

(** A plain account of the second file whose balance has become NaN. *)
Definition flutuante_conta_nan : Flutuante.Conta :=
  depois (Flutuante.Conta_depositar nan (Flutuante.Conta_init 1 0%nat)).


(** * Verification *)

(** ** Proof steps shared by the method lemmas *)

(** Decide every integer test of the goal, keeping the fact it decides. *)
Ltac decidir_testes :=
  repeat match goal with
  | |- context [?a <=? ?b] => destruct (Z.leb_spec a b)
  | |- context [?a >? ?b] => destruct (Z.gtb_spec a b)
  | |- context [?a >=? ?b] => destruct (Z.geb_spec a b)
  end.

(** Expose the state-passing plumbing of a method body. *)
Ltac abrir_metodo :=
  cbv beta iota delta [bind ret print ler gravar super retorno depois saida
                       saldo historico transacoes como_conta].

Lemma ContaCorrente_eta (cc : ContaCorrente) :
  {| conta := conta cc; limite := limite cc; limite_saques := limite_saques cc |} = cc.
Proof. destruct cc; reflexivity. Qed.

(** ** The methods as case distinctions *)

Lemma POO_Conta_sacar_eq (valor : Z) (c : Conta) :
  POO.Conta_sacar valor c =
  if valor <=? 0 then (false, c, [MsgValorInvalido])
  else if valor >? _saldo c then (false, c, [MsgSaldoInsuficiente])
  else (true, atribuir_saldo c (_saldo c - valor), [MsgSaqueRealizado]).
Proof.
  unfold POO.Conta_sacar. abrir_metodo.
  destruct (valor <=? 0); [reflexivity|].
  destruct (valor >? _saldo c); reflexivity.
Qed.

Lemma DataHora_Conta_sacar_eq (valor : Z) (c : Conta) :
  DataHora.Conta_sacar valor c =
  if valor >? _saldo c then (false, c, [MsgSaldoInsuficiente])
  else if valor <=? 0 then (false, c, [MsgValorInvalido])
  else (true, atribuir_saldo c (_saldo c - valor), [MsgSaqueRealizado]).
Proof.
  unfold DataHora.Conta_sacar. abrir_metodo.
  destruct (valor >? _saldo c); [reflexivity|].
  destruct (valor <=? 0); reflexivity.
Qed.

Lemma POO_Conta_depositar_eq (valor : Z) (c : Conta) :
  POO.Conta_depositar valor c =
  if valor <=? 0 then (false, c, [MsgValorInvalido])
  else (true, atribuir_saldo c (_saldo c + valor), [MsgDepositoRealizado]).
Proof.
  unfold POO.Conta_depositar. abrir_metodo.
  destruct (valor <=? 0); reflexivity.
Qed.

Lemma DataHora_Conta_depositar_eq (valor : Z) (c : Conta) :
  DataHora.Conta_depositar valor c =
  if valor <=? 0 then (false, c, [MsgValorInvalido])
  else (true, atribuir_saldo c (_saldo c + valor), [MsgDepositoRealizado]).
Proof.
  unfold DataHora.Conta_depositar. abrir_metodo.
  destruct (valor <=? 0); reflexivity.
Qed.

Lemma POO_ContaCorrente_sacar_eq (valor : Z) (cc : ContaCorrente) :
  POO.ContaCorrente_sacar valor cc =
  if valor >? limite cc then (false, cc, [MsgExcedeLimite])
  else if POO.numero_saques (_historico (conta cc)) >=? limite_saques cc
       then (false, cc, [MsgSaquesExcedido])
  else super (POO.Conta_sacar valor) cc.
Proof.
  unfold POO.ContaCorrente_sacar. abrir_metodo.
  destruct (valor >? limite cc); [reflexivity|].
  destruct (_ >=? limite_saques cc); [reflexivity|].
  destruct (POO.Conta_sacar valor (conta cc)) as [[r c'] out]; reflexivity.
Qed.

Lemma DataHora_ContaCorrente_sacar_eq (valor : Z) (cc : ContaCorrente) :
  DataHora.ContaCorrente_sacar valor cc =
  if valor >? limite cc then (false, cc, [MsgExcedeLimite])
  else if DataHora.numero_saques (_historico (conta cc)) >=? limite_saques cc
       then (false, cc, [MsgSaquesExcedidoDe (limite_saques cc)])
  else super (DataHora.Conta_sacar valor) cc.
Proof.
  unfold DataHora.ContaCorrente_sacar. abrir_metodo.
  destruct (valor >? limite cc); [reflexivity|].
  destruct (_ >=? limite_saques cc); [reflexivity|].
  destruct (DataHora.Conta_sacar valor (conta cc)) as [[r c'] out]; reflexivity.
Qed.

(** ** Withdrawal from a plain account *)

(** [Conta.sacar] within and beyond the balance, on integer amounts. *)
Lemma Conta_sacar_dentro_e_fora_do_saldo (c : Conta) (a : Z) :
  (0 < a <= saldo c ->
     retorno (POO.Conta_sacar a c) = true /\
     saldo (depois (POO.Conta_sacar a c)) = saldo c - a) /\
  (a > saldo c ->
     retorno (POO.Conta_sacar a c) = false /\
     saldo (depois (POO.Conta_sacar a c)) = saldo c) /\
  (0 < a <= saldo c ->
     retorno (DataHora.Conta_sacar a c) = true /\
     saldo (depois (DataHora.Conta_sacar a c)) = saldo c - a) /\
  (a > saldo c ->
     retorno (DataHora.Conta_sacar a c) = false /\
     saldo (depois (DataHora.Conta_sacar a c)) = saldo c).
Proof.
  rewrite POO_Conta_sacar_eq, DataHora_Conta_sacar_eq.
  unfold saldo, retorno, depois.
  repeat split; intros; decidir_testes; simpl; auto; lia.
Qed.

(** ** Calls on an object of either class *)

Lemma POO_depositar_como_conta (valor : Z) (o : Objeto) :
  retorno (POO.depositar valor o) = retorno (POO.Conta_depositar valor (como_conta o)) /\
  como_conta (depois (POO.depositar valor o)) = depois (POO.Conta_depositar valor (como_conta o)) /\
  saida (POO.depositar valor o) = saida (POO.Conta_depositar valor (como_conta o)).
Proof.
  destruct o as [c | cc]; unfold POO.depositar, super; simpl;
    destruct (POO.Conta_depositar valor _) as [[r c'] out]; auto.
Qed.

Lemma DataHora_depositar_como_conta (valor : Z) (o : Objeto) :
  retorno (DataHora.depositar valor o) = retorno (DataHora.Conta_depositar valor (como_conta o)) /\
  como_conta (depois (DataHora.depositar valor o)) = depois (DataHora.Conta_depositar valor (como_conta o)) /\
  saida (DataHora.depositar valor o) = saida (DataHora.Conta_depositar valor (como_conta o)).
Proof.
  destruct o as [c | cc]; unfold DataHora.depositar, super; simpl;
    destruct (DataHora.Conta_depositar valor _) as [[r c'] out]; auto.
Qed.

(** A deposit that returns [False] leaves the whole object as it was. *)
Lemma POO_depositar_falha (valor : Z) (o : Objeto) :
  retorno (POO.depositar valor o) = false -> depois (POO.depositar valor o) = o.
Proof.
  destruct o as [c | cc]; unfold POO.depositar, super;
    rewrite POO_Conta_depositar_eq; destruct (valor <=? 0); simpl;
    try discriminate; intros _; try rewrite ContaCorrente_eta; reflexivity.
Qed.

Lemma DataHora_depositar_falha (valor : Z) (o : Objeto) :
  retorno (DataHora.depositar valor o) = false -> depois (DataHora.depositar valor o) = o.
Proof.
  destruct o as [c | cc]; unfold DataHora.depositar, super;
    rewrite DataHora_Conta_depositar_eq; destruct (valor <=? 0); simpl;
    try discriminate; intros _; try rewrite ContaCorrente_eta; reflexivity.
Qed.

(** [depositar] never touches the History, whatever it returns. *)
Lemma POO_depositar_historico (valor : Z) (o : Objeto) :
  _historico (como_conta (depois (POO.depositar valor o))) = _historico (como_conta o).
Proof.
  destruct (POO_depositar_como_conta valor o) as (_ & -> & _).
  rewrite POO_Conta_depositar_eq. destruct (valor <=? 0); reflexivity.
Qed.

Lemma DataHora_depositar_historico (valor : Z) (o : Objeto) :
  _historico (como_conta (depois (DataHora.depositar valor o))) = _historico (como_conta o).
Proof.
  destruct (DataHora_depositar_como_conta valor o) as (_ & -> & _).
  rewrite DataHora_Conta_depositar_eq. destruct (valor <=? 0); reflexivity.
Qed.

(** ** Deposit *)

(** On integer amounts [depositar] with [a <= 0] returns [False] and
    leaves the balance unchanged; with [a > 0] it returns [True] and adds
    exactly [a] to the balance; in both cases the History of the account is
    the one it had.  For an object of either class, in both files. *)
Lemma depositar_inteiros_saldo_e_historico (o : Objeto) (a : Z) :
  (a <= 0 ->
     retorno (POO.depositar a o) = false /\
     saldo (como_conta (depois (POO.depositar a o))) = saldo (como_conta o) /\
     historico (como_conta (depois (POO.depositar a o))) = historico (como_conta o)) /\
  (a > 0 ->
     retorno (POO.depositar a o) = true /\
     saldo (como_conta (depois (POO.depositar a o))) = saldo (como_conta o) + a /\
     historico (como_conta (depois (POO.depositar a o))) = historico (como_conta o)) /\
  (a <= 0 ->
     retorno (DataHora.depositar a o) = false /\
     saldo (como_conta (depois (DataHora.depositar a o))) = saldo (como_conta o) /\
     historico (como_conta (depois (DataHora.depositar a o))) = historico (como_conta o)) /\
  (a > 0 ->
     retorno (DataHora.depositar a o) = true /\
     saldo (como_conta (depois (DataHora.depositar a o))) = saldo (como_conta o) + a /\
     historico (como_conta (depois (DataHora.depositar a o))) = historico (como_conta o)).
Proof.
  destruct (POO_depositar_como_conta a o) as (-> & -> & _).
  destruct (DataHora_depositar_como_conta a o) as (-> & -> & _).
  rewrite POO_Conta_depositar_eq, DataHora_Conta_depositar_eq.
  unfold saldo, historico, retorno, depois.
  repeat split; intros; decidir_testes; simpl; auto; lia.
Qed.

(** ** Withdrawal from a checking account: the two policy gates *)

(** The generator sum of the first file and the list length of the second
    count the same thing: the recorded withdrawals. *)
Lemma soma_de_uns (A : Type) (l : list A) (acc : Z) :
  fold_left Z.add (map (fun _ => 1) l) acc = acc + Z.of_nat (List.length l).
Proof.
  revert acc; induction l as [| x l IH]; intros acc.
  - simpl. lia.
  - cbn [map fold_left List.length]. rewrite IH. lia.
Qed.

Lemma POO_numero_saques_conta (h : Historico) :
  POO.numero_saques h = Z.of_nat (List.length (saques_registrados h)).
Proof.
  unfold POO.numero_saques, saques_registrados, class_name.
  rewrite soma_de_uns. reflexivity.
Qed.

Lemma DataHora_numero_saques_conta (h : Historico) :
  DataHora.numero_saques h = Z.of_nat (List.length (saques_registrados h)).
Proof. reflexivity. Qed.

(** What [adicionar_transacao] does to the list of recorded withdrawals. *)
Lemma saques_registrados_app (l : list Registro) (r : Registro) :
  saques_registrados {| _transacoes := l ++ [r] |} =
  saques_registrados {| _transacoes := l |} ++
  (if String.eqb (tipo r) "Saque" then [r] else []).
Proof.
  unfold saques_registrados, transacoes; simpl.
  rewrite filter_app. simpl. destruct (String.eqb (tipo r) "Saque"); reflexivity.
Qed.

(** [sacar] never touches the History, whatever it returns. *)
Lemma POO_sacar_historico (valor : Z) (o : Objeto) :
  _historico (como_conta (depois (POO.sacar valor o))) = _historico (como_conta o).
Proof.
  destruct o as [c | cc]; unfold POO.sacar;
    [| rewrite POO_ContaCorrente_sacar_eq; unfold super ];
    rewrite ?POO_Conta_sacar_eq;
    repeat match goal with |- context [if ?b then _ else _] => destruct b end;
    reflexivity.
Qed.

Lemma DataHora_sacar_historico (valor : Z) (o : Objeto) :
  _historico (como_conta (depois (DataHora.sacar valor o))) = _historico (como_conta o).
Proof.
  destruct o as [c | cc]; unfold DataHora.sacar;
    [| rewrite DataHora_ContaCorrente_sacar_eq; unfold super ];
    rewrite ?DataHora_Conta_sacar_eq;
    repeat match goal with |- context [if ?b then _ else _] => destruct b end;
    reflexivity.
Qed.

(** A withdrawal that returns [False] leaves the whole object as it was. *)
Lemma POO_sacar_falha (valor : Z) (o : Objeto) :
  retorno (POO.sacar valor o) = false -> depois (POO.sacar valor o) = o.
Proof.
  destruct o as [c | cc]; unfold POO.sacar;
    [| rewrite POO_ContaCorrente_sacar_eq; unfold super ];
    rewrite ?POO_Conta_sacar_eq;
    repeat match goal with |- context [if ?b then _ else _] => destruct b end;
    simpl; try discriminate; intros _; rewrite ?ContaCorrente_eta; reflexivity.
Qed.

Lemma DataHora_sacar_falha (valor : Z) (o : Objeto) :
  retorno (DataHora.sacar valor o) = false -> depois (DataHora.sacar valor o) = o.
Proof.
  destruct o as [c | cc]; unfold DataHora.sacar;
    [| rewrite DataHora_ContaCorrente_sacar_eq; unfold super ];
    rewrite ?DataHora_Conta_sacar_eq;
    repeat match goal with |- context [if ?b then _ else _] => destruct b end;
    simpl; try discriminate; intros _; rewrite ?ContaCorrente_eta; reflexivity.
Qed.

(** The object and the History after [registrar]. *)
Lemma POO_no_historico_adicionar (t : Transacao) (agora : string) (o : Objeto) :
  como_conta (depois (POO.no_historico (POO.Historico_adicionar_transacao t agora) o)) =
  atribuir_historico (como_conta o)
    {| _transacoes := _transacoes (_historico (como_conta o)) ++ [registro_de t agora] |}.
Proof. destruct o; reflexivity. Qed.

Lemma DataHora_no_historico_adicionar (t : Transacao) (agora : string) (o : Objeto) :
  como_conta (depois (DataHora.no_historico (DataHora.Historico_adicionar_transacao t agora) o)) =
  atribuir_historico (como_conta o)
    {| _transacoes := _transacoes (_historico (como_conta o)) ++ [registro_de t agora] |}.
Proof. destruct o; reflexivity. Qed.

Lemma POO_registrar_saque (v : Z) (agora : string) (o : Objeto) :
  depois (POO.registrar (Saque v) agora o) =
  if retorno (POO.sacar v o)
  then depois (POO.no_historico (POO.Historico_adicionar_transacao (Saque v) agora)
                                (depois (POO.sacar v o)))
  else depois (POO.sacar v o).
Proof.
  unfold POO.registrar, POO.Saque_registrar, bind, retorno, depois; simpl.
  destruct (POO.sacar v o) as [[r o'] out]; simpl.
  destruct r; simpl; [| reflexivity].
  destruct (POO.no_historico _ o') as [[u o''] out']; reflexivity.
Qed.

Lemma POO_registrar_deposito (v : Z) (agora : string) (o : Objeto) :
  depois (POO.registrar (Deposito v) agora o) =
  if retorno (POO.depositar v o)
  then depois (POO.no_historico (POO.Historico_adicionar_transacao (Deposito v) agora)
                                (depois (POO.depositar v o)))
  else depois (POO.depositar v o).
Proof.
  unfold POO.registrar, POO.Deposito_registrar, bind, retorno, depois; simpl.
  destruct (POO.depositar v o) as [[r o'] out]; simpl.
  destruct r; simpl; [| reflexivity].
  destruct (POO.no_historico _ o') as [[u o''] out']; reflexivity.
Qed.

Lemma DataHora_registrar_saque (v : Z) (agora : string) (o : Objeto) :
  depois (DataHora.registrar (Saque v) agora o) =
  if retorno (DataHora.sacar v o)
  then depois (DataHora.no_historico (DataHora.Historico_adicionar_transacao (Saque v) agora)
                                     (depois (DataHora.sacar v o)))
  else depois (DataHora.sacar v o).
Proof.
  unfold DataHora.registrar, DataHora.Saque_registrar, bind, retorno, depois; simpl.
  destruct (DataHora.sacar v o) as [[r o'] out]; simpl.
  destruct r; simpl; [| reflexivity].
  destruct (DataHora.no_historico _ o') as [[u o''] out']; reflexivity.
Qed.

Lemma DataHora_registrar_deposito (v : Z) (agora : string) (o : Objeto) :
  depois (DataHora.registrar (Deposito v) agora o) =
  if retorno (DataHora.depositar v o)
  then depois (DataHora.no_historico (DataHora.Historico_adicionar_transacao (Deposito v) agora)
                                     (depois (DataHora.depositar v o)))
  else depois (DataHora.depositar v o).
Proof.
  unfold DataHora.registrar, DataHora.Deposito_registrar, bind, retorno, depois; simpl.
  destruct (DataHora.depositar v o) as [[r o'] out]; simpl.
  destruct r; simpl; [| reflexivity].
  destruct (DataHora.no_historico _ o') as [[u o''] out']; reflexivity.
Qed.

(** C3.  On a checking account whose History records as many withdrawals
    as [limite_saques], [sacar] returns [False] and leaves the balance
    unchanged, for every amount (so also for one within the balance and the
    per-withdrawal limit).  The number compared with [limite_saques] is the
    number of History entries of type ["Saque"]; [Saque.registrar] adds such
    an entry exactly when the withdrawal was applied, and
    [Deposito.registrar] never does.  The History is never reset, so the
    statement period is the whole life of the account.  Both files. *)
Theorem C3_maximo_de_saques_registrados :
  (forall (cc : ContaCorrente) (a : Z),
      POO.numero_saques (historico (conta cc)) = limite_saques cc ->
      retorno (POO.ContaCorrente_sacar a cc) = false /\
      saldo (conta (depois (POO.ContaCorrente_sacar a cc))) = saldo (conta cc)) /\
  (forall (cc : ContaCorrente) (a : Z),
      DataHora.numero_saques (historico (conta cc)) = limite_saques cc ->
      retorno (DataHora.ContaCorrente_sacar a cc) = false /\
      saldo (conta (depois (DataHora.ContaCorrente_sacar a cc))) = saldo (conta cc)) /\
  (forall h : Historico,
      POO.numero_saques h = Z.of_nat (List.length (saques_registrados h)) /\
      DataHora.numero_saques h = Z.of_nat (List.length (saques_registrados h))) /\
  (forall (o : Objeto) (v : Z) (agora : string),
      saques_registrados (historico (como_conta (depois (POO.registrar (Saque v) agora o)))) =
      saques_registrados (historico (como_conta o)) ++
      (if retorno (POO.sacar v o) then [registro_de (Saque v) agora] else []) /\
      saques_registrados (historico (como_conta (depois (DataHora.registrar (Saque v) agora o)))) =
      saques_registrados (historico (como_conta o)) ++
      (if retorno (DataHora.sacar v o) then [registro_de (Saque v) agora] else [])) /\
  (forall (o : Objeto) (v : Z) (agora : string),
      saques_registrados (historico (como_conta (depois (POO.registrar (Deposito v) agora o)))) =
      saques_registrados (historico (como_conta o)) /\
      saques_registrados (historico (como_conta (depois (DataHora.registrar (Deposito v) agora o)))) =
      saques_registrados (historico (como_conta o))).
Proof.
  split; [| split; [| split; [| split]]].
  - intros cc a H. rewrite POO_ContaCorrente_sacar_eq.
    unfold historico in H. rewrite H.
    unfold retorno, depois, saldo. decidir_testes; simpl; auto; lia.
  - intros cc a H. rewrite DataHora_ContaCorrente_sacar_eq.
    unfold historico in H. rewrite H.
    unfold retorno, depois, saldo. decidir_testes; simpl; auto; lia.
  - intros h. split.
    + apply POO_numero_saques_conta.
    + apply DataHora_numero_saques_conta.
  - intros o v agora. unfold historico. split.
    + rewrite POO_registrar_saque.
      destruct (retorno (POO.sacar v o)).
      * rewrite POO_no_historico_adicionar. simpl.
        rewrite POO_sacar_historico.
        destruct (_historico (como_conta o)) as [l].
        apply saques_registrados_app.
      * rewrite POO_sacar_historico, app_nil_r. reflexivity.
    + rewrite DataHora_registrar_saque.
      destruct (retorno (DataHora.sacar v o)).
      * rewrite DataHora_no_historico_adicionar. simpl.
        rewrite DataHora_sacar_historico.
        destruct (_historico (como_conta o)) as [l].
        apply saques_registrados_app.
      * rewrite DataHora_sacar_historico, app_nil_r. reflexivity.
  - intros o v agora. unfold historico. split.
    + rewrite POO_registrar_deposito.
      destruct (retorno (POO.depositar v o)).
      * rewrite POO_no_historico_adicionar. simpl.
        rewrite POO_depositar_historico.
        destruct (_historico (como_conta o)) as [l].
        rewrite saques_registrados_app. simpl. apply app_nil_r.
      * rewrite POO_depositar_historico. reflexivity.
    + rewrite DataHora_registrar_deposito.
      destruct (retorno (DataHora.depositar v o)).
      * rewrite DataHora_no_historico_adicionar. simpl.
        rewrite DataHora_depositar_historico.
        destruct (_historico (como_conta o)) as [l].
        rewrite saques_registrados_app. simpl. apply app_nil_r.
      * rewrite DataHora_depositar_historico. reflexivity.
Qed.

(** Witness of C3: three withdrawals recorded, maximum three, balance 100;
    a withdrawal of 50 is within the balance and the limit of 500. *)
Lemma C3_witness :
  (POO.numero_saques (historico (conta corrente_esgotada)) = limite_saques corrente_esgotada /\
   retorno (POO.ContaCorrente_sacar 50 corrente_esgotada) = false /\
   saldo (conta (depois (POO.ContaCorrente_sacar 50 corrente_esgotada)))
     = saldo (conta corrente_esgotada)) /\
  (DataHora.numero_saques (historico (conta corrente_esgotada)) = limite_saques corrente_esgotada /\
   retorno (DataHora.ContaCorrente_sacar 50 corrente_esgotada) = false /\
   saldo (conta (depois (DataHora.ContaCorrente_sacar 50 corrente_esgotada)))
     = saldo (conta corrente_esgotada)).
Proof.
  split.
  - assert (H : POO.numero_saques (historico (conta corrente_esgotada))
                = limite_saques corrente_esgotada) by reflexivity.
    split; [exact H |].
    exact (proj1 C3_maximo_de_saques_registrados corrente_esgotada 50 H).
  - assert (H : DataHora.numero_saques (historico (conta corrente_esgotada))
                = limite_saques corrente_esgotada) by reflexivity.
    split; [exact H |].
    exact (proj1 (proj2 C3_maximo_de_saques_registrados) corrente_esgotada 50 H).
Defined.

(** C4.  On a checking account with per-withdrawal limit [L], [sacar] with
    an amount [a > L] returns [False] and leaves the balance unchanged,
    whatever the balance is.  Both files. *)
Theorem C4_saque_acima_do_limite (cc : ContaCorrente) (a : Z) :
  a > limite cc ->
  (retorno (POO.ContaCorrente_sacar a cc) = false /\
   saldo (conta (depois (POO.ContaCorrente_sacar a cc))) = saldo (conta cc)) /\
  (retorno (DataHora.ContaCorrente_sacar a cc) = false /\
   saldo (conta (depois (DataHora.ContaCorrente_sacar a cc))) = saldo (conta cc)).
Proof.
  intros H.
  rewrite POO_ContaCorrente_sacar_eq, DataHora_ContaCorrente_sacar_eq.
  unfold retorno, depois, saldo.
  destruct (Z.gtb_spec a (limite cc)); [simpl; auto | lia].
Qed.

(** Witness of C4: balance 1000, limit 500, withdrawing 600. *)
Lemma C4_witness :
  600 > limite corrente_com_1000 /\
  600 <= saldo (conta corrente_com_1000) /\
  (retorno (POO.ContaCorrente_sacar 600 corrente_com_1000) = false /\
   saldo (conta (depois (POO.ContaCorrente_sacar 600 corrente_com_1000)))
     = saldo (conta corrente_com_1000)) /\
  (retorno (DataHora.ContaCorrente_sacar 600 corrente_com_1000) = false /\
   saldo (conta (depois (DataHora.ContaCorrente_sacar 600 corrente_com_1000)))
     = saldo (conta corrente_com_1000)).
Proof.
  assert (H : 600 > limite corrente_com_1000) by (change (600 > 500); lia).
  split; [exact H |].
  split; [change (600 <= 1000); lia |].
  exact (C4_saque_acima_do_limite corrente_com_1000 600 H).
Defined.

(** ** The balance along a sequence of calls *)

(** The balance after [sacar]: either the call returned [True], the amount
    was positive and covered, and the balance dropped by it; or it returned
    [False] and the object is untouched. *)
Lemma POO_sacar_casos (v : Z) (o : Objeto) :
  (retorno (POO.sacar v o) = true /\
   0 < v <= _saldo (como_conta o) /\
   _saldo (como_conta (depois (POO.sacar v o))) = _saldo (como_conta o) - v) \/
  (retorno (POO.sacar v o) = false /\ depois (POO.sacar v o) = o).
Proof.
  destruct o as [c | cc]; unfold POO.sacar;
    [| rewrite POO_ContaCorrente_sacar_eq; unfold super ];
    rewrite ?POO_Conta_sacar_eq; unfold retorno, depois;
    decidir_testes; simpl; rewrite ?ContaCorrente_eta;
    first [ right; split; reflexivity | left; repeat split; lia ].
Qed.

Lemma DataHora_sacar_casos (v : Z) (o : Objeto) :
  (retorno (DataHora.sacar v o) = true /\
   0 < v <= _saldo (como_conta o) /\
   _saldo (como_conta (depois (DataHora.sacar v o))) = _saldo (como_conta o) - v) \/
  (retorno (DataHora.sacar v o) = false /\ depois (DataHora.sacar v o) = o).
Proof.
  destruct o as [c | cc]; unfold DataHora.sacar;
    [| rewrite DataHora_ContaCorrente_sacar_eq; unfold super ];
    rewrite ?DataHora_Conta_sacar_eq; unfold retorno, depois;
    decidir_testes; simpl; rewrite ?ContaCorrente_eta;
    first [ right; split; reflexivity | left; repeat split; lia ].
Qed.

Lemma POO_depositar_saldo (v : Z) (o : Objeto) :
  _saldo (como_conta (depois (POO.depositar v o))) =
  if v <=? 0 then _saldo (como_conta o) else _saldo (como_conta o) + v.
Proof.
  destruct (POO_depositar_como_conta v o) as (_ & -> & _).
  rewrite POO_Conta_depositar_eq. destruct (v <=? 0); reflexivity.
Qed.

Lemma DataHora_depositar_saldo (v : Z) (o : Objeto) :
  _saldo (como_conta (depois (DataHora.depositar v o))) =
  if v <=? 0 then _saldo (como_conta o) else _saldo (como_conta o) + v.
Proof.
  destruct (DataHora_depositar_como_conta v o) as (_ & -> & _).
  rewrite DataHora_Conta_depositar_eq. destruct (v <=? 0); reflexivity.
Qed.

(** [registrar] moves the balance exactly as the method it calls. *)
Lemma POO_registrar_saldo (t : Transacao) (agora : string) (o : Objeto) :
  _saldo (como_conta (depois (POO.registrar t agora o))) =
  match t with
  | Saque v => _saldo (como_conta (depois (POO.sacar v o)))
  | Deposito v => _saldo (como_conta (depois (POO.depositar v o)))
  end.
Proof.
  destruct t as [v | v].
  - rewrite POO_registrar_saque. destruct (retorno (POO.sacar v o)); [| reflexivity].
    rewrite POO_no_historico_adicionar. reflexivity.
  - rewrite POO_registrar_deposito. destruct (retorno (POO.depositar v o)); [| reflexivity].
    rewrite POO_no_historico_adicionar. reflexivity.
Qed.

Lemma DataHora_registrar_saldo (t : Transacao) (agora : string) (o : Objeto) :
  _saldo (como_conta (depois (DataHora.registrar t agora o))) =
  match t with
  | Saque v => _saldo (como_conta (depois (DataHora.sacar v o)))
  | Deposito v => _saldo (como_conta (depois (DataHora.depositar v o)))
  end.
Proof.
  destruct t as [v | v].
  - rewrite DataHora_registrar_saque. destruct (retorno (DataHora.sacar v o)); [| reflexivity].
    rewrite DataHora_no_historico_adicionar. reflexivity.
  - rewrite DataHora_registrar_deposito. destruct (retorno (DataHora.depositar v o)); [| reflexivity].
    rewrite DataHora_no_historico_adicionar. reflexivity.
Qed.

(** One call keeps a non-negative balance non-negative. *)
Lemma POO_chamar_nao_negativo (ch : Chamada) (o : Objeto) :
  0 <= _saldo (como_conta o) -> 0 <= _saldo (como_conta (POO.chamar ch o)).
Proof.
  intros H.
  assert (Hs : forall v, 0 <= _saldo (como_conta (depois (POO.sacar v o)))).
  { intros v. destruct (POO_sacar_casos v o) as [(_ & Hv & ->) | (_ & ->)]; lia. }
  assert (Hd : forall v, 0 <= _saldo (como_conta (depois (POO.depositar v o)))).
  { intros v. rewrite POO_depositar_saldo. destruct (Z.leb_spec v 0); lia. }
  destruct ch as [v | v | t agora | t agora]; unfold POO.chamar.
  - apply Hd.
  - apply Hs.
  - rewrite POO_registrar_saldo. destruct t; [apply Hs | apply Hd].
  - rewrite POO_no_historico_adicionar. exact H.
Qed.

Lemma DataHora_chamar_nao_negativo (ch : Chamada) (o : Objeto) :
  0 <= _saldo (como_conta o) -> 0 <= _saldo (como_conta (DataHora.chamar ch o)).
Proof.
  intros H.
  assert (Hs : forall v, 0 <= _saldo (como_conta (depois (DataHora.sacar v o)))).
  { intros v. destruct (DataHora_sacar_casos v o) as [(_ & Hv & ->) | (_ & ->)]; lia. }
  assert (Hd : forall v, 0 <= _saldo (como_conta (depois (DataHora.depositar v o)))).
  { intros v. rewrite DataHora_depositar_saldo. destruct (Z.leb_spec v 0); lia. }
  destruct ch as [v | v | t agora | t agora]; unfold DataHora.chamar.
  - apply Hd.
  - apply Hs.
  - rewrite DataHora_registrar_saldo. destruct t; [apply Hs | apply Hd].
  - rewrite DataHora_no_historico_adicionar. exact H.
Qed.

Lemma POO_executar_nao_negativo (chs : list Chamada) (o : Objeto) :
  0 <= _saldo (como_conta o) -> 0 <= _saldo (como_conta (POO.executar chs o)).
Proof.
  revert o; induction chs as [| ch chs IH]; intros o H; simpl.
  - exact H.
  - apply IH, POO_chamar_nao_negativo, H.
Qed.

Lemma DataHora_executar_nao_negativo (chs : list Chamada) (o : Objeto) :
  0 <= _saldo (como_conta o) -> 0 <= _saldo (como_conta (DataHora.executar chs o)).
Proof.
  revert o; induction chs as [| ch chs IH]; intros o H; simpl.
  - exact H.
  - apply IH, DataHora_chamar_nao_negativo, H.
Qed.

(** C5.  Starting from a freshly created account of either class, after
    every sequence of calls (to [depositar], to [sacar], and also to
    [registrar] and to the History's [adicionar_transacao]) the balance is
    not negative.  A call that is neither [depositar] nor [sacar] does not
    change the balance on its own: [adicionar_transacao] leaves it as it
    is, and [registrar] leaves it as the [sacar] or [depositar] it calls
    left it.  Both files. *)
Theorem C5_saldo_nunca_negativo :
  (forall (numero : Z) (cliente : RefCliente) (limite limite_saques : Z) (chs : list Chamada),
      0 <= saldo (como_conta (POO.executar chs (DeConta (POO.Conta_init numero cliente)))) /\
      0 <= saldo (como_conta (POO.executar chs
                    (DeContaCorrente (POO.ContaCorrente_init numero cliente limite limite_saques)))) /\
      0 <= saldo (como_conta (DataHora.executar chs (DeConta (DataHora.Conta_init numero cliente)))) /\
      0 <= saldo (como_conta (DataHora.executar chs
                    (DeContaCorrente (DataHora.ContaCorrente_init numero cliente limite limite_saques))))) /\
  (forall (o : Objeto) (t : Transacao) (agora : string),
      saldo (como_conta (POO.chamar (ChamaAdicionarTransacao t agora) o)) = saldo (como_conta o) /\
      saldo (como_conta (DataHora.chamar (ChamaAdicionarTransacao t agora) o)) = saldo (como_conta o)) /\
  (forall (o : Objeto) (v : Z) (agora : string),
      saldo (como_conta (POO.chamar (ChamaRegistrar (Saque v) agora) o))
        = saldo (como_conta (POO.chamar (ChamaSacar v) o)) /\
      saldo (como_conta (POO.chamar (ChamaRegistrar (Deposito v) agora) o))
        = saldo (como_conta (POO.chamar (ChamaDepositar v) o)) /\
      saldo (como_conta (DataHora.chamar (ChamaRegistrar (Saque v) agora) o))
        = saldo (como_conta (DataHora.chamar (ChamaSacar v) o)) /\
      saldo (como_conta (DataHora.chamar (ChamaRegistrar (Deposito v) agora) o))
        = saldo (como_conta (DataHora.chamar (ChamaDepositar v) o))).
Proof.
  unfold saldo. split; [| split].
  - intros numero cliente limite limite_saques chs.
    repeat split;
      first [ apply POO_executar_nao_negativo | apply DataHora_executar_nao_negativo ];
      simpl; lia.
  - intros o t agora. unfold POO.chamar, DataHora.chamar.
    rewrite POO_no_historico_adicionar, DataHora_no_historico_adicionar.
    split; reflexivity.
  - intros o v agora. unfold POO.chamar, DataHora.chamar.
    rewrite (POO_registrar_saldo (Saque v)), (POO_registrar_saldo (Deposito v)),
            (DataHora_registrar_saldo (Saque v)), (DataHora_registrar_saldo (Deposito v)).
    repeat split; reflexivity.
Qed.

(** ** Which failure is reported *)

(** C6, as claimed, fails.  With the three allowed withdrawals used up, a
    withdrawal of -1 is refused for the number of withdrawals, not for the
    invalid amount; with balance 1000 and limit 500, a withdrawal of 1200 is
    refused for the limit, not for the insufficient balance.  Both files. *)
Lemma C6_counterexample :
  (motivos (saida (POO.ContaCorrente_sacar (-1) corrente_esgotada)) = [WithdrawalCountExceeded] /\
   motivos (saida (DataHora.ContaCorrente_sacar (-1) corrente_esgotada)) = [WithdrawalCountExceeded] /\
   motivo_na_ordem_da_especificacao
     (POO.numero_saques (historico (conta corrente_esgotada))) corrente_esgotada (-1)
   = Some InvalidAmount) /\
  (motivos (saida (POO.ContaCorrente_sacar 1200 corrente_com_1000)) = [LimitExceeded] /\
   motivos (saida (DataHora.ContaCorrente_sacar 1200 corrente_com_1000)) = [LimitExceeded] /\
   motivo_na_ordem_da_especificacao
     (POO.numero_saques (historico (conta corrente_com_1000))) corrente_com_1000 1200
   = Some InsufficientFunds) /\
  ~ segue_ordem_da_especificacao POO.numero_saques POO.ContaCorrente_sacar /\
  ~ segue_ordem_da_especificacao DataHora.numero_saques DataHora.ContaCorrente_sacar.
Proof.
  split; [repeat split; reflexivity |].
  split; [repeat split; reflexivity |].
  split; intros H; specialize (H corrente_com_1000 1200); discriminate H.
Qed.

(** C6, amended.  On a checking account the failure reported is decided by
    checking the per-withdrawal limit, then the number of recorded
    withdrawals, then the invalid amount, then the insufficient balance.
    On a plain account it is decided by checking the invalid amount, then
    the insufficient balance.  In the second file both hold for a balance
    that is not negative. *)
Theorem C6_ordem_das_verificacoes (cc : ContaCorrente) (c : Conta) (valor : Z) :
  motivos (saida (POO.ContaCorrente_sacar valor cc)) =
  relatado (motivo_na_ordem_do_codigo
              (POO.numero_saques (historico (conta cc))) cc valor) /\
  motivos (saida (POO.Conta_sacar valor c)) = relatado (motivo_da_conta c valor) /\
  (0 <= saldo (conta cc) ->
   motivos (saida (DataHora.ContaCorrente_sacar valor cc)) =
   relatado (motivo_na_ordem_do_codigo
               (DataHora.numero_saques (historico (conta cc))) cc valor)) /\
  (0 <= saldo c ->
   motivos (saida (DataHora.Conta_sacar valor c)) = relatado (motivo_da_conta c valor)).
Proof.
  rewrite POO_ContaCorrente_sacar_eq, DataHora_ContaCorrente_sacar_eq.
  unfold motivo_na_ordem_do_codigo, motivo_da_politica, motivo_da_conta, ou_entao,
         super, historico, saldo.
  rewrite !POO_Conta_sacar_eq, !DataHora_Conta_sacar_eq.
  split; [| split; [| split; intros Hs]].
  - destruct (valor >? limite cc); try reflexivity.
    destruct (_ >=? limite_saques cc); try reflexivity.
    decidir_testes; reflexivity.
  - decidir_testes; reflexivity.
  - destruct (valor >? limite cc); try reflexivity.
    destruct (_ >=? limite_saques cc); try reflexivity.
    decidir_testes; try reflexivity; lia.
  - decidir_testes; try reflexivity; lia.
Qed.

(** Witness of C6: the account with its withdrawals used up and balance
    100, asked for -1, and the plain account with balance 100, asked for
    150. *)
Lemma C6_witness :
  (0 <= saldo (conta corrente_esgotada) /\
   motivos (saida (DataHora.ContaCorrente_sacar (-1) corrente_esgotada)) =
   relatado (motivo_na_ordem_do_codigo
               (DataHora.numero_saques (historico (conta corrente_esgotada)))
               corrente_esgotada (-1))) /\
  (0 <= saldo conta_com_100 /\
   motivos (saida (DataHora.Conta_sacar 150 conta_com_100)) =
   relatado (motivo_da_conta conta_com_100 150)).
Proof.
  split.
  - assert (H : 0 <= saldo (conta corrente_esgotada)) by (change (0 <= 100); lia).
    split; [exact H |].
    exact (proj1 (proj2 (proj2
             (C6_ordem_das_verificacoes corrente_esgotada conta_com_100 (-1)))) H).
  - assert (H : 0 <= saldo conta_com_100) by (change (0 <= 100); lia).
    split; [exact H |].
    exact (proj2 (proj2 (proj2
             (C6_ordem_das_verificacoes corrente_esgotada conta_com_100 150))) H).
Defined.

(** ** Construction of transactions *)

(** A withdrawal of a non-positive amount is refused on every account. *)
Lemma POO_sacar_nao_positivo (v : Z) (o : Objeto) :
  v <= 0 -> retorno (POO.sacar v o) = false.
Proof.
  intros H. destruct (POO_sacar_casos v o) as [(_ & Hv & _) | (Hr & _)]; [lia | exact Hr].
Qed.

Lemma DataHora_sacar_nao_positivo (v : Z) (o : Objeto) :
  v <= 0 -> retorno (DataHora.sacar v o) = false.
Proof.
  intros H. destruct (DataHora_sacar_casos v o) as [(_ & Hv & _) | (Hr & _)]; [lia | exact Hr].
Qed.

Lemma POO_depositar_retorno (v : Z) (o : Objeto) :
  retorno (POO.depositar v o) = negb (v <=? 0).
Proof.
  destruct (POO_depositar_como_conta v o) as (-> & _).
  rewrite POO_Conta_depositar_eq. destruct (v <=? 0); reflexivity.
Qed.

Lemma DataHora_depositar_retorno (v : Z) (o : Objeto) :
  retorno (DataHora.depositar v o) = negb (v <=? 0).
Proof.
  destruct (DataHora_depositar_como_conta v o) as (-> & _).
  rewrite DataHora_Conta_depositar_eq. destruct (v <=? 0); reflexivity.
Qed.

(** C7, as claimed, fails: [Saque(-5)] and [Deposito(0)] are constructed,
    holding -5 and 0. *)
Lemma C7_counterexample :
  Saque_init (-5) = Some (Saque (-5)) /\
  Deposito_init 0 = Some (Deposito 0) /\
  ~ (forall a : Z, a <= 0 -> Saque_init a = None /\ Deposito_init a = None).
Proof.
  split; [reflexivity |]. split; [reflexivity |].
  intros H. destruct (H 0) as [H0 _]; [lia | discriminate H0].
Qed.

(** C7, amended.  Constructing [Saque(a)] or [Deposito(a)] succeeds for
    every amount [a] and stores it unchanged.  A non-positive amount is
    refused only by the account: [registrar] of such a transaction leaves
    the account, balance and History, as it was.  Both files. *)
Theorem C7_construcao_aceita_qualquer_valor (a : Z) :
  (Saque_init a = Some (Saque a) /\ Transacao_valor (Saque a) = a) /\
  (Deposito_init a = Some (Deposito a) /\ Transacao_valor (Deposito a) = a) /\
  (a <= 0 ->
   forall (o : Objeto) (agora : string),
     depois (POO.registrar (Saque a) agora o) = o /\
     depois (POO.registrar (Deposito a) agora o) = o /\
     depois (DataHora.registrar (Saque a) agora o) = o /\
     depois (DataHora.registrar (Deposito a) agora o) = o).
Proof.
  split; [split; reflexivity |]. split; [split; reflexivity |].
  intros H o agora.
  rewrite POO_registrar_saque, POO_registrar_deposito,
          DataHora_registrar_saque, DataHora_registrar_deposito.
  rewrite (POO_sacar_nao_positivo a o H), (DataHora_sacar_nao_positivo a o H).
  rewrite POO_depositar_retorno, DataHora_depositar_retorno.
  destruct (Z.leb_spec a 0); [simpl | lia].
  repeat split.
  - apply POO_sacar_falha, POO_sacar_nao_positivo, H.
  - apply POO_depositar_falha. rewrite POO_depositar_retorno.
    destruct (Z.leb_spec a 0); [reflexivity | lia].
  - apply DataHora_sacar_falha, DataHora_sacar_nao_positivo, H.
  - apply DataHora_depositar_falha. rewrite DataHora_depositar_retorno.
    destruct (Z.leb_spec a 0); [reflexivity | lia].
Qed.

(** Witness of C7: a withdrawal and a deposit of -5 registered on the
    checking account with balance 1000. *)
Lemma C7_witness :
  -5 <= 0 /\
  depois (POO.registrar (Saque (-5)) "01-01-2025 11:00:00" (DeContaCorrente corrente_com_1000))
    = DeContaCorrente corrente_com_1000 /\
  depois (POO.registrar (Deposito (-5)) "01-01-2025 11:00:00" (DeContaCorrente corrente_com_1000))
    = DeContaCorrente corrente_com_1000 /\
  depois (DataHora.registrar (Saque (-5)) "01-01-2025 11:00:00" (DeContaCorrente corrente_com_1000))
    = DeContaCorrente corrente_com_1000 /\
  depois (DataHora.registrar (Deposito (-5)) "01-01-2025 11:00:00" (DeContaCorrente corrente_com_1000))
    = DeContaCorrente corrente_com_1000.
Proof.
  assert (H : -5 <= 0) by lia.
  split; [exact H |].
  exact (proj2 (proj2 (C7_construcao_aceita_qualquer_valor (-5))) H
           (DeContaCorrente corrente_com_1000) "01-01-2025 11:00:00"%string).
Defined.

(** ** Recording in the History *)

(** C8.  When a transaction is applied through [registrar], the History of
    the account gains exactly one entry, appended at the end, if the
    [sacar] or [depositar] it calls returns [True], and is unchanged if
    that call returns [False].  For an object of either class, in both
    files. *)
Theorem C8_registrar_acrescenta_um_registro (o : Objeto) (v : Z) (agora : string) :
  (retorno (POO.sacar v o) = true ->
     transacoes (historico (como_conta (depois (POO.registrar (Saque v) agora o)))) =
     transacoes (historico (como_conta o)) ++ [registro_de (Saque v) agora]) /\
  (retorno (POO.sacar v o) = false ->
     historico (como_conta (depois (POO.registrar (Saque v) agora o))) = historico (como_conta o)) /\
  (retorno (POO.depositar v o) = true ->
     transacoes (historico (como_conta (depois (POO.registrar (Deposito v) agora o)))) =
     transacoes (historico (como_conta o)) ++ [registro_de (Deposito v) agora]) /\
  (retorno (POO.depositar v o) = false ->
     historico (como_conta (depois (POO.registrar (Deposito v) agora o))) = historico (como_conta o)) /\
  (retorno (DataHora.sacar v o) = true ->
     transacoes (historico (como_conta (depois (DataHora.registrar (Saque v) agora o)))) =
     transacoes (historico (como_conta o)) ++ [registro_de (Saque v) agora]) /\
  (retorno (DataHora.sacar v o) = false ->
     historico (como_conta (depois (DataHora.registrar (Saque v) agora o))) = historico (como_conta o)) /\
  (retorno (DataHora.depositar v o) = true ->
     transacoes (historico (como_conta (depois (DataHora.registrar (Deposito v) agora o)))) =
     transacoes (historico (como_conta o)) ++ [registro_de (Deposito v) agora]) /\
  (retorno (DataHora.depositar v o) = false ->
     historico (como_conta (depois (DataHora.registrar (Deposito v) agora o))) = historico (como_conta o)).
Proof.
  unfold transacoes, historico.
  rewrite POO_registrar_saque, POO_registrar_deposito,
          DataHora_registrar_saque, DataHora_registrar_deposito.
  repeat split; intros ->;
    rewrite ?POO_no_historico_adicionar, ?DataHora_no_historico_adicionar; simpl;
    rewrite ?POO_sacar_historico, ?POO_depositar_historico,
            ?DataHora_sacar_historico, ?DataHora_depositar_historico;
    reflexivity.
Qed.

(** Witness of C8: on the checking account with balance 1000, a recorded
    withdrawal of 200 and a refused one of 600. *)
Lemma C8_witness :
  (retorno (POO.sacar 200 (DeContaCorrente corrente_com_1000)) = true /\
   transacoes (historico (como_conta
     (depois (POO.registrar (Saque 200) "01-01-2025 11:00:00" (DeContaCorrente corrente_com_1000))))) =
   transacoes (historico (como_conta (DeContaCorrente corrente_com_1000))) ++
   [registro_de (Saque 200) "01-01-2025 11:00:00"]) /\
  (retorno (DataHora.sacar 600 (DeContaCorrente corrente_com_1000)) = false /\
   historico (como_conta
     (depois (DataHora.registrar (Saque 600) "01-01-2025 11:00:00" (DeContaCorrente corrente_com_1000)))) =
   historico (como_conta (DeContaCorrente corrente_com_1000))).
Proof.
  split.
  - assert (H : retorno (POO.sacar 200 (DeContaCorrente corrente_com_1000)) = true) by reflexivity.
    split; [exact H |].
    exact (proj1 (C8_registrar_acrescenta_um_registro
                    (DeContaCorrente corrente_com_1000) 200 "01-01-2025 11:00:00"%string) H).
  - assert (H : retorno (DataHora.sacar 600 (DeContaCorrente corrente_com_1000)) = false) by reflexivity.
    split; [exact H |].
    exact (proj1 (proj2 (proj2 (proj2 (proj2 (proj2
             (C8_registrar_acrescenta_um_registro
                (DeContaCorrente corrente_com_1000) 600 "01-01-2025 11:00:00"%string)))))) H).
Defined.

(** ** Deposit followed by withdrawal *)

(** C9, as claimed, fails in two ways.  On a new checking account
    (balance 0, limit 500) a deposit of 600 followed by a withdrawal of 600
    leaves the balance at 600, the withdrawal being above the limit; both
    files.  And on the floats of the second file the sum is rounded: on a
    checking account with balance 0.1, within the limit and with no
    withdrawal recorded, a deposit of 0.2 followed by a withdrawal of 0.2,
    both accepted, leaves 0.10000000000000003. *)
Lemma C9_counterexample :
  saldo (conta corrente_nova) = 0 /\
  600 > 0 /\
  600 <= saldo (conta corrente_nova) + 600 /\
  saldo (como_conta (depois (POO.sacar 600
    (depois (POO.depositar 600 (DeContaCorrente corrente_nova)))))) = 600 /\
  saldo (como_conta (depois (DataHora.sacar 600
    (depois (DataHora.depositar 600 (DeContaCorrente corrente_nova)))))) = 600 /\
  ~ (forall (o : Objeto) (a : Z),
       a > 0 -> a <= saldo (como_conta o) + a ->
       saldo (como_conta (depois (POO.sacar a (depois (POO.depositar a o)))))
       = saldo (como_conta o)) /\
  ~ (forall (o : Objeto) (a : Z),
       a > 0 -> a <= saldo (como_conta o) + a ->
       saldo (como_conta (depois (DataHora.sacar a (depois (DataHora.depositar a o)))))
       = saldo (como_conta o)) /\
  (Flutuante.saldo (Flutuante.como_conta flutuante_corrente_com_01) = 0.1%float /\
   Flutuante.maior 0.2 0 = true /\
   Flutuante.politica_permite flutuante_corrente_com_01 0.2 /\
   retorno (Flutuante.depositar 0.2 flutuante_corrente_com_01) = true /\
   retorno (Flutuante.sacar 0.2
              (depois (Flutuante.depositar 0.2 flutuante_corrente_com_01))) = true /\
   Flutuante.saldo (Flutuante.como_conta
     (depois (Flutuante.sacar 0.2
        (depois (Flutuante.depositar 0.2 flutuante_corrente_com_01)))))
   = 0.10000000000000003%float /\
   PrimFloat.eqb 0.10000000000000003 0.1 = false).
Proof.
  split; [reflexivity |]. split; [reflexivity |]. split; [vm_compute; discriminate |].
  split; [reflexivity |]. split; [reflexivity |].
  assert (H1 : 600 <= saldo (como_conta (DeContaCorrente corrente_nova)) + 600)
    by (vm_compute; discriminate).
  split; [| split].
  - intros H. specialize (H (DeContaCorrente corrente_nova) 600 eq_refl H1).
    vm_compute in H. discriminate H.
  - intros H. specialize (H (DeContaCorrente corrente_nova) 600 eq_refl H1).
    vm_compute in H. discriminate H.
  - split; [reflexivity |]. split; [reflexivity |].
    split; [split; [reflexivity | reflexivity] |].
    split; [reflexivity |]. split; [reflexivity |]. split; reflexivity.
Qed.

(* The number of recorded withdrawals stays folded under [simpl]. *)
#[local] Arguments POO.numero_saques : simpl never.
#[local] Arguments DataHora.numero_saques : simpl never.

(** C9, amended.  For an account with an integer balance [B >= 0] and an
    integer amount [a > 0], depositing [a] and then withdrawing [a]
    restores the balance [B], provided that, on a checking account, [a]
    does not exceed the per-withdrawal limit and fewer withdrawals than the
    maximum are recorded.  Both files. *)
Theorem C9_depositar_e_sacar_restaura (o : Objeto) (a : Z) :
  a > 0 ->
  a <= saldo (como_conta o) + a ->
  (politica_permite POO.numero_saques o a ->
   saldo (como_conta (depois (POO.sacar a (depois (POO.depositar a o)))))
   = saldo (como_conta o)) /\
  (politica_permite DataHora.numero_saques o a ->
   saldo (como_conta (depois (DataHora.sacar a (depois (DataHora.depositar a o)))))
   = saldo (como_conta o)).
Proof.
  intros Ha HB. unfold saldo in *.
  split; intros Hp.
  - destruct o as [c | cc]; unfold POO.depositar, POO.sacar, super;
      rewrite POO_Conta_depositar_eq;
      (destruct (Z.leb_spec a 0); [lia |]); simpl;
      [| rewrite POO_ContaCorrente_sacar_eq; unfold super; simpl;
         destruct Hp as [Hl Hn]; unfold historico in Hn ];
      rewrite POO_Conta_sacar_eq; decidir_testes; simpl in *; lia.
  - destruct o as [c | cc]; unfold DataHora.depositar, DataHora.sacar, super;
      rewrite DataHora_Conta_depositar_eq;
      (destruct (Z.leb_spec a 0); [lia |]); simpl;
      [| rewrite DataHora_ContaCorrente_sacar_eq; unfold super; simpl;
         destruct Hp as [Hl Hn]; unfold historico in Hn ];
      rewrite DataHora_Conta_sacar_eq; decidir_testes; simpl in *; lia.
Qed.

(** Witness of C9: the checking account with balance 1000, depositing and
    withdrawing 300. *)
Lemma C9_witness :
  300 > 0 /\
  300 <= saldo (como_conta (DeContaCorrente corrente_com_1000)) + 300 /\
  politica_permite POO.numero_saques (DeContaCorrente corrente_com_1000) 300 /\
  saldo (como_conta (depois (POO.sacar 300
    (depois (POO.depositar 300 (DeContaCorrente corrente_com_1000))))))
  = saldo (como_conta (DeContaCorrente corrente_com_1000)).
Proof.
  assert (Ha : 300 > 0) by lia.
  assert (HB : 300 <= saldo (como_conta (DeContaCorrente corrente_com_1000)) + 300)
    by (change (300 <= 1000 + 300); lia).
  assert (Hp : politica_permite POO.numero_saques (DeContaCorrente corrente_com_1000) 300)
    by (split; [change (300 <= 500); lia | change (0 < 3); lia]).
  split; [exact Ha |]. split; [exact HB |]. split; [exact Hp |].
  exact (proj1 (C9_depositar_e_sacar_restaura (DeContaCorrente corrente_com_1000) 300 Ha HB) Hp).
Defined.

(** ** Creation of accounts *)

(** C10.  An account created by the constructor or by [nova_conta], of
    either class, for every customer, account number and limits, starts
    with balance 0, an empty History and branch code ["0001"].  Both
    files. *)
Theorem C10_conta_nova (numero : Z) (cliente : RefCliente) (limite limite_saques : Z) :
  (saldo (POO.Conta_init numero cliente) = 0 /\
   transacoes (historico (POO.Conta_init numero cliente)) = [] /\
   agencia (POO.Conta_init numero cliente) = "0001"%string) /\
  (saldo (POO.Conta_nova_conta cliente numero) = 0 /\
   transacoes (historico (POO.Conta_nova_conta cliente numero)) = [] /\
   agencia (POO.Conta_nova_conta cliente numero) = "0001"%string) /\
  (saldo (conta (POO.ContaCorrente_init numero cliente limite limite_saques)) = 0 /\
   transacoes (historico (conta (POO.ContaCorrente_init numero cliente limite limite_saques))) = [] /\
   agencia (conta (POO.ContaCorrente_init numero cliente limite limite_saques)) = "0001"%string) /\
  (saldo (conta (POO.ContaCorrente_nova_conta cliente numero)) = 0 /\
   transacoes (historico (conta (POO.ContaCorrente_nova_conta cliente numero))) = [] /\
   agencia (conta (POO.ContaCorrente_nova_conta cliente numero)) = "0001"%string) /\
  (saldo (DataHora.Conta_init numero cliente) = 0 /\
   transacoes (historico (DataHora.Conta_init numero cliente)) = [] /\
   agencia (DataHora.Conta_init numero cliente) = "0001"%string) /\
  (saldo (DataHora.Conta_nova_conta cliente numero) = 0 /\
   transacoes (historico (DataHora.Conta_nova_conta cliente numero)) = [] /\
   agencia (DataHora.Conta_nova_conta cliente numero) = "0001"%string) /\
  (saldo (conta (DataHora.ContaCorrente_init numero cliente limite limite_saques)) = 0 /\
   transacoes (historico (conta (DataHora.ContaCorrente_init numero cliente limite limite_saques))) = [] /\
   agencia (conta (DataHora.ContaCorrente_init numero cliente limite limite_saques)) = "0001"%string) /\
  (saldo (conta (DataHora.ContaCorrente_nova_conta cliente numero limite limite_saques)) = 0 /\
   transacoes (historico (conta (DataHora.ContaCorrente_nova_conta cliente numero limite limite_saques))) = [] /\
   agencia (conta (DataHora.ContaCorrente_nova_conta cliente numero limite limite_saques)) = "0001"%string).
Proof. repeat split. Qed.

(** ** The script at the end of the first file *)

(** The calls of the [__main__] block, made directly on the account: none
    is recorded in the History, so the fourth withdrawal of 200 is not
    refused for the number of withdrawals; it empties the account. *)
Example poo_script_principal :
  POO.executar
    [ChamaDepositar 1000; ChamaSacar 200; ChamaSacar 900;
     ChamaSacar 200; ChamaSacar 200; ChamaSacar 200; ChamaSacar 200]
    (DeContaCorrente corrente_nova)
  = DeContaCorrente corrente_nova.
Proof. reflexivity. Qed.

(** The same amounts sent through [registrar]: withdrawals are recorded,
    three of 200 are applied and every later one is refused; the balance
    stays at 400 with four entries in the History. *)
Example poo_script_por_registrar :
  saldo (como_conta (POO.executar
    [ChamaRegistrar (Deposito 1000) "t0"; ChamaRegistrar (Saque 200) "t1";
     ChamaRegistrar (Saque 900) "t2"; ChamaRegistrar (Saque 200) "t3";
     ChamaRegistrar (Saque 200) "t4"; ChamaRegistrar (Saque 200) "t5";
     ChamaRegistrar (Saque 200) "t6"]
    (DeContaCorrente corrente_nova))) = 400
  /\ List.length (transacoes (historico (como_conta (POO.executar
    [ChamaRegistrar (Deposito 1000) "t0"; ChamaRegistrar (Saque 200) "t1";
     ChamaRegistrar (Saque 900) "t2"; ChamaRegistrar (Saque 200) "t3";
     ChamaRegistrar (Saque 200) "t4"; ChamaRegistrar (Saque 200) "t5";
     ChamaRegistrar (Saque 200) "t6"]
    (DeContaCorrente corrente_nova))))) = 4%nat.
Proof. split; reflexivity. Qed.

(** * Further properties of the account classes *)

(** ** The object after a call, in closed form *)

Lemma POO_ContaCorrente_sacar_retorno (v : Z) (cc : ContaCorrente) :
  retorno (POO.ContaCorrente_sacar v cc) =
  (v <=? limite cc) && (POO.numero_saques (historico (conta cc)) <? limite_saques cc)
  && (0 <? v) && (v <=? saldo (conta cc)).
Proof.
  rewrite POO_ContaCorrente_sacar_eq. unfold super, historico, saldo.
  rewrite POO_Conta_sacar_eq. unfold retorno.
  destruct (Z.gtb_spec v (limite cc)), (Z.leb_spec v (limite cc)); try lia; simpl; auto.
  destruct (Z.geb_spec (POO.numero_saques (_historico (conta cc))) (limite_saques cc)),
           (Z.ltb_spec (POO.numero_saques (_historico (conta cc))) (limite_saques cc));
    try lia; simpl; auto.
  destruct (Z.leb_spec v 0), (Z.ltb_spec 0 v); try lia; simpl; auto.
  destruct (Z.gtb_spec v (_saldo (conta cc))), (Z.leb_spec v (_saldo (conta cc)));
    try lia; simpl; auto.
Qed.

Lemma DataHora_ContaCorrente_sacar_retorno (v : Z) (cc : ContaCorrente) :
  retorno (DataHora.ContaCorrente_sacar v cc) =
  (v <=? limite cc) && (DataHora.numero_saques (historico (conta cc)) <? limite_saques cc)
  && (0 <? v) && (v <=? saldo (conta cc)).
Proof.
  rewrite DataHora_ContaCorrente_sacar_eq. unfold super, historico, saldo.
  rewrite DataHora_Conta_sacar_eq. unfold retorno.
  destruct (Z.gtb_spec v (limite cc)), (Z.leb_spec v (limite cc)); try lia; simpl; auto.
  destruct (Z.geb_spec (DataHora.numero_saques (_historico (conta cc))) (limite_saques cc)),
           (Z.ltb_spec (DataHora.numero_saques (_historico (conta cc))) (limite_saques cc));
    try lia; simpl; auto.
  destruct (Z.gtb_spec v (_saldo (conta cc))), (Z.leb_spec v (_saldo (conta cc)));
    try lia; simpl; rewrite ?andb_false_r; auto.
  destruct (Z.leb_spec v 0), (Z.ltb_spec 0 v); try lia; simpl; auto.
Qed.

Lemma POO_Conta_sacar_retorno (v : Z) (c : Conta) :
  retorno (POO.Conta_sacar v c) = (0 <? v) && (v <=? saldo c).
Proof.
  rewrite POO_Conta_sacar_eq. unfold retorno, saldo.
  destruct (Z.leb_spec v 0), (Z.ltb_spec 0 v); try lia; simpl; auto.
  destruct (Z.gtb_spec v (_saldo c)), (Z.leb_spec v (_saldo c)); try lia; simpl; auto.
Qed.

Lemma DataHora_Conta_sacar_retorno (v : Z) (c : Conta) :
  retorno (DataHora.Conta_sacar v c) = (0 <? v) && (v <=? saldo c).
Proof.
  rewrite DataHora_Conta_sacar_eq. unfold retorno, saldo.
  destruct (Z.gtb_spec v (_saldo c)), (Z.leb_spec v (_saldo c));
    try lia; simpl; rewrite ?andb_false_r; auto.
  destruct (Z.leb_spec v 0), (Z.ltb_spec 0 v); try lia; simpl; auto.
Qed.

(** X1.  On integer amounts [sacar] returns [True] exactly when every
    check passes: on a
    plain account the amount is positive and covered by the balance; on a
    checking account it is, besides, within the per-withdrawal limit and
    fewer withdrawals than [limite_saques] are recorded.  Both files. *)
Theorem X1_sacar_aprovado (c : Conta) (cc : ContaCorrente) (v : Z) :
  retorno (POO.Conta_sacar v c) = (0 <? v) && (v <=? saldo c) /\
  retorno (DataHora.Conta_sacar v c) = (0 <? v) && (v <=? saldo c) /\
  retorno (POO.ContaCorrente_sacar v cc) =
    (v <=? limite cc) && (POO.numero_saques (historico (conta cc)) <? limite_saques cc)
    && (0 <? v) && (v <=? saldo (conta cc)) /\
  retorno (DataHora.ContaCorrente_sacar v cc) =
    (v <=? limite cc) && (DataHora.numero_saques (historico (conta cc)) <? limite_saques cc)
    && (0 <? v) && (v <=? saldo (conta cc)).
Proof.
  split; [apply POO_Conta_sacar_retorno |].
  split; [apply DataHora_Conta_sacar_retorno |].
  split; [apply POO_ContaCorrente_sacar_retorno | apply DataHora_ContaCorrente_sacar_retorno].
Qed.

Lemma POO_sacar_depois (v : Z) (o : Objeto) :
  depois (POO.sacar v o) =
  if retorno (POO.sacar v o) then com_saldo o (_saldo (como_conta o) - v) else o.
Proof.
  destruct o as [c | cc]; unfold POO.sacar;
    [| rewrite POO_ContaCorrente_sacar_eq; unfold super ];
    rewrite ?POO_Conta_sacar_eq;
    repeat match goal with
           | |- context [?a <=? ?b] => destruct (a <=? b)
           | |- context [?a >? ?b] => destruct (a >? b)
           | |- context [?a >=? ?b] => destruct (a >=? b)
           end;
    simpl; rewrite ?ContaCorrente_eta; reflexivity.
Qed.

Lemma DataHora_sacar_depois (v : Z) (o : Objeto) :
  depois (DataHora.sacar v o) =
  if retorno (DataHora.sacar v o) then com_saldo o (_saldo (como_conta o) - v) else o.
Proof.
  destruct o as [c | cc]; unfold DataHora.sacar;
    [| rewrite DataHora_ContaCorrente_sacar_eq; unfold super ];
    rewrite ?DataHora_Conta_sacar_eq;
    repeat match goal with
           | |- context [?a <=? ?b] => destruct (a <=? b)
           | |- context [?a >? ?b] => destruct (a >? b)
           | |- context [?a >=? ?b] => destruct (a >=? b)
           end;
    simpl; rewrite ?ContaCorrente_eta; reflexivity.
Qed.

Lemma POO_depositar_depois (v : Z) (o : Objeto) :
  depois (POO.depositar v o) =
  if retorno (POO.depositar v o) then com_saldo o (_saldo (como_conta o) + v) else o.
Proof.
  destruct o as [c | cc]; unfold POO.depositar, super;
    rewrite POO_Conta_depositar_eq; destruct (v <=? 0);
    simpl; rewrite ?ContaCorrente_eta; reflexivity.
Qed.

Lemma DataHora_depositar_depois (v : Z) (o : Objeto) :
  depois (DataHora.depositar v o) =
  if retorno (DataHora.depositar v o) then com_saldo o (_saldo (como_conta o) + v) else o.
Proof.
  destruct o as [c | cc]; unfold DataHora.depositar, super;
    rewrite DataHora_Conta_depositar_eq; destruct (v <=? 0);
    simpl; rewrite ?ContaCorrente_eta; reflexivity.
Qed.

Lemma POO_adicionar_depois (t : Transacao) (agora : string) (o : Objeto) :
  depois (POO.no_historico (POO.Historico_adicionar_transacao t agora) o) =
  com_registro o (registro_de t agora).
Proof. destruct o; reflexivity. Qed.

Lemma DataHora_adicionar_depois (t : Transacao) (agora : string) (o : Objeto) :
  depois (DataHora.no_historico (DataHora.Historico_adicionar_transacao t agora) o) =
  com_registro o (registro_de t agora).
Proof. destruct o; reflexivity. Qed.

(** ** The two files agree *)

Lemma numero_saques_concordam (h : Historico) :
  POO.numero_saques h = DataHora.numero_saques h.
Proof. rewrite POO_numero_saques_conta, DataHora_numero_saques_conta. reflexivity. Qed.

Lemma sacar_retorno_concordam (v : Z) (o : Objeto) :
  retorno (POO.sacar v o) = retorno (DataHora.sacar v o).
Proof.
  destruct o as [c | cc]; unfold POO.sacar, DataHora.sacar.
  - generalize (POO_Conta_sacar_retorno v c), (DataHora_Conta_sacar_retorno v c).
    destruct (POO.Conta_sacar v c) as [[r1 c1] o1],
             (DataHora.Conta_sacar v c) as [[r2 c2] o2].
    unfold retorno; simpl. congruence.
  - generalize (POO_ContaCorrente_sacar_retorno v cc),
               (DataHora_ContaCorrente_sacar_retorno v cc).
    rewrite numero_saques_concordam.
    destruct (POO.ContaCorrente_sacar v cc) as [[r1 c1] o1],
             (DataHora.ContaCorrente_sacar v cc) as [[r2 c2] o2].
    unfold retorno; simpl. congruence.
Qed.

Lemma sacar_depois_concordam (v : Z) (o : Objeto) :
  depois (POO.sacar v o) = depois (DataHora.sacar v o).
Proof.
  rewrite POO_sacar_depois, DataHora_sacar_depois, sacar_retorno_concordam. reflexivity.
Qed.

Lemma chamar_concordam (ch : Chamada) (o : Objeto) :
  POO.chamar ch o = DataHora.chamar ch o.
Proof.
  destruct ch as [v | v | t agora | t agora]; unfold POO.chamar, DataHora.chamar.
  - reflexivity.
  - apply sacar_depois_concordam.
  - destruct t as [v | v].
    + rewrite POO_registrar_saque, DataHora_registrar_saque.
      rewrite sacar_retorno_concordam, sacar_depois_concordam. reflexivity.
    + reflexivity.
  - reflexivity.
Qed.

(** X2.  The two files differ in the order of the two tests of
    [Conta.sacar] and in the way withdrawals are counted, and yet behave
    alike: on every account object [sacar] returns the same value and
    leaves the same object, and every sequence of calls ends in the same
    object. *)
Theorem X2_os_dois_arquivos_concordam (o : Objeto) (v : Z) (chs : list Chamada) :
  retorno (POO.sacar v o) = retorno (DataHora.sacar v o) /\
  depois (POO.sacar v o) = depois (DataHora.sacar v o) /\
  POO.numero_saques (historico (como_conta o)) =
    DataHora.numero_saques (historico (como_conta o)) /\
  POO.executar chs o = DataHora.executar chs o.
Proof.
  split; [apply sacar_retorno_concordam |].
  split; [apply sacar_depois_concordam |].
  split; [apply numero_saques_concordam |].
  revert o; induction chs as [| ch chs IH]; intros o; simpl.
  - reflexivity.
  - rewrite chamar_concordam. apply IH.
Qed.

Lemma executar_concordam (chs : list Chamada) (o : Objeto) :
  POO.executar chs o = DataHora.executar chs o.
Proof.
  revert o; induction chs as [| ch chs IH]; intros o; simpl.
  - reflexivity.
  - rewrite chamar_concordam. apply IH.
Qed.

Lemma POO_realizar_executar (ts : list (Transacao * string)) (o : Objeto) :
  POO_realizar_transacoes ts o = POO.executar (como_chamadas ts) o.
Proof.
  revert o; induction ts as [| [t agora] ts IH]; intros o; simpl.
  - reflexivity.
  - rewrite IH. reflexivity.
Qed.

Lemma DataHora_realizar_executar (ts : list (Transacao * string)) (o : Objeto) :
  DataHora_realizar_transacoes ts o = DataHora.executar (como_chamadas ts) o.
Proof.
  revert o; induction ts as [| [t agora] ts IH]; intros o; simpl.
  - reflexivity.
  - rewrite IH. reflexivity.
Qed.

Lemma realizar_concordam (ts : list (Transacao * string)) (o : Objeto) :
  DataHora_realizar_transacoes ts o = POO_realizar_transacoes ts o.
Proof.
  rewrite POO_realizar_executar, DataHora_realizar_executar, executar_concordam.
  reflexivity.
Qed.

(** One call in closed form. *)
Lemma POO_chamar_eq (ch : Chamada) (o : Objeto) :
  POO.chamar ch o =
  match ch with
  | ChamaDepositar v =>
      if retorno (POO.depositar v o)
      then com_saldo o (_saldo (como_conta o) + v) else o
  | ChamaSacar v =>
      if retorno (POO.sacar v o)
      then com_saldo o (_saldo (como_conta o) - v) else o
  | ChamaRegistrar (Saque v) agora =>
      if retorno (POO.sacar v o)
      then com_registro (com_saldo o (_saldo (como_conta o) - v))
                        (registro_de (Saque v) agora)
      else o
  | ChamaRegistrar (Deposito v) agora =>
      if retorno (POO.depositar v o)
      then com_registro (com_saldo o (_saldo (como_conta o) + v))
                        (registro_de (Deposito v) agora)
      else o
  | ChamaAdicionarTransacao t agora => com_registro o (registro_de t agora)
  end.
Proof.
  destruct ch as [v | v | [v | v] agora | t agora]; unfold POO.chamar.
  - apply POO_depositar_depois.
  - apply POO_sacar_depois.
  - rewrite POO_registrar_saque, POO_adicionar_depois, POO_sacar_depois.
    destruct (retorno (POO.sacar v o)); reflexivity.
  - rewrite POO_registrar_deposito, POO_adicionar_depois, POO_depositar_depois.
    destruct (retorno (POO.depositar v o)); reflexivity.
  - apply POO_adicionar_depois.
Qed.

(** What a successful call implies about its amount. *)
Lemma POO_sacar_sucesso (v : Z) (o : Objeto) :
  retorno (POO.sacar v o) = true ->
  0 < v <= _saldo (como_conta o) /\
  match o with
  | DeConta _ => True
  | DeContaCorrente cc =>
      v <= limite cc /\ POO.numero_saques (_historico (conta cc)) < limite_saques cc
  end.
Proof.
  destruct o as [c | cc]; unfold POO.sacar.
  - generalize (POO_Conta_sacar_retorno v c).
    destruct (POO.Conta_sacar v c) as [[r c'] out]; unfold retorno, saldo; simpl.
    intros -> H. apply andb_prop in H as [H1 H2]. lia.
  - generalize (POO_ContaCorrente_sacar_retorno v cc).
    destruct (POO.ContaCorrente_sacar v cc) as [[r c'] out];
      unfold retorno, saldo, historico; simpl.
    intros -> H.
    apply andb_prop in H as [H H4]. apply andb_prop in H as [H H3].
    apply andb_prop in H as [H1 H2]. lia.
Qed.

(** ** The History only grows *)

Lemma com_saldo_conta (o : Objeto) (s : Z) :
  como_conta (com_saldo o s) = atribuir_saldo (como_conta o) s.
Proof. destruct o; reflexivity. Qed.

Lemma com_registro_conta (o : Objeto) (r : Registro) :
  como_conta (com_registro o r) =
  atribuir_historico (como_conta o)
    {| _transacoes := _transacoes (_historico (como_conta o)) ++ [r] |}.
Proof. destruct o; reflexivity. Qed.

Lemma POO_chamar_historico (ch : Chamada) (o : Objeto) :
  exists novos : list Registro,
    _transacoes (_historico (como_conta (POO.chamar ch o))) =
    _transacoes (_historico (como_conta o)) ++ novos /\
    (List.length novos <= 1)%nat.
Proof.
  rewrite POO_chamar_eq.
  destruct ch as [v | v | [v | v] agora | t agora];
    repeat match goal with |- context [if ?b then _ else _] => destruct b end;
    rewrite ?com_registro_conta, ?com_saldo_conta; simpl;
    first [ exists []; rewrite app_nil_r; split; [reflexivity | simpl; lia]
          | eexists [_]; split; [reflexivity | simpl; lia] ].
Qed.

Lemma POO_executar_historico (chs : list Chamada) (o : Objeto) :
  exists novos : list Registro,
    _transacoes (_historico (como_conta (POO.executar chs o))) =
    _transacoes (_historico (como_conta o)) ++ novos /\
    (List.length novos <= List.length chs)%nat.
Proof.
  revert o; induction chs as [| ch chs IH]; intros o; simpl.
  - exists []. rewrite app_nil_r. split; [reflexivity | simpl; lia].
  - destruct (IH (POO.chamar ch o)) as (n2 & E2 & L2).
    destruct (POO_chamar_historico ch o) as (n1 & E1 & L1).
    exists (n1 ++ n2). rewrite E2, E1, <- app_assoc. split; [reflexivity |].
    rewrite length_app. lia.
Qed.

(** X3.  The History is append-only: after any sequence of calls on an
    account object, the entries it had are still there, in the same order
    and unchanged, followed by at most one new entry per call.  Both
    files. *)
Theorem X3_historico_so_cresce (chs : list Chamada) (o : Objeto) :
  (exists novos : list Registro,
      transacoes (historico (como_conta (POO.executar chs o))) =
      transacoes (historico (como_conta o)) ++ novos /\
      (List.length novos <= List.length chs)%nat) /\
  (exists novos : list Registro,
      transacoes (historico (como_conta (DataHora.executar chs o))) =
      transacoes (historico (como_conta o)) ++ novos /\
      (List.length novos <= List.length chs)%nat).
Proof.
  rewrite <- executar_concordam. unfold transacoes, historico.
  split; apply POO_executar_historico.
Qed.

(** ** What never changes *)

Lemma mesma_identidade_refl (o : Objeto) : mesma_identidade o o.
Proof. destruct o; repeat split. Qed.

Lemma mesma_identidade_trans (o1 o2 o3 : Objeto) :
  mesma_identidade o1 o2 -> mesma_identidade o2 o3 -> mesma_identidade o1 o3.
Proof.
  unfold mesma_identidade.
  destruct o1, o2, o3; simpl; intuition congruence.
Qed.

Lemma mesma_identidade_com_saldo (o : Objeto) (s : Z) : mesma_identidade o (com_saldo o s).
Proof. destruct o; repeat split. Qed.

Lemma mesma_identidade_com_registro (o : Objeto) (r : Registro) :
  mesma_identidade o (com_registro o r).
Proof. destruct o; repeat split. Qed.

Lemma POO_chamar_identidade (ch : Chamada) (o : Objeto) :
  mesma_identidade o (POO.chamar ch o).
Proof.
  rewrite POO_chamar_eq.
  destruct ch as [v | v | [v | v] agora | t agora];
    repeat match goal with |- context [if ?b then _ else _] => destruct b end;
    auto using mesma_identidade_refl, mesma_identidade_com_saldo,
               mesma_identidade_com_registro;
    (eapply mesma_identidade_trans;
     [ apply mesma_identidade_com_saldo | apply mesma_identidade_com_registro ]).
Qed.

Lemma POO_executar_identidade (chs : list Chamada) (o : Objeto) :
  mesma_identidade o (POO.executar chs o).
Proof.
  revert o; induction chs as [| ch chs IH]; intros o; simpl.
  - apply mesma_identidade_refl.
  - eapply mesma_identidade_trans; [apply POO_chamar_identidade | apply IH].
Qed.

(** X4.  No sequence of calls changes what identifies an account: its
    class, its number, its branch, its customer and, on a checking account,
    the per-withdrawal limit and the maximum number of withdrawals.  Both
    files. *)
Theorem X4_identidade_preservada (chs : list Chamada) (o : Objeto) :
  mesma_identidade o (POO.executar chs o) /\
  mesma_identidade o (DataHora.executar chs o).
Proof.
  rewrite <- executar_concordam. split; apply POO_executar_identidade.
Qed.

(** ** Balance and History under [registrar] *)

Lemma total_de_app (nome : string) (l : list Registro) (r : Registro) :
  total_de nome (l ++ [r]) =
  total_de nome l + (if String.eqb (tipo r) nome then valor r else 0).
Proof.
  induction l as [| x l IH]; simpl.
  - lia.
  - rewrite IH. lia.
Qed.

Lemma POO_registrar_extrato (t : Transacao) (agora : string) (o : Objeto) :
  _saldo (como_conta (POO.chamar (ChamaRegistrar t agora) o))
    - extrato (como_conta (POO.chamar (ChamaRegistrar t agora) o))
  = _saldo (como_conta o) - extrato (como_conta o).
Proof.
  rewrite POO_chamar_eq. unfold extrato, transacoes, historico.
  destruct t as [v | v];
    match goal with |- context [if ?b then _ else _] => destruct b end;
    try reflexivity;
    rewrite com_registro_conta, com_saldo_conta; simpl;
    rewrite !total_de_app; simpl; lia.
Qed.

Lemma POO_realizar_extrato (ts : list (Transacao * string)) (o : Objeto) :
  _saldo (como_conta (POO_realizar_transacoes ts o))
    - extrato (como_conta (POO_realizar_transacoes ts o))
  = _saldo (como_conta o) - extrato (como_conta o).
Proof.
  revert o; induction ts as [| [t agora] ts IH]; intros o; simpl.
  - reflexivity.
  - rewrite IH. apply (POO_registrar_extrato t agora o).
Qed.

(** X5.  When every movement goes through [Cliente.realizar_transacao],
    the balance and the History stay in step: the balance changes by
    exactly the recorded deposits minus the recorded withdrawals, so that
    an account that started empty has for balance the net amount of its
    History.  Either class, both files. *)
Theorem X5_saldo_confere_com_o_historico
    (ts : list (Transacao * string)) (o : Objeto)
    (numero : Z) (cliente : RefCliente) (limite limite_saques : Z) :
  (saldo (como_conta (POO_realizar_transacoes ts o))
     - extrato (como_conta (POO_realizar_transacoes ts o))
   = saldo (como_conta o) - extrato (como_conta o)) /\
  (saldo (como_conta (DataHora_realizar_transacoes ts o))
     - extrato (como_conta (DataHora_realizar_transacoes ts o))
   = saldo (como_conta o) - extrato (como_conta o)) /\
  (saldo (como_conta (POO_realizar_transacoes ts
       (DeContaCorrente (POO.ContaCorrente_init numero cliente limite limite_saques))))
   = extrato (como_conta (POO_realizar_transacoes ts
       (DeContaCorrente (POO.ContaCorrente_init numero cliente limite limite_saques))))) /\
  (saldo (como_conta (DataHora_realizar_transacoes ts
       (DeContaCorrente (DataHora.ContaCorrente_init numero cliente limite limite_saques))))
   = extrato (como_conta (DataHora_realizar_transacoes ts
       (DeContaCorrente (DataHora.ContaCorrente_init numero cliente limite limite_saques))))) /\
  (saldo (como_conta (POO_realizar_transacoes ts (DeConta (POO.Conta_init numero cliente))))
   = extrato (como_conta (POO_realizar_transacoes ts (DeConta (POO.Conta_init numero cliente))))) /\
  (saldo (como_conta (DataHora_realizar_transacoes ts (DeConta (DataHora.Conta_init numero cliente))))
   = extrato (como_conta (DataHora_realizar_transacoes ts (DeConta (DataHora.Conta_init numero cliente))))).
Proof.
  rewrite !realizar_concordam. unfold saldo.
  pose proof (POO_realizar_extrato ts o) as H0.
  pose proof (POO_realizar_extrato ts
    (DeContaCorrente (POO.ContaCorrente_init numero cliente limite limite_saques))) as H1.
  pose proof (POO_realizar_extrato ts (DeConta (POO.Conta_init numero cliente))) as H2.
  change (DataHora.ContaCorrente_init numero cliente limite limite_saques)
    with (POO.ContaCorrente_init numero cliente limite limite_saques).
  change (DataHora.Conta_init numero cliente) with (POO.Conta_init numero cliente).
  cbn in H1, H2.
  repeat split; lia.
Qed.

(** ** Which entries get recorded *)

Lemma saque_dentro_do_limite_identidade (o o' : Objeto) (r : Registro) :
  mesma_identidade o o' -> saque_dentro_do_limite o r -> saque_dentro_do_limite o' r.
Proof.
  unfold mesma_identidade, saque_dentro_do_limite.
  destruct o, o'; simpl; intuition congruence.
Qed.

Lemma POO_registrar_bem_formado (t : Transacao) (agora : string) (o : Objeto) :
  historico_bem_formado o ->
  historico_bem_formado (POO.chamar (ChamaRegistrar t agora) o).
Proof.
  intros H. rewrite POO_chamar_eq.
  destruct t as [v | v].
  - destruct (retorno (POO.sacar v o)) eqn:E; [| exact H].
    apply POO_sacar_sucesso in E as [Hv Hl].
    unfold historico_bem_formado, transacoes, historico in *.
    rewrite com_registro_conta, com_saldo_conta; simpl.
    apply Forall_app; split.
    + eapply Forall_impl; [| exact H]. intros r [Hr1 Hr2]. split; [exact Hr1 |].
      destruct o; exact Hr2.
    + constructor; [| constructor]. split.
      * split; simpl; [lia | left; reflexivity].
      * destruct o as [c | cc]; simpl; [exact I | intros _; lia].
  - rewrite POO_depositar_retorno.
    destruct (Z.leb_spec v 0); simpl; [exact H |].
    unfold historico_bem_formado, transacoes, historico in *.
    rewrite com_registro_conta, com_saldo_conta; simpl.
    apply Forall_app; split.
    + eapply Forall_impl; [| exact H]. intros r [Hr1 Hr2]. split; [exact Hr1 |].
      destruct o; exact Hr2.
    + constructor; [| constructor]. split.
      * split; simpl; [lia | right; reflexivity].
      * destruct o as [c | cc]; simpl; [exact I | intros E; discriminate E].
Qed.

Lemma POO_realizar_bem_formado (ts : list (Transacao * string)) (o : Objeto) :
  historico_bem_formado o -> historico_bem_formado (POO_realizar_transacoes ts o).
Proof.
  revert o; induction ts as [| [t agora] ts IH]; intros o H; simpl.
  - exact H.
  - apply IH. apply (POO_registrar_bem_formado t agora o H).
Qed.

(** X6.  On integer amounts: on an account that started empty and is
    moved only through
    [Cliente.realizar_transacao], every History entry has a positive
    amount and the type ["Saque"] or ["Deposito"], and on a checking
    account every recorded withdrawal is within the per-withdrawal limit.
    Either class, both files. *)
Theorem X6_registros_bem_formados
    (ts : list (Transacao * string))
    (numero : Z) (cliente : RefCliente) (limite limite_saques : Z) :
  historico_bem_formado
    (POO_realizar_transacoes ts (DeConta (POO.Conta_init numero cliente))) /\
  historico_bem_formado
    (POO_realizar_transacoes ts
       (DeContaCorrente (POO.ContaCorrente_init numero cliente limite limite_saques))) /\
  historico_bem_formado
    (DataHora_realizar_transacoes ts (DeConta (DataHora.Conta_init numero cliente))) /\
  historico_bem_formado
    (DataHora_realizar_transacoes ts
       (DeContaCorrente (DataHora.ContaCorrente_init numero cliente limite limite_saques))).
Proof.
  rewrite !realizar_concordam.
  repeat split; apply POO_realizar_bem_formado; constructor.
Qed.

(** ** The number of recorded withdrawals *)

Lemma POO_registrar_dentro_do_maximo (t : Transacao) (agora : string) (o : Objeto) :
  dentro_do_maximo o -> dentro_do_maximo (POO.chamar (ChamaRegistrar t agora) o).
Proof.
  intros H. rewrite POO_chamar_eq.
  destruct o as [c | cc].
  - destruct t; match goal with |- context [if ?b then _ else _] => destruct b end; exact I.
  - destruct t as [v | v].
    + destruct (retorno (POO.sacar v (DeContaCorrente cc))) eqn:E; [| exact H].
      apply POO_sacar_sucesso in E as [_ [_ Hn]].
      rewrite POO_numero_saques_conta in Hn.
      unfold dentro_do_maximo, historico in *. simpl.
      destruct (_historico (conta cc)) as [l].
      rewrite saques_registrados_app, length_app. simpl. lia.
    + destruct (retorno (POO.depositar v (DeContaCorrente cc))); [| exact H].
      unfold dentro_do_maximo, historico in *. simpl.
      destruct (_historico (conta cc)) as [l].
      rewrite saques_registrados_app, length_app. simpl. lia.
Qed.

Lemma POO_realizar_dentro_do_maximo (ts : list (Transacao * string)) (o : Objeto) :
  dentro_do_maximo o -> dentro_do_maximo (POO_realizar_transacoes ts o).
Proof.
  revert o; induction ts as [| [t agora] ts IH]; intros o H; simpl.
  - exact H.
  - apply IH. apply (POO_registrar_dentro_do_maximo t agora o H).
Qed.

(** X7.  On a checking account created with the maximum [limite_saques]
    and moved only through [Cliente.realizar_transacao], the number of
    withdrawals recorded in the History never exceeds [limite_saques] (none
    is recorded when it is negative).  The bound holds for the whole life
    of the account, whatever the dates of the transactions.  Both files. *)
Theorem X7_saques_registrados_limitados
    (ts : list (Transacao * string))
    (numero : Z) (cliente : RefCliente) (limite limite_saques : Z) :
  Z.of_nat (List.length (saques_registrados (historico (como_conta
     (POO_realizar_transacoes ts
        (DeContaCorrente (POO.ContaCorrente_init numero cliente limite limite_saques)))))))
  <= Z.max 0 limite_saques /\
  Z.of_nat (List.length (saques_registrados (historico (como_conta
     (DataHora_realizar_transacoes ts
        (DeContaCorrente (DataHora.ContaCorrente_init numero cliente limite limite_saques)))))))
  <= Z.max 0 limite_saques.
Proof.
  rewrite realizar_concordam.
  change (DataHora.ContaCorrente_init numero cliente limite limite_saques)
    with (POO.ContaCorrente_init numero cliente limite limite_saques).
  assert (H : dentro_do_maximo
                (POO_realizar_transacoes ts
                   (DeContaCorrente (POO.ContaCorrente_init numero cliente limite limite_saques)))).
  { apply POO_realizar_dentro_do_maximo. simpl. lia. }
  pose proof (POO_executar_identidade (como_chamadas ts)
                (DeContaCorrente (POO.ContaCorrente_init numero cliente limite limite_saques)))
    as (_ & _ & _ & Hid).
  rewrite <- POO_realizar_executar in Hid.
  destruct (POO_realizar_transacoes ts _) as [c' | cc']; [destruct Hid |].
  destruct Hid as [_ Hm]. simpl in Hm, H |- *. rewrite Hm in H. split; exact H.
Qed.

(** ** What a call prints *)

Lemma POO_sacar_saida (v : Z) (o : Objeto) :
  List.length (saida (POO.sacar v o)) = 1%nat /\
  List.length (motivos (saida (POO.sacar v o))) =
    if retorno (POO.sacar v o) then 0%nat else 1%nat.
Proof.
  destruct o as [c | cc]; unfold POO.sacar;
    [| rewrite POO_ContaCorrente_sacar_eq; unfold super ];
    rewrite ?POO_Conta_sacar_eq;
    repeat match goal with
           | |- context [?a <=? ?b] => destruct (a <=? b)
           | |- context [?a >? ?b] => destruct (a >? b)
           | |- context [?a >=? ?b] => destruct (a >=? b)
           end;
    split; reflexivity.
Qed.

Lemma DataHora_sacar_saida (v : Z) (o : Objeto) :
  List.length (saida (DataHora.sacar v o)) = 1%nat /\
  List.length (motivos (saida (DataHora.sacar v o))) =
    if retorno (DataHora.sacar v o) then 0%nat else 1%nat.
Proof.
  destruct o as [c | cc]; unfold DataHora.sacar;
    [| rewrite DataHora_ContaCorrente_sacar_eq; unfold super ];
    rewrite ?DataHora_Conta_sacar_eq;
    repeat match goal with
           | |- context [?a <=? ?b] => destruct (a <=? b)
           | |- context [?a >? ?b] => destruct (a >? b)
           | |- context [?a >=? ?b] => destruct (a >=? b)
           end;
    split; reflexivity.
Qed.

Lemma POO_depositar_saida (v : Z) (o : Objeto) :
  List.length (saida (POO.depositar v o)) = 1%nat /\
  List.length (motivos (saida (POO.depositar v o))) =
    if retorno (POO.depositar v o) then 0%nat else 1%nat.
Proof.
  destruct o as [c | cc]; unfold POO.depositar, super;
    rewrite POO_Conta_depositar_eq; destruct (v <=? 0); split; reflexivity.
Qed.

Lemma POO_registrar_saida (t : Transacao) (agora : string) (o : Objeto) :
  saida (POO.registrar t agora o) =
  match t with
  | Saque v => saida (POO.sacar v o)
  | Deposito v => saida (POO.depositar v o)
  end.
Proof.
  destruct t as [v | v];
    unfold POO.registrar, POO.Saque_registrar, POO.Deposito_registrar, bind, saida; simpl.
  - destruct (POO.sacar v o) as [[r o'] out]; simpl.
    destruct r; simpl; [| apply app_nil_r].
    destruct (POO.no_historico _ o') as [[u o''] out'] eqn:E.
    assert (out' = []) by (destruct o'; inversion E; reflexivity).
    subst. apply app_nil_r.
  - destruct (POO.depositar v o) as [[r o'] out]; simpl.
    destruct r; simpl; [| apply app_nil_r].
    destruct (POO.no_historico _ o') as [[u o''] out'] eqn:E.
    assert (out' = []) by (destruct o'; inversion E; reflexivity).
    subst. apply app_nil_r.
Qed.

Lemma DataHora_registrar_saida (t : Transacao) (agora : string) (o : Objeto) :
  saida (DataHora.registrar t agora o) =
  match t with
  | Saque v => saida (DataHora.sacar v o)
  | Deposito v => saida (DataHora.depositar v o)
  end.
Proof.
  destruct t as [v | v];
    unfold DataHora.registrar, DataHora.Saque_registrar, DataHora.Deposito_registrar,
           bind, saida; simpl.
  - destruct (DataHora.sacar v o) as [[r o'] out]; simpl.
    destruct r; simpl; [| apply app_nil_r].
    destruct (DataHora.no_historico _ o') as [[u o''] out'] eqn:E.
    assert (out' = []) by (destruct o'; inversion E; reflexivity).
    subst. apply app_nil_r.
  - destruct (DataHora.depositar v o) as [[r o'] out]; simpl.
    destruct r; simpl; [| apply app_nil_r].
    destruct (DataHora.no_historico _ o') as [[u o''] out'] eqn:E.
    assert (out' = []) by (destruct o'; inversion E; reflexivity).
    subst. apply app_nil_r.
Qed.

(** X8.  Every call to [sacar] or [depositar] prints exactly one line: a
    refusal names exactly one reason and a success none.  [registrar]
    prints what the method it calls prints and nothing more.  Either class,
    both files. *)
Theorem X8_uma_linha_por_chamada (o : Objeto) (v : Z) (agora : string) :
  (List.length (saida (POO.sacar v o)) = 1%nat /\
   List.length (motivos (saida (POO.sacar v o))) =
     if retorno (POO.sacar v o) then 0%nat else 1%nat) /\
  (List.length (saida (DataHora.sacar v o)) = 1%nat /\
   List.length (motivos (saida (DataHora.sacar v o))) =
     if retorno (DataHora.sacar v o) then 0%nat else 1%nat) /\
  (List.length (saida (POO.depositar v o)) = 1%nat /\
   List.length (motivos (saida (POO.depositar v o))) =
     if retorno (POO.depositar v o) then 0%nat else 1%nat) /\
  (List.length (saida (DataHora.depositar v o)) = 1%nat /\
   List.length (motivos (saida (DataHora.depositar v o))) =
     if retorno (DataHora.depositar v o) then 0%nat else 1%nat) /\
  saida (POO.registrar (Saque v) agora o) = saida (POO.sacar v o) /\
  saida (POO.registrar (Deposito v) agora o) = saida (POO.depositar v o) /\
  saida (DataHora.registrar (Saque v) agora o) = saida (DataHora.sacar v o) /\
  saida (DataHora.registrar (Deposito v) agora o) = saida (DataHora.depositar v o).
Proof.
  split; [apply POO_sacar_saida |].
  split; [apply DataHora_sacar_saida |].
  split; [apply POO_depositar_saida |].
  split; [apply (POO_depositar_saida v o) |].
  split; [apply (POO_registrar_saida (Saque v)) |].
  split; [apply (POO_registrar_saida (Deposito v)) |].
  split; [apply (DataHora_registrar_saida (Saque v)) |
          apply (DataHora_registrar_saida (Deposito v))].
Qed.

(** * Properties of the terminal session of the second file *)

(** ** The statement report *)

Section Relatorio.

Variable lower : string -> string.



(** On a History of entries that [registrar] made, the report for a type
    that lower-cases like ["Saque"] and unlike ["Deposito"] lists the
    recorded withdrawals. *)
Lemma relatorio_de_saques (t : string) (l : list Registro) :
  lower "Saque" = lower t ->
  lower "Deposito" <> lower t ->
  Forall registro_valido l ->
  Terminal.Historico_gerar_relatorio lower (Some t) {| _transacoes := l |} =
  saques_registrados {| _transacoes := l |}.
Proof.
  intros Hs Hd Hl. unfold Terminal.Historico_gerar_relatorio, saques_registrados, transacoes.
  simpl. induction Hl as [| r l [_ Hr] _ IH]; simpl; [reflexivity |].
  rewrite IH. destruct Hr as [-> | ->].
  - rewrite Hs, String.eqb_refl. reflexivity.
  - destruct (String.eqb_spec (lower "Deposito") (lower t)) as [E | _]; [contradiction |].
    reflexivity.
Qed.

(** X10.  The report does not look at the case of the type asked for:
    two types that lower-case alike give the same report.  On an account
    that started empty and was moved only through
    [Cliente.realizar_transacao], the report for a type that lower-cases
    like ["Saque"] (and unlike ["Deposito"]) has exactly as many entries
    as [ContaCorrente.sacar] counts against [limite_saques]. *)
Theorem X10_relatorio_sem_caixa (t1 t2 : string) (h : Historico)
    (ts : list (Transacao * string))
    (numero : Z) (cliente : RefCliente) (limite limite_saques : Z) :
  (lower t1 = lower t2 ->
   Terminal.Historico_gerar_relatorio lower (Some t1) h =
     Terminal.Historico_gerar_relatorio lower (Some t2) h) /\
  (lower "Saque" = lower t2 ->
   lower "Deposito" <> lower t2 ->
   DataHora.numero_saques (historico (como_conta
     (DataHora_realizar_transacoes ts
        (DeContaCorrente (DataHora.ContaCorrente_init numero cliente limite limite_saques))))) =
   Z.of_nat (List.length
     (Terminal.Historico_gerar_relatorio lower (Some t2)
        (historico (como_conta
           (DataHora_realizar_transacoes ts
              (DeContaCorrente
                 (DataHora.ContaCorrente_init numero cliente limite limite_saques)))))))).
Proof.
  split.
  - intros H12. unfold Terminal.Historico_gerar_relatorio. rewrite H12. reflexivity.
  - intros Hs Hd.
    rewrite DataHora_numero_saques_conta. do 2 f_equal.
    rewrite realizar_concordam.
    pose proof (POO_realizar_bem_formado ts
      (DeContaCorrente (DataHora.ContaCorrente_init numero cliente limite limite_saques))
      (Forall_nil _)) as Hb.
    unfold historico_bem_formado, transacoes, historico in *.
    destruct (_historico _) as [l]. simpl in Hb.
    symmetry. apply relatorio_de_saques.
    + exact Hs.
    + exact Hd.
    + eapply Forall_impl; [| exact Hb]. intros r [Hr _]. exact Hr.
Qed.

End Relatorio.

(** Witness of X10: ASCII lower-casing; the types ["extrato"] and
    ["EXTRATO"] on a History of one deposit; the type ["SAQUE"] after a
    deposit of 1000 and a withdrawal of 200 on a new checking account. *)
Lemma X10_witness :
  (minusculas "extrato" = minusculas "EXTRATO" /\
   Terminal.Historico_gerar_relatorio minusculas (Some "extrato"%string)
     (historico (conta corrente_com_1000)) =
   Terminal.Historico_gerar_relatorio minusculas (Some "EXTRATO"%string)
     (historico (conta corrente_com_1000))) /\
  (minusculas "Saque" = minusculas "SAQUE" /\
   minusculas "Deposito" <> minusculas "SAQUE" /\
   DataHora.numero_saques (historico (como_conta
     (DataHora_realizar_transacoes
        [(Deposito 1000, "01-01-2025 10:00:00"%string); (Saque 200, "01-01-2025 10:05:00"%string)]
        (DeContaCorrente (DataHora.ContaCorrente_init 1 0%nat 500 3))))) =
   Z.of_nat (List.length
     (Terminal.Historico_gerar_relatorio minusculas (Some "SAQUE"%string)
        (historico (como_conta
           (DataHora_realizar_transacoes
              [(Deposito 1000, "01-01-2025 10:00:00"%string);
               (Saque 200, "01-01-2025 10:05:00"%string)]
              (DeContaCorrente (DataHora.ContaCorrente_init 1 0%nat 500 3)))))))).
Proof.
  assert (H12 : minusculas "extrato" = minusculas "EXTRATO") by reflexivity.
  assert (Hs : minusculas "Saque" = minusculas "SAQUE") by reflexivity.
  assert (Hd : minusculas "Deposito" <> minusculas "SAQUE") by (vm_compute; discriminate).
  split.
  - split; [exact H12 |].
    exact (proj1 (X10_relatorio_sem_caixa minusculas "extrato" "EXTRATO"
                    (historico (conta corrente_com_1000)) [] 1 0%nat 500 3) H12).
  - split; [exact Hs |]. split; [exact Hd |].
    exact (proj2 (X10_relatorio_sem_caixa minusculas "saque" "SAQUE"
                    {| _transacoes := [] |}
                    [(Deposito 1000, "01-01-2025 10:00:00"%string);
                     (Saque 200, "01-01-2025 10:05:00"%string)]
                    1 0%nat 500 3) Hs Hd).
Defined.

(** ** The iterator over the accounts *)

Lemma skipn_nth_error_cons (A : Type) (l : list A) (i : nat) (x : A) :
  nth_error l i = Some x -> skipn i l = x :: skipn (S i) l.
Proof.
  revert i; induction l as [| y l IH]; intros [| i] H; simpl in *; try discriminate.
  - injection H as ->. reflexivity.
  - apply IH, H.
Qed.

Lemma para_cada_conta_desde (contas : list ContaCorrente) (passos i : nat) :
  (List.length contas - i < passos)%nat ->
  Terminal.para_cada_conta passos {| it_contas := contas; _index := i |} =
  Some (flat_map linhas_da_conta (skipn i contas),
        {| it_contas := contas; _index := Nat.max i (List.length contas) |}).
Proof.
  revert i; induction passos as [| passos IH]; intros i H; [lia |].
  simpl. unfold Terminal.ContasIterador_next; simpl.
  destruct (nth_error contas i) as [cc |] eqn:E.
  - assert (Hi : (i < List.length contas)%nat) by (apply nth_error_Some; congruence).
    rewrite IH by lia.
    rewrite (skipn_nth_error_cons _ _ _ _ E).
    replace (Nat.max (S i) (List.length contas)) with (Nat.max i (List.length contas)) by lia.
    reflexivity.
  - apply nth_error_None in E.
    rewrite skipn_all2 by lia.
    replace (Nat.max i (List.length contas)) with i by lia.
    reflexivity.
Qed.

(** X11.  The loop of [listar_contas] ends after one call of [__next__]
    more than there are accounts, and has then printed, for each account of
    the list once and in the order of the list, the separator and the line
    of that account; the cursor is left at the end of the list. *)
Theorem X11_listar_contas_percorre_todas (contas : list ContaCorrente) (k : nat) :
  Terminal.listar_contas (S (List.length contas + k)) contas =
    Some (flat_map linhas_da_conta contas) /\
  Terminal.para_cada_conta (S (List.length contas + k)) (Terminal.ContasIterador_init contas) =
    Some (flat_map linhas_da_conta contas,
          {| it_contas := contas; _index := List.length contas |}).
Proof.
  assert (H : Terminal.para_cada_conta (S (List.length contas + k))
                (Terminal.ContasIterador_init contas) =
              Some (flat_map linhas_da_conta contas,
                    {| it_contas := contas; _index := List.length contas |})).
  { unfold Terminal.ContasIterador_init. rewrite para_cada_conta_desde by lia.
    simpl. reflexivity. }
  split; [| exact H].
  unfold Terminal.listar_contas, Terminal.ContasIterador_iter. rewrite H. reflexivity.
Qed.

(** X12.  A [ContasIterador] can be walked once: [__iter__] returns the
    same object and nothing resets the cursor, so a second loop over the
    iterator a first loop has finished prints nothing and leaves it as it
    is, and [__next__] on it raises [StopIteration] again. *)
Theorem X12_iterador_de_uma_passada (contas : list ContaCorrente) (k j : nat) :
  match Terminal.para_cada_conta (S (List.length contas + k))
          (Terminal.ContasIterador_init contas) with
  | Some (_, final) =>
      Terminal.para_cada_conta (S j) (Terminal.ContasIterador_iter final) = Some ([], final) /\
      Terminal.ContasIterador_next final = (Levantou StopIteration, final)
  | None => False
  end.
Proof.
  unfold Terminal.ContasIterador_init. rewrite para_cada_conta_desde by lia. simpl.
  unfold Terminal.ContasIterador_iter, Terminal.ContasIterador_next. simpl.
  assert (E : nth_error contas (List.length contas) = None) by (apply nth_error_None; lia).
  rewrite E. split; reflexivity.
Qed.

(** ** Looking a customer up *)

Lemma filtrar_desde (c : string) (l : list PessoaFisica) (k : nat) :
  match filter (fun par => String.eqb (cpf (snd par)) c) (combine (seq k (List.length l)) l) with
  | [] => ~ In c (map cpf l)
  | par :: _ =>
      (k <= fst par)%nat /\
      nth_error l (fst par - k) = Some (snd par) /\
      cpf (snd par) = c /\
      forall (j : nat) (p : PessoaFisica),
        (j < fst par - k)%nat -> nth_error l j = Some p -> cpf p <> c
  end.
Proof.
  revert k; induction l as [| x l IH]; intros k; simpl.
  - intros [].
  - destruct (String.eqb_spec (cpf x) c) as [E | E]; simpl.
    + replace (k - k)%nat with 0%nat by lia. repeat split; auto. intros j p Hj. lia.
    + specialize (IH (S k)).
      destruct (filter _ (combine (seq (S k) (List.length l)) l)) as [| par rest].
      * intros [H | H]; [exact (E H) | exact (IH H)].
      * destruct IH as (Hk & Hn & Hc & Hf).
        split; [lia |].
        replace (fst par - k)%nat with (S (fst par - S k)) by lia. simpl.
        repeat split; auto.
        intros [| j] p Hj Hp; simpl in Hp.
        -- injection Hp as <-. exact E.
        -- apply (Hf j p); [lia | exact Hp].
Qed.

(** X13.  [filtrar_cliente] returns [None] exactly when no customer of
    the list has the CPF asked for; otherwise it returns a customer of the
    list with that CPF, and the first one in the order of the list. *)
Theorem X13_filtrar_cliente_primeiro (c : string) (l : list PessoaFisica) :
  match Terminal.filtrar_cliente c l with
  | None => ~ In c (map cpf l)
  | Some r =>
      exists p : PessoaFisica,
        nth_error l r = Some p /\ cpf p = c /\
        forall (j : nat) (p' : PessoaFisica),
          (j < r)%nat -> nth_error l j = Some p' -> cpf p' <> c
  end.
Proof.
  unfold Terminal.filtrar_cliente, enumerate.
  pose proof (filtrar_desde c l 0) as H.
  destruct (filter _ (combine (seq 0 (List.length l)) l)) as [| par rest].
  - exact H.
  - destruct H as (_ & Hn & Hc & Hf). rewrite Nat.sub_0_r in Hn, Hf.
    exists (snd par). auto.
Qed.

(** ** Registering customers and accounts *)

Lemma log_transacao_eq (A : Type) (nome_funcao : string) (func : Comando A)
    (agora : string) (m : Mundo) :
  Terminal.log_transacao nome_funcao func agora m =
  match func m with
  | (Retornou a, m1) => (Retornou a, snd (escrever (LinhaLog agora nome_funcao) m1))
  | (Levantou e, m1) => (Levantou e, m1)
  end.
Proof.
  unfold Terminal.log_transacao, cbind.
  destruct (func m) as [[a | e] m1]; reflexivity.
Qed.

Lemma filtrar_cliente_casos (c : string) (l : list PessoaFisica) :
  match Terminal.filtrar_cliente c l with
  | None => ~ In c (map cpf l)
  | Some r =>
      exists p : PessoaFisica,
        nth_error l r = Some p /\ cpf p = c /\
        forall (j : nat) (p' : PessoaFisica),
          (j < r)%nat -> nth_error l j = Some p' -> cpf p' <> c
  end.
Proof.
  unfold Terminal.filtrar_cliente, enumerate.
  pose proof (filtrar_desde c l 0) as H.
  destruct (filter _ (combine (seq 0 (List.length l)) l)) as [| par rest].
  - exact H.
  - destruct H as (_ & Hn & Hc & Hf). rewrite Nat.sub_0_r in Hn, Hf.
    exists (snd par). auto.
Qed.

Lemma filtrar_cliente_ausente (c : string) (l : list PessoaFisica) :
  ~ In c (map cpf l) -> Terminal.filtrar_cliente c l = None.
Proof.
  intros H. pose proof (filtrar_cliente_casos c l) as Hc.
  destruct (Terminal.filtrar_cliente c l) as [r |]; [| reflexivity].
  destruct Hc as (p & Hn & <- & _). exfalso. apply H.
  apply in_map, (nth_error_In _ _ Hn).
Qed.

(** What [criar_cliente] does, case by case. *)
Lemma criar_cliente_casos (len : string -> nat) (isdigit : string -> bool)
    (agora : string) (m : Mundo) :
  lista_contas (snd (Terminal.criar_cliente len isdigit agora m)) = lista_contas m /\
  (lista_clientes (snd (Terminal.criar_cliente len isdigit agora m)) = lista_clientes m \/
   exists (c n d e : string) (resto : list string),
     entrada m = c :: n :: d :: e :: resto /\
     entrada (snd (Terminal.criar_cliente len isdigit agora m)) = resto /\
     len c = 11%nat /\ isdigit c = true /\
     ~ In c (map cpf (lista_clientes m)) /\
     lista_clientes (snd (Terminal.criar_cliente len isdigit agora m)) =
       lista_clientes m ++ [Terminal.PessoaFisica_init n d c e]).
Proof.
  unfold Terminal.criar_cliente. rewrite log_transacao_eq.
  unfold Terminal.criar_cliente_corpo, Terminal.validar_cpf, cbind, input, o_mundo,
         escrever, cret, clientes_append.
  destruct (entrada m) as [| c e1]; simpl; [auto |].
  destruct (Nat.eqb_spec (len c) 11) as [Hl | Hl]; simpl; [| auto].
  destruct (isdigit c) eqn:Hd; simpl; [| auto].
  pose proof (filtrar_cliente_casos c (lista_clientes m)) as Hf.
  destruct (Terminal.filtrar_cliente c (lista_clientes m)) as [r |]; simpl; [auto |].
  destruct e1 as [| n e2]; simpl; [auto |].
  destruct e2 as [| d e3]; simpl; [auto |].
  destruct e3 as [| e resto]; simpl; [auto |].
  split; [reflexivity |]. right.
  exists c, n, d, e, resto. repeat split; auto.
Qed.

Lemma criar_cliente_aceito (len : string -> nat) (isdigit : string -> bool)
    (agora : string) (m : Mundo) (c n d e : string) (resto : list string) :
  entrada m = c :: n :: d :: e :: resto ->
  len c = 11%nat -> isdigit c = true ->
  ~ In c (map cpf (lista_clientes m)) ->
  fst (Terminal.criar_cliente len isdigit agora m) = Retornou tt /\
  lista_clientes (snd (Terminal.criar_cliente len isdigit agora m)) =
    lista_clientes m ++ [Terminal.PessoaFisica_init n d c e] /\
  entrada (snd (Terminal.criar_cliente len isdigit agora m)) = resto.
Proof.
  intros He Hl Hd Hn.
  unfold Terminal.criar_cliente. rewrite log_transacao_eq.
  unfold Terminal.criar_cliente_corpo, Terminal.validar_cpf, cbind, input, o_mundo,
         escrever, cret, clientes_append.
  rewrite He; simpl. rewrite Hl, Hd; simpl.
  rewrite (filtrar_cliente_ausente _ _ Hn); simpl. auto.
Qed.

(** X14.  [criar_cliente] never touches the accounts and never changes or
    removes a customer: either the list of customers is as it was, or
    exactly one customer was appended, built from four lines read in the
    order CPF, name, birth date, address, with no account, and then the CPF
    has 11 characters, is all digits and was not yet registered.  When the
    four lines are there and the CPF passes those three tests, the customer
    is appended. *)
Theorem X14_criar_cliente_acrescenta_ou_nada (len : string -> nat) (isdigit : string -> bool)
    (agora : string) (m : Mundo) :
  lista_contas (snd (Terminal.criar_cliente len isdigit agora m)) = lista_contas m /\
  (lista_clientes (snd (Terminal.criar_cliente len isdigit agora m)) = lista_clientes m \/
   exists (c n d e : string) (resto : list string),
     entrada m = c :: n :: d :: e :: resto /\
     entrada (snd (Terminal.criar_cliente len isdigit agora m)) = resto /\
     len c = 11%nat /\ isdigit c = true /\
     ~ In c (map cpf (lista_clientes m)) /\
     lista_clientes (snd (Terminal.criar_cliente len isdigit agora m)) =
       lista_clientes m ++ [Terminal.PessoaFisica_init n d c e]) /\
  (forall (c n d e : string) (resto : list string),
     entrada m = c :: n :: d :: e :: resto ->
     len c = 11%nat -> isdigit c = true ->
     ~ In c (map cpf (lista_clientes m)) ->
     fst (Terminal.criar_cliente len isdigit agora m) = Retornou tt /\
     lista_clientes (snd (Terminal.criar_cliente len isdigit agora m)) =
       lista_clientes m ++ [Terminal.PessoaFisica_init n d c e] /\
     entrada (snd (Terminal.criar_cliente len isdigit agora m)) = resto).
Proof.
  destruct (criar_cliente_casos len isdigit agora m) as [H1 H2].
  split; [exact H1 |]. split; [exact H2 |].
  intros c n d e resto. apply criar_cliente_aceito.
Qed.

(** Witness of X14: a second customer with a new CPF of 11 digits. *)
Lemma X14_witness :
  entrada mundo_com_um_cliente =
    ["98765432100"; "Ana Lima"; "02-03-1990"; "Rua B, 45"]%string /\
  String.length "98765432100" = 11%nat /\
  so_digitos "98765432100" = true /\
  ~ In "98765432100"%string (map cpf (lista_clientes mundo_com_um_cliente)) /\
  fst (Terminal.criar_cliente String.length so_digitos "2025-01-01 10:00:00" mundo_com_um_cliente)
    = Retornou tt /\
  lista_clientes
    (snd (Terminal.criar_cliente String.length so_digitos "2025-01-01 10:00:00"
            mundo_com_um_cliente)) =
    lista_clientes mundo_com_um_cliente ++
    [Terminal.PessoaFisica_init "Ana Lima" "02-03-1990" "98765432100" "Rua B, 45"] /\
  entrada
    (snd (Terminal.criar_cliente String.length so_digitos "2025-01-01 10:00:00"
            mundo_com_um_cliente)) = [].
Proof.
  assert (He : entrada mundo_com_um_cliente =
               ["98765432100"; "Ana Lima"; "02-03-1990"; "Rua B, 45"]%string) by reflexivity.
  assert (Hl : String.length "98765432100" = 11%nat) by reflexivity.
  assert (Hd : so_digitos "98765432100" = true) by reflexivity.
  assert (Hn : ~ In "98765432100"%string (map cpf (lista_clientes mundo_com_um_cliente))).
  { simpl. intros [H | []]. discriminate H. }
  split; [exact He |]. split; [exact Hl |]. split; [exact Hd |]. split; [exact Hn |].
  exact (proj2 (proj2 (X14_criar_cliente_acrescenta_ou_nada String.length so_digitos
                         "2025-01-01 10:00:00" mundo_com_um_cliente))
           "98765432100"%string "Ana Lima"%string "02-03-1990"%string "Rua B, 45"%string []
           He Hl Hd Hn).
Defined.

Lemma main_nc_eq (agora : string) (m : Mundo) :
  Terminal.main_nc agora m =
  Terminal.criar_conta (Z.of_nat (List.length (lista_contas m)) + 1) agora m.
Proof. reflexivity. Qed.

(** What [criar_conta] does, case by case. *)
Lemma criar_conta_casos (numero_conta : Z) (agora : string) (m : Mundo) :
  (lista_clientes (snd (Terminal.criar_conta numero_conta agora m)) = lista_clientes m /\
   lista_contas (snd (Terminal.criar_conta numero_conta agora m)) = lista_contas m) \/
  exists (c : string) (resto : list string) (r : RefCliente),
    entrada m = c :: resto /\
    entrada (snd (Terminal.criar_conta numero_conta agora m)) = resto /\
    Terminal.filtrar_cliente c (lista_clientes m) = Some r /\
    fst (Terminal.criar_conta numero_conta agora m) = Retornou tt /\
    lista_contas (snd (Terminal.criar_conta numero_conta agora m)) =
      lista_contas m ++
      [DataHora.ContaCorrente_nova_conta r numero_conta limite_padrao limite_saques_padrao] /\
    lista_clientes (snd (Terminal.criar_conta numero_conta agora m)) =
      no_objeto (PessoaFisica_contas_append (List.length (lista_contas m))) r
                (lista_clientes m).
Proof.
  unfold Terminal.criar_conta.
  rewrite log_transacao_eq.
  unfold Terminal.criar_conta_corpo, Terminal.buscar_cliente, cbind, input, o_mundo,
         escrever, cret, contas_append, cliente_contas_append.
  destruct (entrada m) as [| c resto]; simpl; [auto |].
  destruct (Terminal.filtrar_cliente c (lista_clientes m)) as [r |] eqn:E; simpl; [| auto].
  right. exists c, resto, r. repeat split; auto.
Qed.

(** What the branch ["nc"] of [main] does, case by case. *)
Lemma main_nc_casos (agora : string) (m : Mundo) :
  (lista_clientes (snd (Terminal.main_nc agora m)) = lista_clientes m /\
   lista_contas (snd (Terminal.main_nc agora m)) = lista_contas m) \/
  exists (c : string) (resto : list string) (r : RefCliente),
    entrada m = c :: resto /\
    entrada (snd (Terminal.main_nc agora m)) = resto /\
    Terminal.filtrar_cliente c (lista_clientes m) = Some r /\
    fst (Terminal.main_nc agora m) = Retornou tt /\
    lista_contas (snd (Terminal.main_nc agora m)) =
      lista_contas m ++
      [DataHora.ContaCorrente_nova_conta r (Z.of_nat (List.length (lista_contas m)) + 1)
         limite_padrao limite_saques_padrao] /\
    lista_clientes (snd (Terminal.main_nc agora m)) =
      no_objeto (PessoaFisica_contas_append (List.length (lista_contas m))) r
                (lista_clientes m).
Proof. rewrite main_nc_eq. apply criar_conta_casos. Qed.

Lemma criar_conta_aceita (numero_conta : Z) (agora : string) (m : Mundo)
    (c : string) (resto : list string) :
  entrada m = c :: resto ->
  In c (map cpf (lista_clientes m)) ->
  exists r : RefCliente,
    Terminal.filtrar_cliente c (lista_clientes m) = Some r /\
    fst (Terminal.criar_conta numero_conta agora m) = Retornou tt /\
    lista_contas (snd (Terminal.criar_conta numero_conta agora m)) =
      lista_contas m ++
      [DataHora.ContaCorrente_nova_conta r numero_conta limite_padrao limite_saques_padrao].
Proof.
  intros He Hin.
  pose proof (filtrar_cliente_casos c (lista_clientes m)) as Hf.
  destruct (Terminal.filtrar_cliente c (lista_clientes m)) as [r |] eqn:E;
    [| contradiction].
  exists r. split; [reflexivity |].
  unfold Terminal.criar_conta. rewrite log_transacao_eq.
  unfold Terminal.criar_conta_corpo, Terminal.buscar_cliente, cbind, input, o_mundo,
         escrever, cret, contas_append, cliente_contas_append.
  rewrite He; simpl. rewrite E; simpl. auto.
Qed.

(** X15.  [criar_conta] either leaves customers and accounts as they
    were, or appends exactly one account: a checking account with the
    number given, the default limits, balance 0 and an empty History, owned
    by the first customer whose CPF is the line read, and whose reference
    is appended to the accounts of that customer and of no other.  It does
    so whenever the CPF read is registered. *)
Theorem X15_criar_conta_acrescenta_ou_nada (numero_conta : Z) (agora : string) (m : Mundo) :
  ((lista_clientes (snd (Terminal.criar_conta numero_conta agora m)) = lista_clientes m /\
    lista_contas (snd (Terminal.criar_conta numero_conta agora m)) = lista_contas m) \/
   exists (c : string) (resto : list string) (r : RefCliente),
     entrada m = c :: resto /\
     Terminal.filtrar_cliente c (lista_clientes m) = Some r /\
     lista_contas (snd (Terminal.criar_conta numero_conta agora m)) =
       lista_contas m ++
       [ {| conta := {| _saldo := 0; _numero := numero_conta; _agencia := "0001";
                        _cliente := r; _historico := {| _transacoes := [] |} |};
            limite := 500; limite_saques := 3 |} ] /\
     lista_clientes (snd (Terminal.criar_conta numero_conta agora m)) =
       no_objeto (PessoaFisica_contas_append (List.length (lista_contas m))) r
                 (lista_clientes m)) /\
  (forall (c : string) (resto : list string),
     entrada m = c :: resto ->
     In c (map cpf (lista_clientes m)) ->
     fst (Terminal.criar_conta numero_conta agora m) = Retornou tt /\
     List.length (lista_contas (snd (Terminal.criar_conta numero_conta agora m))) =
       S (List.length (lista_contas m))).
Proof.
  split.
  - destruct (criar_conta_casos numero_conta agora m)
      as [H | (c & resto & r & He & _ & Hf & _ & Hc & Hl)]; [left; exact H |].
    right. exists c, resto, r. repeat split; assumption.
  - intros c resto He Hin.
    destruct (criar_conta_aceita numero_conta agora m c resto He Hin) as (r & _ & Hr & Hc).
    split; [exact Hr |]. rewrite Hc, length_app. simpl. lia.
Qed.

(** Witness of X15: the registered customer asks for an account. *)
Lemma X15_witness :
  entrada {| entrada := ["12345678900"%string]; impresso := [];
             lista_clientes := lista_clientes mundo_com_um_cliente;
             lista_contas := [] |} = ["12345678900"%string] /\
  In "12345678900"%string (map cpf (lista_clientes mundo_com_um_cliente)) /\
  fst (Terminal.criar_conta 1 "2025-01-01 10:00:00"
         {| entrada := ["12345678900"%string]; impresso := [];
            lista_clientes := lista_clientes mundo_com_um_cliente;
            lista_contas := [] |}) = Retornou tt /\
  List.length (lista_contas (snd (Terminal.criar_conta 1 "2025-01-01 10:00:00"
         {| entrada := ["12345678900"%string]; impresso := [];
            lista_clientes := lista_clientes mundo_com_um_cliente;
            lista_contas := [] |}))) = 1%nat.
Proof.
  assert (He : entrada {| entrada := ["12345678900"%string]; impresso := [];
                          lista_clientes := lista_clientes mundo_com_um_cliente;
                          lista_contas := [] |} = ["12345678900"%string]) by reflexivity.
  assert (Hin : In "12345678900"%string (map cpf (lista_clientes mundo_com_um_cliente)))
    by (simpl; left; reflexivity).
  split; [exact He |]. split; [exact Hin |].
  exact (proj2 (X15_criar_conta_acrescenta_ou_nada 1 "2025-01-01 10:00:00"
                  {| entrada := ["12345678900"%string]; impresso := [];
                     lista_clientes := lista_clientes mundo_com_um_cliente;
                     lista_contas := [] |})
           "12345678900"%string [] He Hin).
Defined.

(** ** The registry stays consistent *)

Lemma no_objeto_cpf (i : nat) (r : nat) (l : list PessoaFisica) :
  map cpf (no_objeto (PessoaFisica_contas_append i) r l) = map cpf l.
Proof.
  revert r; induction l as [| x l IH]; intros [| r]; simpl; try reflexivity.
  rewrite IH. reflexivity.
Qed.

Lemma nth_error_no_objeto (A : Type) (f : A -> A) (r k : nat) (l : list A) :
  nth_error (no_objeto f r l) k =
  if Nat.eqb k r then option_map f (nth_error l k) else nth_error l k.
Proof.
  revert r k; induction l as [| x l IH]; intros [| r] [| k]; simpl; try reflexivity.
  - destruct (Nat.eqb k r); reflexivity.
  - apply IH.
Qed.

Lemma cadastro_consistente_mesmas_listas (len : string -> nat) (isdigit : string -> bool)
    (m m' : Mundo) :
  lista_clientes m' = lista_clientes m ->
  lista_contas m' = lista_contas m ->
  cadastro_consistente len isdigit m -> cadastro_consistente len isdigit m'.
Proof.
  unfold cadastro_consistente. intros -> ->. auto.
Qed.

Lemma cadastro_consistente_criar_cliente (len : string -> nat) (isdigit : string -> bool)
    (agora : string) (m : Mundo) :
  cadastro_consistente len isdigit m ->
  cadastro_consistente len isdigit (snd (Terminal.criar_cliente len isdigit agora m)).
Proof.
  intros H.
  destruct (criar_cliente_casos len isdigit agora m)
    as [Hc [Hl | (c & n & d & e & resto & _ & _ & Hlen & Hdig & Hnovo & Hl)]].
  - apply (cadastro_consistente_mesmas_listas len isdigit m); assumption.
  - destruct H as (H1 & H2 & H3 & H4 & H5).
    unfold cadastro_consistente. rewrite Hc, Hl.
    split; [| split; [| split; [| split]]].
    + rewrite map_app. apply NoDup_app; [exact H1 | |].
      * simpl. constructor; [intros [] | constructor].
      * simpl. intros a Ha [<- | []]. exact (Hnovo Ha).
    + apply Forall_app. split; [exact H2 |].
      constructor; [simpl; auto | constructor].
    + exact H3.
    + intros i cc Hi. destruct (H4 i cc Hi) as (p & Hp & Hin).
      exists p. split; [| exact Hin].
      rewrite nth_error_app1; [exact Hp |]. apply nth_error_Some. congruence.
    + intros r p i Hp Hin.
      destruct (Nat.lt_ge_cases r (List.length (lista_clientes m))) as [Hr | Hr].
      * rewrite nth_error_app1 in Hp by exact Hr. exact (H5 r p i Hp Hin).
      * rewrite nth_error_app2 in Hp by exact Hr.
        destruct (r - List.length (lista_clientes m))%nat as [| k]; simpl in Hp.
        -- injection Hp as <-. destruct Hin.
        -- destruct k; discriminate Hp.
Qed.

Lemma cadastro_consistente_main_nc (len : string -> nat) (isdigit : string -> bool)
    (agora : string) (m : Mundo) :
  cadastro_consistente len isdigit m ->
  cadastro_consistente len isdigit (snd (Terminal.main_nc agora m)).
Proof.
  intros H.
  destruct (main_nc_casos agora m)
    as [[Hl Hc] | (c & resto & r & _ & _ & Hf & _ & Hc & Hl)].
  - apply (cadastro_consistente_mesmas_listas len isdigit m); assumption.
  - pose proof (filtrar_cliente_casos c (lista_clientes m)) as Hp. rewrite Hf in Hp.
    destruct Hp as (p & Hp & _).
    destruct H as (H1 & H2 & H3 & H4 & H5).
    set (n := List.length (lista_contas m)) in *.
    unfold cadastro_consistente. rewrite Hc, Hl.
    split; [| split; [| split; [| split]]].
    + rewrite no_objeto_cpf. exact H1.
    + apply (Forall_map cpf (fun c0 => len c0 = 11%nat /\ isdigit c0 = true)).
      rewrite no_objeto_cpf. apply Forall_map. exact H2.
    + rewrite map_app, length_app. simpl List.length.
      replace (List.length (lista_contas m) + 1)%nat with (S n) by (unfold n; lia).
      rewrite seq_S, map_app, H3. reflexivity.
    + intros i cc Hi.
      destruct (Nat.lt_ge_cases i n) as [Hlt | Hge].
      * rewrite nth_error_app1 in Hi by exact Hlt.
        destruct (H4 i cc Hi) as (p0 & Hp0 & Hin).
        rewrite nth_error_no_objeto, Hp0.
        destruct (Nat.eqb (cliente (conta cc)) r); simpl; eexists; split; try reflexivity.
        -- apply in_or_app. left. exact Hin.
        -- exact Hin.
      * rewrite nth_error_app2 in Hi by exact Hge.
        destruct (i - List.length (lista_contas m))%nat as [| k] eqn:Ek; simpl in Hi.
        -- injection Hi as <-. simpl.
           rewrite nth_error_no_objeto, Nat.eqb_refl, Hp. simpl.
           eexists; split; [reflexivity |]. simpl.
           apply in_or_app. right. left. unfold n in *. lia.
        -- destruct k; discriminate Hi.
    + intros k p0 i Hk Hin.
      rewrite nth_error_no_objeto in Hk.
      destruct (Nat.eqb_spec k r) as [-> | Hne].
      * rewrite Hp in Hk. simpl in Hk. injection Hk as <-. simpl in Hin.
        apply in_app_or in Hin as [Hin | [<- | []]].
        -- destruct (H5 r p i Hp Hin) as (cc & Hcc & Hr).
           exists cc. split; [| exact Hr].
           rewrite nth_error_app1; [exact Hcc |]. apply nth_error_Some. congruence.
        -- eexists. split.
           ++ rewrite nth_error_app2 by (unfold n; lia).
              replace (n - List.length (lista_contas m))%nat with 0%nat by (unfold n; lia).
              reflexivity.
           ++ reflexivity.
      * destruct (H5 k p0 i Hk Hin) as (cc & Hcc & Hr).
        exists cc. split; [| exact Hr].
        rewrite nth_error_app1; [exact Hcc |]. apply nth_error_Some. congruence.
Qed.

Lemma cadastro_consistente_sessao (len : string -> nat) (isdigit : string -> bool)
    (ops : list Terminal.Opcao) (m : Mundo) :
  cadastro_consistente len isdigit m ->
  cadastro_consistente len isdigit (Terminal.sessao len isdigit ops m).
Proof.
  revert m; induction ops as [| op ops IH]; intros m H; simpl; [exact H |].
  destruct op as [agora | agora].
  - pose proof (cadastro_consistente_criar_cliente len isdigit agora m H) as Hp.
    destruct (Terminal.criar_cliente len isdigit agora m) as [[u | e] m1]; simpl in Hp.
    + apply IH, Hp.
    + exact Hp.
  - pose proof (cadastro_consistente_main_nc len isdigit agora m H) as Hp.
    destruct (Terminal.main_nc agora m) as [[u | e] m1]; simpl in Hp.
    + apply IH, Hp.
    + exact Hp.
Qed.

(** X16.  Whatever is typed, after any sequence of the menu commands
    that register customers ([criar_cliente]) and open accounts (the
    branch ["nc"] of [main]), also when one of them ends the program by
    running out of input: no two customers have the same CPF and every
    registered CPF passed the validity test; the accounts are numbered 1,
    2, 3, ... in the order of creation; every account is listed by the
    customer it names and every account a customer lists names that
    customer. *)
Theorem X16_cadastro_consistente (len : string -> nat) (isdigit : string -> bool)
    (ops : list Terminal.Opcao) (linhas : list string) :
  cadastro_consistente len isdigit
    (Terminal.sessao len isdigit ops (mundo_inicial linhas)).
Proof.
  apply cadastro_consistente_sessao.
  unfold cadastro_consistente, mundo_inicial; simpl.
  split; [constructor |]. split; [constructor |]. split; [reflexivity |].
  split.
  - intros [| i] cc Hi; discriminate Hi.
  - intros [| r] p i Hp; discriminate Hp.
Qed.

(** A session of two commands: a customer is registered and opens an
    account, which gets the number 1 and is listed by the customer. *)
Example sessao_de_dois_comandos :
  lista_clientes
    (Terminal.sessao String.length so_digitos
       [Terminal.OpcaoNu "2025-01-01 10:00:00"; Terminal.OpcaoNc "2025-01-01 10:01:00"]
       (mundo_inicial ["12345678900"; "Luca Castro"; "29-08-1994"; "Rua A, 123";
                       "12345678900"]%string)) =
    [PessoaFisica_contas_append 0
       (Terminal.PessoaFisica_init "Luca Castro" "29-08-1994" "12345678900" "Rua A, 123")] /\
  lista_contas
    (Terminal.sessao String.length so_digitos
       [Terminal.OpcaoNu "2025-01-01 10:00:00"; Terminal.OpcaoNc "2025-01-01 10:01:00"]
       (mundo_inicial ["12345678900"; "Luca Castro"; "29-08-1994"; "Rua A, 123";
                       "12345678900"]%string)) =
    [DataHora.ContaCorrente_nova_conta 0%nat 1 500 3].
Proof. split; reflexivity. Qed.

(** ** Choosing the account of a customer *)

Lemma escrever_opcoes_eq (opcoes : list (nat * nat)) (m : Mundo) :
  Terminal.escrever_opcoes opcoes m =
  (Retornou tt,
   {| entrada := entrada m;
      impresso := impresso m ++ map (fun par => OpcaoConta (fst par) (snd par)) opcoes;
      lista_clientes := lista_clientes m;
      lista_contas := lista_contas m |}).
Proof.
  revert m; induction opcoes as [| [i c] opcoes IH]; intros m; simpl.
  - unfold cret. rewrite app_nil_r. destruct m; reflexivity.
  - unfold cbind, escrever. rewrite IH. simpl. rewrite <- app_assoc. reflexivity.
Qed.

Lemma indexar_In (A : Type) (l : list A) (i : Z) (x : A) :
  indexar l i = Some x -> In x l.
Proof.
  unfold indexar.
  destruct (0 <=? i); [apply nth_error_In |].
  destruct (- Z.of_nat (List.length l) <=? i); [apply nth_error_In | discriminate].
Qed.

(** The call for a customer with two accounts or more, in closed form. *)
Lemma recuperar_conta_cliente_varias (int : string -> option Z) (p : PessoaFisica) (m : Mundo) :
  (2 <= List.length (contas (como_cliente p)))%nat ->
  Terminal.recuperar_conta_cliente int p m =
  let m1 := {| entrada := entrada m;
               impresso := ((impresso m ++ [TituloEscolhaConta]) ++
                           map (fun par => OpcaoConta (fst par) (snd par))
                               (enumerate (contas (como_cliente p)))) ++
                           [PerguntaNumeroConta];
               lista_clientes := lista_clientes m;
               lista_contas := lista_contas m |} in
  match entrada m with
  | [] => (Levantou EOFError, m1)
  | texto :: resto =>
      let m2 := {| entrada := resto; impresso := impresso m1;
                   lista_clientes := lista_clientes m; lista_contas := lista_contas m |} in
      match int texto with
      | None => (Levantou ValueError, m2)
      | Some escolha =>
          match indexar (contas (como_cliente p)) escolha with
          | None => (Levantou IndexError, m2)
          | Some c => (Retornou (Some c), m2)
          end
      end
  end.
Proof.
  intros Hn. unfold Terminal.recuperar_conta_cliente.
  destruct (contas (como_cliente p)) as [| u1 [| u2 rest]] eqn:Ec;
    [simpl in Hn; lia | simpl in Hn; lia |].
  set (l := u1 :: u2 :: rest) in *.
  set (ops := enumerate l).
  unfold cbind. unfold escrever at 1. cbv beta iota.
  rewrite escrever_opcoes_eq. cbv beta iota.
  unfold input. cbv beta iota zeta. simpl entrada. simpl impresso. simpl lista_clientes. simpl lista_contas.
  destruct (entrada m) as [| texto resto]; [reflexivity |].
  destruct (int texto) as [escolha |]; [| reflexivity].
  destruct (indexar l escolha); reflexivity.
Qed.

(** The call with two accounts or more, once the answer is read. *)
Lemma recuperar_conta_cliente_escolha (int : string -> option Z) (p : PessoaFisica)
    (m : Mundo) (texto : string) (resto : list string) :
  (2 <= List.length (contas (como_cliente p)))%nat ->
  entrada m = texto :: resto ->
  fst (Terminal.recuperar_conta_cliente int p m) =
  match int texto with
  | None => Levantou ValueError
  | Some escolha =>
      match indexar (contas (como_cliente p)) escolha with
      | None => Levantou IndexError
      | Some c => Retornou (Some c)
      end
  end.
Proof.
  intros Hn He. rewrite (recuperar_conta_cliente_varias int p m Hn). rewrite He.
  cbv zeta.
  destruct (int texto) as [escolha |]; [| reflexivity].
  destruct (indexar (contas (como_cliente p)) escolha); reflexivity.
Qed.

Lemma recuperar_conta_cliente_casos (int : string -> option Z) (p : PessoaFisica) (m : Mundo) :
  lista_clientes (snd (Terminal.recuperar_conta_cliente int p m)) = lista_clientes m /\
  lista_contas (snd (Terminal.recuperar_conta_cliente int p m)) = lista_contas m /\
  match fst (Terminal.recuperar_conta_cliente int p m) with
  | Retornou (Some c) => In c (contas (como_cliente p))
  | Retornou None =>
      contas (como_cliente p) = [] /\
      entrada (snd (Terminal.recuperar_conta_cliente int p m)) = entrada m
  | Levantou e =>
      (2 <= List.length (contas (como_cliente p)))%nat /\
      (e = EOFError \/ e = ValueError \/ e = IndexError)
  end.
Proof.
  destruct (Nat.lt_ge_cases (List.length (contas (como_cliente p))) 2) as [Hn | Hn].
  - unfold Terminal.recuperar_conta_cliente.
    destruct (contas (como_cliente p)) as [| u1 [| u2 rest]]; simpl in Hn; [| | lia].
    + simpl. auto.
    + simpl. auto.
  - rewrite (recuperar_conta_cliente_varias int p m Hn). cbv zeta.
    destruct (entrada m) as [| texto resto]; simpl.
    + split; [reflexivity |]. split; [reflexivity |]. split; [exact Hn | auto].
    + destruct (int texto) as [escolha |]; simpl.
      * destruct (indexar (contas (como_cliente p)) escolha) as [c |] eqn:Ei; simpl.
        -- split; [reflexivity |]. split; [reflexivity |]. exact (indexar_In _ _ _ _ Ei).
        -- split; [reflexivity |]. split; [reflexivity |]. split; [exact Hn | auto].
      * split; [reflexivity |]. split; [reflexivity |]. split; [exact Hn | auto].
Qed.

(** X17.  [recuperar_conta_cliente] changes neither customers nor
    accounts, and an account it returns is always one of the customer
    given, never another customer's.  It returns [None] only for a customer
    without accounts, and then reads nothing; it raises only when the
    customer has two accounts or more, and then [EOFError], [ValueError] or
    [IndexError].  For a customer with exactly one account it returns that
    account and reads and writes nothing. *)
Theorem X17_recuperar_conta_do_cliente (int : string -> option Z) (p : PessoaFisica)
    (m : Mundo) :
  lista_clientes (snd (Terminal.recuperar_conta_cliente int p m)) = lista_clientes m /\
  lista_contas (snd (Terminal.recuperar_conta_cliente int p m)) = lista_contas m /\
  match fst (Terminal.recuperar_conta_cliente int p m) with
  | Retornou (Some c) => In c (contas (como_cliente p))
  | Retornou None =>
      contas (como_cliente p) = [] /\
      entrada (snd (Terminal.recuperar_conta_cliente int p m)) = entrada m
  | Levantou e =>
      (2 <= List.length (contas (como_cliente p)))%nat /\
      (e = EOFError \/ e = ValueError \/ e = IndexError)
  end /\
  (forall unica : nat,
     contas (como_cliente p) = [unica] ->
     Terminal.recuperar_conta_cliente int p m = (Retornou (Some unica), m)).
Proof.
  destruct (recuperar_conta_cliente_casos int p m) as (H1 & H2 & H3).
  split; [exact H1 |]. split; [exact H2 |]. split; [exact H3 |].
  intros unica Hu. unfold Terminal.recuperar_conta_cliente. rewrite Hu. reflexivity.
Qed.

(** Witness of X17: the customer whose only account is number 4 in the
    list of [main]. *)
Lemma X17_witness :
  contas (como_cliente cliente_com_uma_conta) = [4%nat] /\
  Terminal.recuperar_conta_cliente int_de_exemplo cliente_com_uma_conta
    (mundo_inicial ["-1"%string]) =
  (Retornou (Some 4%nat), mundo_inicial ["-1"%string]).
Proof.
  assert (H : contas (como_cliente cliente_com_uma_conta) = [4%nat]) by reflexivity.
  split; [exact H |].
  exact (proj2 (proj2 (proj2 (X17_recuperar_conta_do_cliente int_de_exemplo
                                cliente_com_uma_conta (mundo_inicial ["-1"%string]))))
           4%nat H).
Defined.

(** X18.  For a customer with [n >= 2] accounts the answer typed is used
    as a Python index into the accounts of the customer: an answer [k] with
    [0 <= k < n] selects the account at position [k]; a negative answer
    with [-n <= k] counts from the end, so that [-1] selects the last
    account; any other number raises [IndexError], and an answer that is
    not a number raises [ValueError]. *)
Theorem X18_escolha_como_indice (int : string -> option Z) (p : PessoaFisica) (m : Mundo)
    (texto : string) (resto : list string) (k : Z) :
  (2 <= List.length (contas (como_cliente p)))%nat ->
  entrada m = texto :: resto ->
  (int texto = None ->
     fst (Terminal.recuperar_conta_cliente int p m) = Levantou ValueError) /\
  (int texto = Some k ->
     (0 <= k < Z.of_nat (List.length (contas (como_cliente p))) ->
        exists c, nth_error (contas (como_cliente p)) (Z.to_nat k) = Some c /\
                  fst (Terminal.recuperar_conta_cliente int p m) = Retornou (Some c)) /\
     (- Z.of_nat (List.length (contas (como_cliente p))) <= k < 0 ->
        exists c,
          nth_error (contas (como_cliente p))
            (Z.to_nat (Z.of_nat (List.length (contas (como_cliente p))) + k)) = Some c /\
          fst (Terminal.recuperar_conta_cliente int p m) = Retornou (Some c)) /\
     (k < - Z.of_nat (List.length (contas (como_cliente p))) \/
      Z.of_nat (List.length (contas (como_cliente p))) <= k ->
        fst (Terminal.recuperar_conta_cliente int p m) = Levantou IndexError)).
Proof.
  intros Hn He.
  rewrite (recuperar_conta_cliente_escolha int p m texto resto Hn He).
  split; [intros ->; reflexivity |].
  intros ->. unfold indexar.
  set (l := contas (como_cliente p)) in *.
  split; [| split].
  - intros Hk. destruct (Z.leb_spec 0 k); [| lia].
    destruct (nth_error l (Z.to_nat k)) as [c |] eqn:E.
    + exists c. auto.
    + apply nth_error_None in E. lia.
  - intros Hk. destruct (Z.leb_spec 0 k); [lia |].
    destruct (Z.leb_spec (- Z.of_nat (List.length l)) k); [| lia].
    destruct (nth_error l (Z.to_nat (Z.of_nat (List.length l) + k))) as [c |] eqn:E.
    + exists c. auto.
    + apply nth_error_None in E. lia.
  - intros Hk. destruct (Z.leb_spec 0 k).
    + destruct (nth_error l (Z.to_nat k)) as [c |] eqn:E; [| reflexivity].
      assert (Z.to_nat k < List.length l)%nat by (apply nth_error_Some; congruence). lia.
    + destruct (Z.leb_spec (- Z.of_nat (List.length l)) k); [lia | reflexivity].
Qed.

(** Witness of X18: three accounts, the answer ["-1"] selects the last
    one. *)
Lemma X18_witness :
  (2 <= List.length (contas (como_cliente cliente_com_tres_contas)))%nat /\
  entrada (mundo_inicial ["-1"%string]) = ["-1"%string] /\
  int_de_exemplo "-1" = Some (-1) /\
  - Z.of_nat (List.length (contas (como_cliente cliente_com_tres_contas))) <= -1 < 0 /\
  exists c,
    nth_error (contas (como_cliente cliente_com_tres_contas))
      (Z.to_nat (Z.of_nat (List.length (contas (como_cliente cliente_com_tres_contas))) + -1))
      = Some c /\
    fst (Terminal.recuperar_conta_cliente int_de_exemplo cliente_com_tres_contas
           (mundo_inicial ["-1"%string])) = Retornou (Some c).
Proof.
  assert (Hn : (2 <= List.length (contas (como_cliente cliente_com_tres_contas)))%nat)
    by (simpl; lia).
  assert (He : entrada (mundo_inicial ["-1"%string]) = ["-1"%string]) by reflexivity.
  assert (Hi : int_de_exemplo "-1" = Some (-1)) by reflexivity.
  assert (Hk : - Z.of_nat (List.length (contas (como_cliente cliente_com_tres_contas)))
               <= -1 < 0) by (simpl; lia).
  split; [exact Hn |]. split; [exact He |]. split; [exact Hi |]. split; [exact Hk |].
  exact (proj1 (proj2 (proj2 (X18_escolha_como_indice int_de_exemplo cliente_com_tres_contas
                                (mundo_inicial ["-1"%string]) "-1"%string [] (-1) Hn He) Hi))
           Hk).
Defined.

(** ** What the registering commands answer when they refuse *)

(** X19.  [criar_cliente] refuses a CPF that has not 11 characters or is
    not all digits, and one that is already registered: it writes the
    corresponding notice, asks nothing more (the lines after the CPF stay
    unread for the next command), changes no list, and returns, so that its
    log line is written.  [criar_conta] does the same for a CPF that is not
    registered.  With no line left to read, either command raises
    [EOFError] after its question, and no log line is written. *)
Theorem X19_recusas_dos_cadastros (len : string -> nat) (isdigit : string -> bool)
    (agora : string) (numero_conta : Z) (m : Mundo) (c : string) (resto : list string) :
  (entrada m = c :: resto ->
   len c <> 11%nat \/ isdigit c = false ->
   Terminal.criar_cliente len isdigit agora m =
   (Retornou tt,
    {| entrada := resto;
       impresso := impresso m ++
                   [PerguntaCPF; AvisoCPFInvalido; LinhaLog agora "CRIAR_CLIENTE"];
       lista_clientes := lista_clientes m;
       lista_contas := lista_contas m |})) /\
  (entrada m = c :: resto ->
   len c = 11%nat -> isdigit c = true ->
   In c (map cpf (lista_clientes m)) ->
   Terminal.criar_cliente len isdigit agora m =
   (Retornou tt,
    {| entrada := resto;
       impresso := impresso m ++
                   [PerguntaCPF; AvisoClienteJaExiste; LinhaLog agora "CRIAR_CLIENTE"];
       lista_clientes := lista_clientes m;
       lista_contas := lista_contas m |})) /\
  (entrada m = c :: resto ->
   ~ In c (map cpf (lista_clientes m)) ->
   Terminal.criar_conta numero_conta agora m =
   (Retornou tt,
    {| entrada := resto;
       impresso := impresso m ++
                   [PerguntaCPFCliente; AvisoClienteNaoEncontrado;
                    LinhaLog agora "CRIAR_CONTA"];
       lista_clientes := lista_clientes m;
       lista_contas := lista_contas m |})) /\
  (entrada m = [] ->
   Terminal.criar_cliente len isdigit agora m =
   (Levantou EOFError,
    {| entrada := []; impresso := impresso m ++ [PerguntaCPF];
       lista_clientes := lista_clientes m; lista_contas := lista_contas m |}) /\
   Terminal.criar_conta numero_conta agora m =
   (Levantou EOFError,
    {| entrada := []; impresso := impresso m ++ [PerguntaCPFCliente];
       lista_clientes := lista_clientes m; lista_contas := lista_contas m |})).
Proof.
  split; [| split; [| split]].
  - intros He Hinv.
    unfold Terminal.criar_cliente. rewrite log_transacao_eq.
    unfold Terminal.criar_cliente_corpo, Terminal.validar_cpf, cbind, input, o_mundo,
           escrever, cret.
    rewrite He; simpl.
    assert (E : (negb (Nat.eqb (len c) 11) || negb (isdigit c))%bool = true).
    { destruct Hinv as [H | H].
      - apply Nat.eqb_neq in H. rewrite H. reflexivity.
      - rewrite H. apply orb_true_r. }
    rewrite E; simpl. rewrite <- !app_assoc. reflexivity.
  - intros He Hl Hd Hin.
    unfold Terminal.criar_cliente. rewrite log_transacao_eq.
    unfold Terminal.criar_cliente_corpo, Terminal.validar_cpf, cbind, input, o_mundo,
           escrever, cret.
    rewrite He; simpl. rewrite Hl, Hd; simpl.
    pose proof (filtrar_cliente_casos c (lista_clientes m)) as Hf.
    destruct (Terminal.filtrar_cliente c (lista_clientes m)) as [r |]; [| contradiction].
    simpl. rewrite <- !app_assoc. reflexivity.
  - intros He Hn.
    unfold Terminal.criar_conta. rewrite log_transacao_eq.
    unfold Terminal.criar_conta_corpo, Terminal.buscar_cliente, cbind, input, o_mundo,
           escrever, cret.
    rewrite He; simpl. rewrite (filtrar_cliente_ausente _ _ Hn); simpl.
    rewrite <- !app_assoc. reflexivity.
  - intros He. split.
    + unfold Terminal.criar_cliente. rewrite log_transacao_eq.
      unfold Terminal.criar_cliente_corpo, cbind, input.
      rewrite He; simpl. reflexivity.
    + unfold Terminal.criar_conta. rewrite log_transacao_eq.
      unfold Terminal.criar_conta_corpo, Terminal.buscar_cliente, cbind, input.
      rewrite He; simpl. reflexivity.
Qed.

(** Witness of X19: with one customer registered, a CPF with punctuation
    is refused, the registered CPF is refused as a duplicate, and an
    unknown CPF gets no account. *)
Lemma X19_witness :
  Terminal.criar_cliente String.length so_digitos "2025-01-01 10:00:00"
    {| entrada := ["123.456.789-00"; "Ana Lima"]%string; impresso := [];
       lista_clientes := lista_clientes mundo_com_um_cliente; lista_contas := [] |} =
  (Retornou tt,
   {| entrada := ["Ana Lima"%string];
      impresso := [PerguntaCPF; AvisoCPFInvalido;
                   LinhaLog "2025-01-01 10:00:00" "CRIAR_CLIENTE"];
      lista_clientes := lista_clientes mundo_com_um_cliente; lista_contas := [] |}) /\
  Terminal.criar_cliente String.length so_digitos "2025-01-01 10:00:00"
    {| entrada := ["12345678900"; "Ana Lima"]%string; impresso := [];
       lista_clientes := lista_clientes mundo_com_um_cliente; lista_contas := [] |} =
  (Retornou tt,
   {| entrada := ["Ana Lima"%string];
      impresso := [PerguntaCPF; AvisoClienteJaExiste;
                   LinhaLog "2025-01-01 10:00:00" "CRIAR_CLIENTE"];
      lista_clientes := lista_clientes mundo_com_um_cliente; lista_contas := [] |}) /\
  Terminal.criar_conta 1 "2025-01-01 10:00:00" mundo_com_um_cliente =
  (Retornou tt,
   {| entrada := ["Ana Lima"; "02-03-1990"; "Rua B, 45"]%string;
      impresso := [PerguntaCPFCliente; AvisoClienteNaoEncontrado;
                   LinhaLog "2025-01-01 10:00:00" "CRIAR_CONTA"];
      lista_clientes := lista_clientes mundo_com_um_cliente; lista_contas := [] |}).
Proof.
  split; [| split].
  - refine (proj1 (X19_recusas_dos_cadastros String.length so_digitos "2025-01-01 10:00:00" 1
                     {| entrada := ["123.456.789-00"; "Ana Lima"]%string; impresso := [];
                        lista_clientes := lista_clientes mundo_com_um_cliente;
                        lista_contas := [] |}
                     "123.456.789-00"%string ["Ana Lima"%string]) eq_refl _).
    left. simpl. lia.
  - refine (proj1 (proj2 (X19_recusas_dos_cadastros String.length so_digitos
                     "2025-01-01 10:00:00" 1
                     {| entrada := ["12345678900"; "Ana Lima"]%string; impresso := [];
                        lista_clientes := lista_clientes mundo_com_um_cliente;
                        lista_contas := [] |}
                     "12345678900"%string ["Ana Lima"%string])) eq_refl eq_refl eq_refl _).
    simpl. left. reflexivity.
  - refine (proj1 (proj2 (proj2 (X19_recusas_dos_cadastros String.length so_digitos
                     "2025-01-01 10:00:00" 1 mundo_com_um_cliente
                     "98765432100"%string ["Ana Lima"; "02-03-1990"; "Rua B, 45"]%string)))
              eq_refl _).
    simpl. intros [H | []]. discriminate H.
Defined.

(** * The second file on floating-point amounts *)

(** ** Comparisons and sums of floats *)

Lemma float_positivo_nao_e_nao_positivo (a : float) :
  PrimFloat.ltb 0 a = true -> PrimFloat.leb a 0 = false.
Proof.
  rewrite FloatAxioms.ltb_spec, FloatAxioms.leb_spec. unfold SFltb, SFleb, SFcompare.
  change (Prim2SF 0) with (S754_zero false).
  destruct (Prim2SF a) as [s | s | | s m e]; try destruct s; simpl; congruence.
Qed.

Lemma float_nan_nao_compara (x : float) :
  PrimFloat.ltb x nan = false /\ PrimFloat.ltb nan x = false /\
  PrimFloat.leb nan x = false /\ PrimFloat.leb x nan = false.
Proof.
  rewrite !FloatAxioms.ltb_spec, !FloatAxioms.leb_spec. unfold SFltb, SFleb, SFcompare.
  change (Prim2SF nan) with S754_nan.
  destruct (Prim2SF x) as [s | s | | s m e]; try destruct s; simpl; auto.
Qed.

Lemma float_soma_nan (x : float) :
  PrimFloat.is_nan (PrimFloat.add x nan) = true /\
  PrimFloat.is_nan (PrimFloat.sub x nan) = true.
Proof.
  unfold PrimFloat.is_nan.
  rewrite !FloatAxioms.eqb_spec, FloatAxioms.add_spec, FloatAxioms.sub_spec.
  change (Prim2SF nan) with S754_nan.
  destruct (Prim2SF x) as [s | s | | s m e]; try destruct s; simpl; auto.
Qed.

(** ** The methods as case distinctions *)

Ltac abrir_metodo_flutuante :=
  cbv beta iota delta [bind ret print ler gravar Flutuante.super retorno depois saida
                       Flutuante.saldo Flutuante.historico Flutuante.transacoes
                       Flutuante.como_conta].

Lemma Flutuante_ContaCorrente_eta (cc : Flutuante.ContaCorrente) :
  {| Flutuante.conta := Flutuante.conta cc;
     Flutuante._limite := Flutuante._limite cc;
     Flutuante._limite_saques := Flutuante._limite_saques cc |} = cc.
Proof. destruct cc; reflexivity. Qed.

Lemma Flutuante_Conta_sacar_eq (valor : float) (c : Flutuante.Conta) :
  Flutuante.Conta_sacar valor c =
  if Flutuante.maior valor (Flutuante._saldo c) then (false, c, [MsgSaldoInsuficiente])
  else if Flutuante.menor_ou_igual valor 0 then (false, c, [MsgValorInvalido])
  else (true,
        Flutuante.atribuir_saldo c (PrimFloat.sub (Flutuante._saldo c) valor),
        [MsgSaqueRealizado]).
Proof.
  unfold Flutuante.Conta_sacar. abrir_metodo_flutuante.
  destruct (Flutuante.maior valor (Flutuante._saldo c)); [reflexivity |].
  destruct (Flutuante.menor_ou_igual valor 0); reflexivity.
Qed.

Lemma Flutuante_Conta_depositar_eq (valor : float) (c : Flutuante.Conta) :
  Flutuante.Conta_depositar valor c =
  if Flutuante.menor_ou_igual valor 0 then (false, c, [MsgValorInvalido])
  else (true,
        Flutuante.atribuir_saldo c (PrimFloat.add (Flutuante._saldo c) valor),
        [MsgDepositoRealizado]).
Proof.
  unfold Flutuante.Conta_depositar. abrir_metodo_flutuante.
  destruct (Flutuante.menor_ou_igual valor 0); reflexivity.
Qed.

Lemma Flutuante_ContaCorrente_sacar_eq (valor : float) (cc : Flutuante.ContaCorrente) :
  Flutuante.ContaCorrente_sacar valor cc =
  if Flutuante.maior valor (Flutuante._limite cc) then (false, cc, [MsgExcedeLimite])
  else if Flutuante.numero_saques (Flutuante._historico (Flutuante.conta cc))
          >=? Flutuante._limite_saques cc
       then (false, cc, [MsgSaquesExcedidoDe (Flutuante._limite_saques cc)])
  else Flutuante.super (Flutuante.Conta_sacar valor) cc.
Proof.
  unfold Flutuante.ContaCorrente_sacar. abrir_metodo_flutuante.
  destruct (Flutuante.maior valor (Flutuante._limite cc)); [reflexivity |].
  destruct (_ >=? Flutuante._limite_saques cc); [reflexivity |].
  destruct (Flutuante.Conta_sacar valor (Flutuante.conta cc)) as [[r c'] out]; reflexivity.
Qed.


(** [depositar] on an object of either class. *)
Lemma Flutuante_depositar_casos (x : float) (f : Flutuante.Objeto) :
  (Flutuante.menor_ou_igual x 0 = true ->
     retorno (Flutuante.depositar x f) = false /\ depois (Flutuante.depositar x f) = f) /\
  (Flutuante.menor_ou_igual x 0 = false ->
     retorno (Flutuante.depositar x f) = true /\
     Flutuante.saldo (Flutuante.como_conta (depois (Flutuante.depositar x f))) =
       PrimFloat.add (Flutuante.saldo (Flutuante.como_conta f)) x /\
     Flutuante.historico (Flutuante.como_conta (depois (Flutuante.depositar x f))) =
       Flutuante.historico (Flutuante.como_conta f)).
Proof.
  destruct f as [c | cc]; unfold Flutuante.depositar, Flutuante.super;
    rewrite Flutuante_Conta_depositar_eq;
    split; intros ->; simpl; rewrite ?Flutuante_ContaCorrente_eta; repeat split.
Qed.

(** ** Withdrawal within and beyond the balance *)




(** ** Deposit *)

(** C2, as claimed, fails on the floats of the second file, where the sum
    is rounded: on a plain account holding 1e16, [depositar(1.0)] returns
    [True] and leaves the balance at 1e16; on a new account,
    [depositar(0.1)] and then [depositar(0.2)] leave
    0.30000000000000004, which is not 0.3. *)
Lemma C2_counterexample :
  (Flutuante.saldo flutuante_conta_1e16 = 1e16%float /\
   Flutuante.maior 1 0 = true /\
   retorno (Flutuante.Conta_depositar 1 flutuante_conta_1e16) = true /\
   Flutuante.saldo (depois (Flutuante.Conta_depositar 1 flutuante_conta_1e16)) = 1e16%float) /\
  (Flutuante.saldo flutuante_conta_nova = 0%float /\
   retorno (Flutuante.Conta_depositar 0.1 flutuante_conta_nova) = true /\
   retorno (Flutuante.Conta_depositar 0.2
              (depois (Flutuante.Conta_depositar 0.1 flutuante_conta_nova))) = true /\
   Flutuante.saldo (depois (Flutuante.Conta_depositar 0.2
                      (depois (Flutuante.Conta_depositar 0.1 flutuante_conta_nova))))
   = 0.30000000000000004%float /\
   PrimFloat.eqb 0.30000000000000004 0.3 = false).
Proof. repeat split; reflexivity. Qed.

(** C2, amended.  [depositar] with an amount [a <= 0] returns [False]
    and leaves the balance unchanged; with [a > 0] it returns [True] and
    the balance becomes the sum of the balance and [a] as Python computes
    it: exactly [a] more on integer amounts (both files), the floating-point
    sum, rounded, on the floats of the second file.  In both cases the
    History of the account is the one it had.  For an object of either
    class. *)
Theorem C2_depositar_saldo_e_historico (o : Objeto) (a : Z)
    (f : Flutuante.Objeto) (x : float) :
  (a <= 0 ->
     retorno (POO.depositar a o) = false /\
     saldo (como_conta (depois (POO.depositar a o))) = saldo (como_conta o) /\
     historico (como_conta (depois (POO.depositar a o))) = historico (como_conta o)) /\
  (a > 0 ->
     retorno (POO.depositar a o) = true /\
     saldo (como_conta (depois (POO.depositar a o))) = saldo (como_conta o) + a /\
     historico (como_conta (depois (POO.depositar a o))) = historico (como_conta o)) /\
  (a <= 0 ->
     retorno (DataHora.depositar a o) = false /\
     saldo (como_conta (depois (DataHora.depositar a o))) = saldo (como_conta o) /\
     historico (como_conta (depois (DataHora.depositar a o))) = historico (como_conta o)) /\
  (a > 0 ->
     retorno (DataHora.depositar a o) = true /\
     saldo (como_conta (depois (DataHora.depositar a o))) = saldo (como_conta o) + a /\
     historico (como_conta (depois (DataHora.depositar a o))) = historico (como_conta o)) /\
  (Flutuante.menor_ou_igual x 0 = true ->
     retorno (Flutuante.depositar x f) = false /\
     Flutuante.saldo (Flutuante.como_conta (depois (Flutuante.depositar x f))) =
       Flutuante.saldo (Flutuante.como_conta f) /\
     Flutuante.historico (Flutuante.como_conta (depois (Flutuante.depositar x f))) =
       Flutuante.historico (Flutuante.como_conta f)) /\
  (Flutuante.maior x 0 = true ->
     retorno (Flutuante.depositar x f) = true /\
     Flutuante.saldo (Flutuante.como_conta (depois (Flutuante.depositar x f))) =
       PrimFloat.add (Flutuante.saldo (Flutuante.como_conta f)) x /\
     Flutuante.historico (Flutuante.como_conta (depois (Flutuante.depositar x f))) =
       Flutuante.historico (Flutuante.como_conta f)).
Proof.
  destruct (depositar_inteiros_saldo_e_historico o a) as (H1 & H2 & H3 & H4).
  split; [exact H1 |]. split; [exact H2 |]. split; [exact H3 |]. split; [exact H4 |].
  destruct (Flutuante_depositar_casos x f) as [Hn Hp].
  split.
  - intros H. destruct (Hn H) as [Hr ->]. auto.
  - intros H. apply Hp. apply float_positivo_nao_e_nao_positivo. exact H.
Qed.

(** Witness of C2: the checking account with balance 1000, depositing 0
    and 250; the checking account holding 0.1, depositing -1.5 and 0.2. *)
Lemma C2_witness :
  (0 <= 0 /\
   retorno (POO.depositar 0 (DeContaCorrente corrente_com_1000)) = false /\
   saldo (como_conta (depois (POO.depositar 0 (DeContaCorrente corrente_com_1000))))
     = saldo (como_conta (DeContaCorrente corrente_com_1000)) /\
   historico (como_conta (depois (POO.depositar 0 (DeContaCorrente corrente_com_1000))))
     = historico (como_conta (DeContaCorrente corrente_com_1000))) /\
  (250 > 0 /\
   retorno (DataHora.depositar 250 (DeContaCorrente corrente_com_1000)) = true /\
   saldo (como_conta (depois (DataHora.depositar 250 (DeContaCorrente corrente_com_1000))))
     = saldo (como_conta (DeContaCorrente corrente_com_1000)) + 250 /\
   historico (como_conta (depois (DataHora.depositar 250 (DeContaCorrente corrente_com_1000))))
     = historico (como_conta (DeContaCorrente corrente_com_1000))) /\
  (Flutuante.menor_ou_igual (-1.5) 0 = true /\
   retorno (Flutuante.depositar (-1.5) flutuante_corrente_com_01) = false /\
   Flutuante.saldo (Flutuante.como_conta
     (depois (Flutuante.depositar (-1.5) flutuante_corrente_com_01))) =
     Flutuante.saldo (Flutuante.como_conta flutuante_corrente_com_01) /\
   Flutuante.historico (Flutuante.como_conta
     (depois (Flutuante.depositar (-1.5) flutuante_corrente_com_01))) =
     Flutuante.historico (Flutuante.como_conta flutuante_corrente_com_01)) /\
  (Flutuante.maior 0.2 0 = true /\
   retorno (Flutuante.depositar 0.2 flutuante_corrente_com_01) = true /\
   Flutuante.saldo (Flutuante.como_conta
     (depois (Flutuante.depositar 0.2 flutuante_corrente_com_01))) =
     PrimFloat.add (Flutuante.saldo (Flutuante.como_conta flutuante_corrente_com_01)) 0.2 /\
   Flutuante.historico (Flutuante.como_conta
     (depois (Flutuante.depositar 0.2 flutuante_corrente_com_01))) =
     Flutuante.historico (Flutuante.como_conta flutuante_corrente_com_01)).
Proof.
  assert (Ha : 0 <= 0) by lia.
  assert (Hb : 250 > 0) by lia.
  assert (Hc : Flutuante.menor_ou_igual (-1.5) 0 = true) by reflexivity.
  assert (Hd : Flutuante.maior 0.2 0 = true) by reflexivity.
  split; [| split; [| split]].
  - split; [exact Ha |].
    exact (proj1 (C2_depositar_saldo_e_historico (DeContaCorrente corrente_com_1000) 0
                    flutuante_corrente_com_01 (-1.5)) Ha).
  - split; [exact Hb |].
    exact (proj1 (proj2 (proj2 (proj2
             (C2_depositar_saldo_e_historico (DeContaCorrente corrente_com_1000) 250
                flutuante_corrente_com_01 (-1.5))))) Hb).
  - split; [exact Hc |].
    exact (proj1 (proj2 (proj2 (proj2 (proj2
             (C2_depositar_saldo_e_historico (DeContaCorrente corrente_com_1000) 0
                flutuante_corrente_com_01 (-1.5)))))) Hc).
  - split; [exact Hd |].
    exact (proj2 (proj2 (proj2 (proj2 (proj2
             (C2_depositar_saldo_e_historico (DeContaCorrente corrente_com_1000) 0
                flutuante_corrente_com_01 0.2))))) Hd).
Defined.

(** ** An amount that is not a number *)

Lemma float_is_nan_nao_compara (s v : float) :
  PrimFloat.is_nan s = true -> PrimFloat.ltb s v = false.
Proof.
  unfold PrimFloat.is_nan. rewrite FloatAxioms.eqb_spec, FloatAxioms.ltb_spec.
  unfold SFeqb, SFltb, SFcompare.
  destruct (Prim2SF s) as [b | b | | b m e]; try destruct b; simpl; try discriminate.
  - reflexivity.
  - rewrite Z.compare_refl, Pos.compare_cont_refl. discriminate.
  - rewrite Z.compare_refl, Pos.compare_cont_refl. discriminate.
Qed.

Lemma Flutuante_nan_nos_testes (s : float) :
  Flutuante.maior nan s = false /\ Flutuante.menor_ou_igual nan 0 = false.
Proof.
  unfold Flutuante.maior, Flutuante.menor_ou_igual.
  destruct (float_nan_nao_compara s) as (H1 & _ & _ & _). split; [exact H1 | reflexivity].
Qed.

(** X20.  On the floats of the second file an amount that is NaN fails
    every comparison and so passes every check.  [depositar(nan)] returns
    [True] on every account and the balance becomes NaN; [registrar] of
    [Deposito(nan)] appends an entry with the amount NaN to the History;
    [sacar(nan)] returns [True] on a plain account, and on a checking
    account with fewer recorded withdrawals than the maximum, and leaves a
    NaN balance.  Once the balance is NaN, [Conta.sacar] accepts every
    amount for which [valor <= 0] is false. *)
Theorem X20_nan_passa_pelas_verificacoes (c : Flutuante.Conta) (cc : Flutuante.ContaCorrente)
    (f : Flutuante.Objeto) (agora : string) (v : float) :
  (retorno (Flutuante.depositar nan f) = true /\
   PrimFloat.is_nan
     (Flutuante.saldo (Flutuante.como_conta (depois (Flutuante.depositar nan f)))) = true) /\
  Flutuante.transacoes (Flutuante.historico (Flutuante.como_conta
    (depois (Flutuante.registrar (Flutuante.Deposito nan) agora f)))) =
  Flutuante.transacoes (Flutuante.historico (Flutuante.como_conta f)) ++
  [ {| Flutuante.tipo := "Deposito"; Flutuante.valor := nan; Flutuante.data := agora |} ] /\
  (retorno (Flutuante.Conta_sacar nan c) = true /\
   PrimFloat.is_nan (Flutuante.saldo (depois (Flutuante.Conta_sacar nan c))) = true) /\
  (Flutuante.numero_saques (Flutuante.historico (Flutuante.conta cc))
     < Flutuante._limite_saques cc ->
   retorno (Flutuante.ContaCorrente_sacar nan cc) = true /\
   PrimFloat.is_nan
     (Flutuante.saldo (Flutuante.conta (depois (Flutuante.ContaCorrente_sacar nan cc)))) = true) /\
  (PrimFloat.is_nan (Flutuante.saldo c) = true ->
   Flutuante.menor_ou_igual v 0 = false ->
   retorno (Flutuante.Conta_sacar v c) = true).
Proof.
  split; [| split; [| split; [| split]]].
  - destruct (Flutuante_depositar_casos nan f) as [_ Hp].
    destruct (Hp eq_refl) as (Hr & Hs & _). split; [exact Hr |].
    rewrite Hs. apply float_soma_nan.
  - unfold Flutuante.registrar, Flutuante.Deposito_registrar, bind. simpl.
    destruct (Flutuante_depositar_casos nan f) as [_ Hp].
    destruct (Hp eq_refl) as (Hr & _ & Hh).
    destruct (Flutuante.depositar nan f) as [[r f'] out].
    unfold retorno in Hr; simpl in Hr. subst r. unfold depois in Hh; simpl in Hh.
    clear Hp.
    destruct f' as [c' | cc']; simpl in *;
      unfold Flutuante.transacoes; rewrite Hh; reflexivity.
  - rewrite Flutuante_Conta_sacar_eq.
    destruct (Flutuante_nan_nos_testes (Flutuante._saldo c)) as [-> ->].
    split; [reflexivity |]. simpl. apply float_soma_nan.
  - intros Hn. rewrite Flutuante_ContaCorrente_sacar_eq.
    destruct (Flutuante_nan_nos_testes (Flutuante._limite cc)) as [-> _].
    unfold Flutuante.historico in Hn.
    destruct (Z.geb_spec (Flutuante.numero_saques (Flutuante._historico (Flutuante.conta cc)))
                (Flutuante._limite_saques cc)); [lia |].
    unfold Flutuante.super. rewrite Flutuante_Conta_sacar_eq.
    destruct (Flutuante_nan_nos_testes (Flutuante._saldo (Flutuante.conta cc))) as [-> ->].
    split; [reflexivity |]. simpl. apply float_soma_nan.
  - intros Hs Hv. rewrite Flutuante_Conta_sacar_eq.
    unfold Flutuante.maior. unfold Flutuante.saldo in Hs.
    rewrite (float_is_nan_nao_compara _ v Hs), Hv. reflexivity.
Qed.

(** Witness of X20: a new checking account (no withdrawal recorded,
    maximum 3) and a plain account whose balance is NaN, asked for 100. *)
Lemma X20_witness :
  (Flutuante.numero_saques (Flutuante.historico (Flutuante.conta flutuante_corrente_nova))
     < Flutuante._limite_saques flutuante_corrente_nova /\
   retorno (Flutuante.ContaCorrente_sacar nan flutuante_corrente_nova) = true) /\
  (PrimFloat.is_nan (Flutuante.saldo flutuante_conta_nan) = true /\
   Flutuante.menor_ou_igual 100 0 = false /\
   retorno (Flutuante.Conta_sacar 100 flutuante_conta_nan) = true).
Proof.
  assert (Hn : Flutuante.numero_saques
                 (Flutuante.historico (Flutuante.conta flutuante_corrente_nova))
               < Flutuante._limite_saques flutuante_corrente_nova)
    by (change (0 < 3); lia).
  assert (Hs : PrimFloat.is_nan (Flutuante.saldo flutuante_conta_nan) = true) by reflexivity.
  assert (Hv : Flutuante.menor_ou_igual 100 0 = false) by reflexivity.
  split.
  - split; [exact Hn |].
    exact (proj1 (proj1 (proj2 (proj2 (proj2
             (X20_nan_passa_pelas_verificacoes flutuante_conta_nan flutuante_corrente_nova
                (Flutuante.DeConta flutuante_conta_nan) "t" 100)))) Hn)).
  - split; [exact Hs |]. split; [exact Hv |].
    exact (proj2 (proj2 (proj2 (proj2
             (X20_nan_passa_pelas_verificacoes flutuante_conta_nan flutuante_corrente_nova
                (Flutuante.DeConta flutuante_conta_nan) "t" 100)))) Hs Hv).
Defined.
